(** * Aggressive-flow monitor: a shallow embedding of [src/index.js]

    The development follows the classes of the source file in order:
    [CONFIG], [OKXOpenInterestTracker], [SymbolState], [TradeAggregator],
    [SignalEngine], [CooldownManager] and [AlertManager].

    Conventions.
    - A JavaScript number is a [number]: NaN, the two infinities, or a
      finite value carried as a rational.  Comparisons and [Math.abs] are
      exact on doubles and are embedded as such.  A sum, product or
      quotient overflows to an infinity and underflows to zero where the
      double operation does; inside the range of a double it is the exact
      result, and a decimal literal stands for its decimal value: the
      rounding to the nearest double is not modelled.
    - Millisecond timestamps and [Date.now()] readings are integers ([Z]).
      A function that reads the clock takes the reading as an argument
      called [now].
    - A JS [Map] that is only read and written by key is a [gmap]; the one
      that is iterated ([pendingAlerts]) keeps its insertion order in an
      association list.
    - [null] is [None]. *)

From Stdlib Require Import ZArith QArith Qabs Qminmax Lqa Lia String List Bool.
From stdpp Require Import base option list gmap strings.
Import ListNotations.

Local Open Scope Z_scope.

(** ** JavaScript numbers *)

Module JS.

Inductive number : Type :=
| NaN
| PosInf
| NegInf
| Fin (q : Q).

Definition Qltb (a b : Q) : bool := negb (Qle_bool b a).

(** [x < y]; false as soon as one side is NaN. *)
Definition lt (x y : number) : bool :=
  match x, y with
  | Fin a, Fin b => Qltb a b
  | NegInf, Fin _ | NegInf, PosInf | Fin _, PosInf => true
  | _, _ => false
  end.

(** [x <= y]. *)
Definition le (x y : number) : bool :=
  match x, y with
  | Fin a, Fin b => Qle_bool a b
  | NegInf, Fin _ | NegInf, PosInf | Fin _, PosInf => true
  | NegInf, NegInf | PosInf, PosInf => true
  | _, _ => false
  end.

Definition gt (x y : number) : bool := lt y x.
Definition ge (x y : number) : bool := le y x.

(** [x === y] on numbers. *)
Definition eqb (x y : number) : bool :=
  match x, y with
  | Fin a, Fin b => Qeq_bool a b
  | PosInf, PosInf | NegInf, NegInf => true
  | _, _ => false
  end.

(** [Math.abs]. *)
Definition abs (x : number) : number :=
  match x with
  | NaN => NaN
  | PosInf | NegInf => PosInf
  | Fin q => Fin (Qabs q)
  end.

(** Unary minus. *)
Definition neg (x : number) : number :=
  match x with
  | NaN => NaN
  | PosInf => NegInf
  | NegInf => PosInf
  | Fin q => Fin (- q)
  end.

(** The range of a double.  Rounded to the nearest double, an exact result
    of magnitude [2^1024 - 2^970] or more is an infinity and one of
    magnitude [2^-1075] or less is zero. *)
Definition overflowAt : Q := Eval vm_compute in inject_Z (2 ^ 1024 - 2 ^ 970).
Definition underflowAt : Q := Eval vm_compute in (1 # 2 ^ 1075).

(** The exact result [r] of an operation on finite numbers, as the
    operation on doubles returns it: an infinity or zero outside the
    range, and [r] itself, standing for its rounding, inside. *)
Definition ranged (r : Q) : number :=
  if Qle_bool overflowAt r then PosInf
  else if Qle_bool r (- overflowAt) then NegInf
  else if Qle_bool (Qabs r) underflowAt then Fin 0
  else Fin r.

Definition add (x y : number) : number :=
  match x, y with
  | NaN, _ | _, NaN => NaN
  | PosInf, NegInf | NegInf, PosInf => NaN
  | PosInf, _ | _, PosInf => PosInf
  | NegInf, _ | _, NegInf => NegInf
  | Fin a, Fin b => ranged (a + b)
  end.

Definition sub (x y : number) : number := add x (neg y).

(** Sign of a rational as a comparison with zero. *)
Definition Qsign (q : Q) : comparison := (q ?= 0)%Q.

(** An infinity of the given sign times a finite factor. *)
Definition inf_times (positive : bool) (q : Q) : number :=
  match Qsign q with
  | Eq => NaN
  | Gt => if positive then PosInf else NegInf
  | Lt => if positive then NegInf else PosInf
  end.

Definition mul (x y : number) : number :=
  match x, y with
  | NaN, _ | _, NaN => NaN
  | Fin a, Fin b => ranged (a * b)
  | PosInf, PosInf | NegInf, NegInf => PosInf
  | PosInf, NegInf | NegInf, PosInf => NegInf
  | PosInf, Fin b | Fin b, PosInf => inf_times true b
  | NegInf, Fin b | Fin b, NegInf => inf_times false b
  end.

(** [x / y].  The two zeros of a double are one value here; a zero
    divisor is read as [+0]. *)
Definition div (x y : number) : number :=
  match x, y with
  | NaN, _ | _, NaN => NaN
  | Fin a, Fin b =>
      if Qeq_bool b 0 then
        match Qsign a with
        | Eq => NaN
        | Gt => PosInf
        | Lt => NegInf
        end
      else ranged (a / b)
  | Fin _, PosInf | Fin _, NegInf => Fin 0
  | PosInf, Fin b => if Qltb b 0 then NegInf else PosInf
  | NegInf, Fin b => if Qltb b 0 then PosInf else NegInf
  | _, _ => NaN
  end.

(** [Math.max] of two arguments. *)
Definition max (x y : number) : number :=
  match x, y with
  | NaN, _ | _, NaN => NaN
  | _, _ => if lt x y then y else x
  end.

(** [ToNumber] on a value that is a number or [null]. *)
Definition toNumber (x : option number) : number :=
  match x with
  | Some n => n
  | None => Fin 0
  end.

(** [ToBoolean] on a value that is a number or [null]. *)
Definition truthy (x : option number) : bool :=
  match x with
  | None | Some NaN => false
  | Some (Fin q) => negb (Qeq_bool q 0)
  | Some _ => true
  end.

(** Outcome of a call that may throw. *)
Inductive error : Type :=
| TypeError.

Inductive result (A : Type) : Type :=
| Ok (a : A)
| Throw (e : error).
Arguments Ok {A} a.
Arguments Throw {A} e.

Definition bind {A B} (m : result A) (k : A -> result B) : result B :=
  match m with
  | Ok a => k a
  | Throw e => Throw e
  end.

(** The receiver of a method call such as [x.toFixed(2)]: calling a
    method on [null] throws.  The digits [toFixed] prints are not
    modelled; the number itself stands for its rendering. *)
Definition toFixed (x : option number) : result number :=
  match x with
  | Some n => Ok n
  | None => Throw TypeError
  end.

End JS.

Notation "'let!' x ':=' m 'in' k" := (JS.bind m (fun x => k))
  (at level 10, x name, m at level 100, k at level 200).

(** ** CONFIG *)

Record SymbolConfig : Type := {
  minVolumeUSD : JS.number;
  minDominance : JS.number;
  minPriceChange : JS.number;
  cooldownMinutes : Z;
  enabled : bool
}.

Record Config : Type := {
  SYMBOL_CONFIGS : gmap string SymbolConfig;
  WINDOW_SECONDS : Z;
  OI_ENABLED : bool;
  OI_WINDOW_SECONDS : Z;
  OI_HISTORY_MINUTES : Z;
  OI_FINAL_CHECK_OFFSET_MS : Z;
  OI_MIN_DELTA_PERCENT : JS.number;
  OI_MIN_PRICE_CHANGE_PERCENT : JS.number
}.

Definition mkSymbol (vol dom chg : Q) : SymbolConfig :=
  {| minVolumeUSD := JS.Fin vol; minDominance := JS.Fin dom;
     minPriceChange := JS.Fin chg; cooldownMinutes := 5; enabled := true |}.

(** The configuration the file builds when no environment variable is
    set.  [OI_ENABLED] is [process.env.OI_ENABLED === 'true' || true]. *)
Definition CONFIG_default : Config :=
  {| SYMBOL_CONFIGS :=
       list_to_map
         [ ("ADAUSDT"%string, mkSymbol 1000000 65 0.6);
           ("TAOUSDT"%string, mkSymbol 1500000 65 0.6);
           ("HYPEUSDT"%string, mkSymbol 5000000 70 0.8);
           ("PEPEUSDT"%string, mkSymbol 1000000 65 0.6);
           ("WIFUSDT"%string, mkSymbol 1500000 65 0.5);
           ("BONKUSDT"%string, mkSymbol 1000000 65 0.5);
           ("DOGEUSDT"%string, mkSymbol 5000000 70 0.75);
           ("XRPUSDT"%string, mkSymbol 5000000 70 1);
           ("UNIUSDT"%string, mkSymbol 1000000 65 0.5) ];
     WINDOW_SECONDS := 180;
     OI_ENABLED := true;
     OI_WINDOW_SECONDS := 300;
     OI_HISTORY_MINUTES := 10;
     OI_FINAL_CHECK_OFFSET_MS := 2000;
     OI_MIN_DELTA_PERCENT := JS.Fin 0.6;
     OI_MIN_PRICE_CHANGE_PERCENT := JS.Fin 0.35 |}.

(** [CONFIG.getSymbolConfig]. *)
Definition getSymbolConfig (CONFIG : Config) (symbol : string) : option SymbolConfig :=
  SYMBOL_CONFIGS CONFIG !! symbol.

(** [CONFIG.binanceToOKX]: [String.prototype.replace] with a string
    pattern replaces the first occurrence only. *)
Fixpoint replace_first (pat rep s : string) : string :=
  if String.prefix pat s then
    rep +:+ String.substring (String.length pat) (String.length s - String.length pat) s
  else
    match s with
    | EmptyString => EmptyString
    | String c rest => String c (replace_first pat rep rest)
    end.

Definition binanceToOKX (binanceSymbol : string) : string :=
  let base := replace_first "USDT" "" binanceSymbol in
  base +:+ "-USDT-SWAP".

(** The fields of [CONFIG] for the trading hours and the reconnect limit
    of the trade streams. *)
Record TradingConfig : Type := {
  TRADING_HOURS_ENABLED : bool;
  TRADING_START_HOUR_UTC : Z;
  TRADING_END_HOUR_UTC : Z;
  MAX_RECONNECTS : nat
}.

(** Their values when no environment variable is set. *)
Definition TRADING_default : TradingConfig :=
  {| TRADING_HOURS_ENABLED := false;
     TRADING_START_HOUR_UTC := 5;
     TRADING_END_HOUR_UTC := 14;
     MAX_RECONNECTS := 10 |}.

(** [parseInt(process.env.X) || fallback]: [parsed] is what [parseInt]
    gives, [None] for NaN.  NaN and 0 are falsy. *)
Definition parsedOr (parsed : option Z) (fallback : Z) : Z :=
  match parsed with
  | Some n => if Z.eqb n 0 then fallback else n
  | None => fallback
  end.

(** The trading fields of [CONFIG] as the file reads them from the
    environment; [hoursEnabled] is
    [process.env.TRADING_HOURS_ENABLED === 'true'].  A negative limit of
    reconnects is met by every count of attempts, as a limit of 0 is. *)
Definition TRADING_fromEnv (hoursEnabled : bool) (startHour endHour maxReconnects : option Z)
    : TradingConfig :=
  {| TRADING_HOURS_ENABLED := hoursEnabled || false;
     TRADING_START_HOUR_UTC := parsedOr startHour 5;
     TRADING_END_HOUR_UTC := parsedOr endHour 14;
     MAX_RECONNECTS := Z.to_nat (parsedOr maxReconnects 10) |}.

(** [new Date().getUTCHours()] at the clock reading [now]. *)
Definition getUTCHours (now : Z) : Z := (now / 3600000) mod 24.

(** [CONFIG.isWithinTradingHours]. *)
Definition isWithinTradingHours (TRADING : TradingConfig) (now : Z) : bool :=
  if negb (TRADING_HOURS_ENABLED TRADING) then true
  else
    let hourUTC := getUTCHours now in
    bool_decide (hourUTC >= TRADING_START_HOUR_UTC TRADING)
    && bool_decide (hourUTC < TRADING_END_HOUR_UTC TRADING).

(** ** Values shared by the classes *)

Inductive Side : Type := buy | sell.

Definition Side_str (s : Side) : string :=
  match s with
  | buy => "buy"
  | sell => "sell"
  end.

Inductive Direction : Type := LONG | SHORT.

Inductive FlowType : Type := SHORT_SQUEEZE | LONG_LIQUIDATION.

Inductive Decision : Type :=
| NO_OI_DATA
| BASE
| BOUNCE
| CONTINUATION
| INCONCLUSIVE.

#[global] Instance Side_eq_dec : EqDecision Side.
Proof. solve_decision. Defined.
#[global] Instance Direction_eq_dec : EqDecision Direction.
Proof. solve_decision. Defined.
#[global] Instance Decision_eq_dec : EqDecision Decision.
Proof. solve_decision. Defined.

(** The object [SymbolState.getStats] returns. *)
Module Stats.
Record t : Type := {
  buyVolume : JS.number;
  sellVolume : JS.number;
  totalVolume : JS.number;
  dominantSide : Side;
  dominance : JS.number;
  priceChange : JS.number;
  duration : JS.number;
  tradeCount : nat;
  lastPrice : option JS.number
}.
End Stats.

(** The object [OKXOpenInterestTracker.getOIStats] returns. *)
Module OIStats.
Record t : Type := {
  oiNow : JS.number;
  oi5mAgo : option JS.number;
  oiDeltaPct : option JS.number;
  oiDelta : option JS.number;
  priceNow : JS.number;
  price5mAgo : option JS.number;
  priceDeltaPct : option JS.number;
  hasWindowData : bool;
  historyCount : nat
}.
End OIStats.

(** ** OKXOpenInterestTracker: the local open-interest cache *)

Module OKXOpenInterestTracker.

Record Point : Type := { ts : Z; oi : JS.number; price : JS.number }.

Record Cache : Type := {
  lastOI : option JS.number;
  lastPrice : option JS.number;
  history : list Point
}.

Record t : Type := {
  binanceSymbols : list string;
  windowMs : Z;
  historyMs : Z;
  oiCache : gmap string Cache
}.

Definition new (symbols : list string) (windowSeconds historyMinutes : Z) : t :=
  {| binanceSymbols := symbols;
     windowMs := windowSeconds * 1000;
     historyMs := historyMinutes * 60 * 1000;
     oiCache :=
       fold_left
         (fun cache binanceSymbol =>
            <[binanceToOKX binanceSymbol :=
                {| lastOI := None; lastPrice := None; history := [] |}]> cache)
         symbols ∅ |}.

Definition setCache (okxSymbol : string) (c : Cache) (tr : t) : t :=
  {| binanceSymbols := binanceSymbols tr; windowMs := windowMs tr;
     historyMs := historyMs tr; oiCache := <[okxSymbol := c]> (oiCache tr) |}.

(** [addToHistory]; [now] is the [Date.now()] read for the cutoff. *)
Definition addToHistory (now : Z) (okxSymbol : string) (timestamp : Z)
    (oi price : option JS.number) (tr : t) : t :=
  match oiCache tr !! okxSymbol with
  | None => tr
  | Some cache =>
      match oi, price with
      | Some oi, Some price =>
          let pushed := history cache ++ [ {| ts := timestamp; oi := oi; price := price |} ] in
          let cutoff := now - historyMs tr in
          setCache okxSymbol
            {| lastOI := lastOI cache; lastPrice := lastPrice cache;
               history := List.filter (fun item => bool_decide (ts item >= cutoff)) pushed |}
            tr
      | _, _ => tr
      end
  end.

Definition isNaN (x : JS.number) : bool :=
  match x with
  | JS.NaN => true
  | _ => false
  end.

(** [handleOpenInterest] on the first element of the data array, after
    [parseFloat] and [parseInt]; a timestamp that parses to NaN never
    reaches this function. *)
Definition handleOpenInterest (now : Z) (okxSymbol : string) (oi : JS.number)
    (timestamp : Z) (tr : t) : t :=
  if isNaN oi then tr
  else
    match oiCache tr !! okxSymbol with
    | None => tr
    | Some cache =>
        let tr' :=
          setCache okxSymbol
            {| lastOI := Some oi; lastPrice := lastPrice cache;
               history := history cache |} tr in
        addToHistory now okxSymbol timestamp (Some oi) (lastPrice cache) tr'
    end.

Definition handleMarkPrice (now : Z) (okxSymbol : string) (markPrice : JS.number)
    (timestamp : Z) (tr : t) : t :=
  if isNaN markPrice then tr
  else
    match oiCache tr !! okxSymbol with
    | None => tr
    | Some cache =>
        let tr' :=
          setCache okxSymbol
            {| lastOI := lastOI cache; lastPrice := Some markPrice;
               history := history cache |} tr in
        addToHistory now okxSymbol timestamp (lastOI cache) (Some markPrice) tr'
    end.

(** The loop [for (i = length - 1; i >= 0; i--)] with its [break]:
    [scanBack h n w] has still to look at the indices below [n]. *)
Fixpoint scanBack (h : list Point) (n : nat) (windowAgoTime : Z) : option Point :=
  match n with
  | O => None
  | S i =>
      match h !! i with
      | Some p =>
          if bool_decide (ts p <= windowAgoTime) then Some p
          else scanBack h i windowAgoTime
      | None => scanBack h i windowAgoTime
      end
  end.

(** [getOIStats]; [now] is the [Date.now()] it reads. *)
Definition getOIStats (now : Z) (binanceSymbol : string) (tr : t) : option OIStats.t :=
  let okxSymbol := binanceToOKX binanceSymbol in
  match oiCache tr !! okxSymbol with
  | None => None
  | Some cache =>
      match last (history cache) with
      | None => None
      | Some latest =>
          let windowAgoTime := now - windowMs tr in
          let oiNow := oi latest in
          let priceNow := price latest in
          match scanBack (history cache) (length (history cache)) windowAgoTime with
          | None =>
              Some {| OIStats.oiNow := oiNow;
                      OIStats.oi5mAgo := None;
                      OIStats.oiDeltaPct := None;
                      OIStats.oiDelta := None;
                      OIStats.priceNow := priceNow;
                      OIStats.price5mAgo := None;
                      OIStats.priceDeltaPct := None;
                      OIStats.hasWindowData := false;
                      OIStats.historyCount := length (history cache) |}
          | Some past =>
              let oi5mAgo := oi past in
              let price5mAgo := price past in
              let oiDelta := JS.sub oiNow oi5mAgo in
              let oiDeltaPct := JS.mul (JS.div oiDelta oi5mAgo) (JS.Fin 100) in
              let priceDelta := JS.sub priceNow price5mAgo in
              let priceDeltaPct := JS.mul (JS.div priceDelta price5mAgo) (JS.Fin 100) in
              Some {| OIStats.oiNow := oiNow;
                      OIStats.oi5mAgo := Some oi5mAgo;
                      OIStats.oiDeltaPct := Some oiDeltaPct;
                      OIStats.oiDelta := Some oiDelta;
                      OIStats.priceNow := priceNow;
                      OIStats.price5mAgo := Some price5mAgo;
                      OIStats.priceDeltaPct := Some priceDeltaPct;
                      OIStats.hasWindowData := true;
                      OIStats.historyCount := length (history cache) |}
          end
      end
  end.

Definition getHistoryCount (binanceSymbol : string) (tr : t) : nat :=
  match oiCache tr !! binanceToOKX binanceSymbol with
  | Some cache => length (history cache)
  | None => 0%nat
  end.

(** A data message of the public channel after parsing: the channel, the
    instrument, the value and the timestamp; [clock] is the [Date.now()]
    read while it is handled. *)
Inductive Channel : Type := OpenInterest | MarkPrice.

Record Update : Type := {
  clock : Z;
  channel : Channel;
  instId : string;
  value : JS.number;
  stamp : Z
}.

(** The dispatch of [handleMessage] on the channel name. *)
Definition handleUpdate (u : Update) (tr : t) : t :=
  match channel u with
  | OpenInterest => handleOpenInterest (clock u) (instId u) (value u) (stamp u) tr
  | MarkPrice => handleMarkPrice (clock u) (instId u) (value u) (stamp u) tr
  end.

(** The tracker after a run of data messages. *)
Definition handleUpdates (us : list Update) (tr : t) : t :=
  fold_left (fun tr u => handleUpdate u tr) us tr.

(** [scheduleReconnect] and the reset in the [open] handler: the
    connection counters of the tracker.  The result of [scheduleReconnect]
    carries the delay of the [setTimeout] it arms, if any. *)
Record Link : Type := {
  isRunning : bool;
  reconnectCount : Z
}.

Definition scheduleReconnect (l : Link) : Link * option Z :=
  if negb (isRunning l) then (l, None)
  else
    let count := reconnectCount l + 1 in
    let delay := Z.min (5000 * count) 60000 in
    ({| isRunning := isRunning l; reconnectCount := count |}, Some delay).

Definition onOpen (l : Link) : Link :=
  {| isRunning := isRunning l; reconnectCount := 0 |}.

End OKXOpenInterestTracker.

(** ** SymbolState: the sliding window of one instrument *)

Module SymbolState.

Record Trade : Type := {
  timestamp : Z;
  price : JS.number;
  buyVol : JS.number;
  sellVol : JS.number
}.

Record t : Type := {
  symbol : string;
  windowMs : Z;
  trades : list Trade;
  firstPrice : option JS.number;
  lastPrice : option JS.number
}.

Definition new (symbol : string) (windowSeconds : Z) : t :=
  {| symbol := symbol; windowMs := windowSeconds * 1000; trades := [];
     firstPrice := None; lastPrice := None |}.

Definition cleanup (currentTime : Z) (st : t) : t :=
  let cutoff := currentTime - windowMs st in
  let kept := List.filter (fun t => bool_decide (timestamp t >= cutoff)) (trades st) in
  {| symbol := symbol st; windowMs := windowMs st; trades := kept;
     firstPrice := match kept with
                   | first :: _ => Some (price first)
                   | [] => None
                   end;
     lastPrice := lastPrice st |}.

Definition addTrade (timestamp : Z) (price quantity : JS.number) (isBuyerMaker : bool)
    (st : t) : t :=
  let volume := JS.mul price quantity in
  let trade :=
    {| timestamp := timestamp; price := price;
       buyVol := if isBuyerMaker then JS.Fin 0 else volume;
       sellVol := if isBuyerMaker then volume else JS.Fin 0 |} in
  let st1 :=
    {| symbol := symbol st; windowMs := windowMs st;
       trades := trades st ++ [trade];
       firstPrice := match firstPrice st with
                     | None => Some price
                     | Some p => Some p
                     end;
       lastPrice := Some price |} in
  cleanup timestamp st1.

(** The accumulation loop of [getStats]. *)
Definition sumVolumes (ts : list Trade) : JS.number * JS.number :=
  fold_left (fun '(buyVolume, sellVolume) trade =>
               (JS.add buyVolume (buyVol trade), JS.add sellVolume (sellVol trade)))
            ts (JS.Fin 0, JS.Fin 0).

Definition getStats (st : t) : option Stats.t :=
  match trades st, last (trades st) with
  | first :: _, Some newest =>
      let '(buyVolume, sellVolume) := sumVolumes (trades st) in
      let totalVolume := JS.add buyVolume sellVolume in
      if JS.eqb totalVolume (JS.Fin 0) then None
      else
        let buyDominance := JS.mul (JS.div buyVolume totalVolume) (JS.Fin 100) in
        let sellDominance := JS.mul (JS.div sellVolume totalVolume) (JS.Fin 100) in
        let dominantSide := if JS.gt buyVolume sellVolume then buy else sell in
        let dominance := JS.max buyDominance sellDominance in
        let priceChange :=
          if JS.truthy (firstPrice st) then
            JS.mul (JS.div (JS.sub (JS.toNumber (lastPrice st)) (JS.toNumber (firstPrice st)))
                           (JS.toNumber (firstPrice st)))
                   (JS.Fin 100)
          else JS.Fin 0 in
        let duration := JS.Fin (inject_Z (timestamp newest - timestamp first) / 1000) in
        Some {| Stats.buyVolume := buyVolume;
                Stats.sellVolume := sellVolume;
                Stats.totalVolume := totalVolume;
                Stats.dominantSide := dominantSide;
                Stats.dominance := dominance;
                Stats.priceChange := priceChange;
                Stats.duration := duration;
                Stats.tradeCount := length (trades st);
                Stats.lastPrice := lastPrice st |}
  | _, _ => None
  end.

Definition reset (st : t) : t :=
  {| symbol := symbol st; windowMs := windowMs st; trades := [];
     firstPrice := None; lastPrice := None |}.

End SymbolState.

(** ** TradeAggregator *)

Module TradeAggregator.

Record t : Type := {
  windowSeconds : Z;
  states : gmap string SymbolState.t
}.

Definition new (windowSeconds : Z) : t :=
  {| windowSeconds := windowSeconds; states := ∅ |}.

Definition addTrade (symbol : string) (timestamp : Z) (price quantity : JS.number)
    (isBuyerMaker : bool) (a : t) : t :=
  let st :=
    match states a !! symbol with
    | Some st => st
    | None => SymbolState.new symbol (windowSeconds a)
    end in
  {| windowSeconds := windowSeconds a;
     states := <[symbol := SymbolState.addTrade timestamp price quantity isBuyerMaker st]>
                 (states a) |}.

Definition getStats (symbol : string) (a : t) : option Stats.t :=
  match states a !! symbol with
  | Some state => SymbolState.getStats state
  | None => None
  end.

Definition resetSymbol (symbol : string) (a : t) : t :=
  match states a !! symbol with
  | Some state =>
      {| windowSeconds := windowSeconds a;
         states := <[symbol := SymbolState.reset state]> (states a) |}
  | None => a
  end.

End TradeAggregator.

(** The running program as far as the window is concerned: the wall clock
    and the aggregator.  Nothing but a trade event runs aggregator code:
    the timers of the file (minute checker, final check, heartbeat,
    reconnect) never touch it, so the passage of time changes the clock
    alone. *)
Module Runtime.

Record t : Type := {
  clock : Z;
  tradeAggregator : TradeAggregator.t
}.

Definition advanceClock (ms : Z) (w : t) : t :=
  {| clock := clock w + ms; tradeAggregator := tradeAggregator w |}.

(** A trade event delivered at the current clock reading, stamped by the
    exchange with [timestamp]. *)
Definition onTrade (symbol : string) (timestamp : Z) (price quantity : JS.number)
    (isBuyerMaker : bool) (w : t) : t :=
  {| clock := clock w;
     tradeAggregator :=
       TradeAggregator.addTrade symbol timestamp price quantity isBuyerMaker
         (tradeAggregator w) |}.

Definition getStats (symbol : string) (w : t) : option Stats.t :=
  TradeAggregator.getStats symbol (tradeAggregator w).

End Runtime.

(** ** Trade events

    The fields [handleMessage] reads from an [aggTrade] message, after
    [parseFloat]. *)

Module TradeEvent.
Record t : Type := {
  timestamp : Z;
  price : JS.number;
  quantity : JS.number;
  isBuyerMaker : bool
}.
End TradeEvent.

(** The window after the events were added in order, one [addTrade] each. *)
Definition feed (events : list TradeEvent.t) (st : SymbolState.t) : SymbolState.t :=
  fold_left
    (fun st e =>
       SymbolState.addTrade (TradeEvent.timestamp e) (TradeEvent.price e)
         (TradeEvent.quantity e) (TradeEvent.isBuyerMaker e) st)
    events st.


(** ** SignalEngine *)

Module SignalEngine.

(** One entry of the [reasons] array of the threshold filter:
    the absolute change and the threshold it stayed under. *)
Inductive FilterReason : Type :=
| OIBelow (absDelta minOIDelta : JS.number)
| PriceBelow (absDelta minPriceChange : JS.number).

(** The [oiReason] texts, by template, with the numbers they print. *)
Inductive Reason : Type :=
| Ignored (reasons : list FilterReason)
| BreakoutDown (absPrice oiPct : JS.number)
| LongLiquidationBounce (absPrice absOI : JS.number)
| BreakoutUp (pricePct oiPct : JS.number)
| ShortSqueezeBounce (pricePct absOI : JS.number)
| NoClearSignal (oiPct pricePct : JS.number).

(** The object [interpretSignal] returns ([emoji] left out). *)
Record Interpretation : Type := {
  type : FlowType;
  label : string;
  direction : Direction;
  flowDirection : Direction;
  finalDirection : Direction;
  oiOverride : bool;
  oiReason : option Reason;
  decision : Decision;
  oiUsed : bool;
  oiDeltaPassed : bool;
  oiPricePassed : bool;
  oiMinDeltaPercent : JS.number;
  oiMinPriceChangePercent : JS.number
}.

Record t : Type := {
  oiTracker : option OKXOpenInterestTracker.t
}.

Definition OI_THRESHOLD : JS.number := JS.Fin 0.5.
Definition PRICE_THRESHOLD : JS.number := JS.Fin 0.1.

Section WithConfig.

Variable CONFIG : Config.

(** The snapshot, when the guard
    [!CONFIG.OI_ENABLED || !this.oiTracker || !oiStats || !oiStats.hasWindowData]
    lets it through. *)
Definition availableOI (eng : t) (oiStats : option OIStats.t) : option OIStats.t :=
  if negb (OI_ENABLED CONFIG) then None
  else
    match oiTracker eng, oiStats with
    | Some _, Some o => if OIStats.hasWindowData o then Some o else None
    | _, _ => None
    end.

Definition interpretSignal (eng : t) (stats : Stats.t) (oiStats : option OIStats.t)
    : JS.result Interpretation :=
  let '(flowDirection, flowType, flowLabel) :=
    match Stats.dominantSide stats with
    | buy => (LONG, SHORT_SQUEEZE, "SHORT SQUEEZE"%string)
    | sell => (SHORT, LONG_LIQUIDATION, "LONG LIQUIDATION"%string)
    end in
  match availableOI eng oiStats with
  | None =>
      JS.Ok {| type := flowType; label := flowLabel;
               direction := flowDirection;
               flowDirection := flowDirection;
               finalDirection := flowDirection;
               oiOverride := false;
               oiReason := None;
               decision := NO_OI_DATA;
               oiUsed := false;
               oiDeltaPassed := false;
               oiPricePassed := false;
               oiMinDeltaPercent := OI_MIN_DELTA_PERCENT CONFIG;
               oiMinPriceChangePercent := OI_MIN_PRICE_CHANGE_PERCENT CONFIG |}
  | Some oiStats =>
      let oiDeltaPct := OIStats.oiDeltaPct oiStats in
      let priceDeltaPct := OIStats.priceDeltaPct oiStats in
      let minOIDelta := OI_MIN_DELTA_PERCENT CONFIG in
      let minPriceChange := OI_MIN_PRICE_CHANGE_PERCENT CONFIG in
      let oiDeltaPassed := JS.ge (JS.abs (JS.toNumber oiDeltaPct)) minOIDelta in
      let oiPricePassed := JS.ge (JS.abs (JS.toNumber priceDeltaPct)) minPriceChange in
      let oiUsed := oiDeltaPassed && oiPricePassed in
      if negb oiUsed then
        let reasons :=
          (if negb oiDeltaPassed
           then [OIBelow (JS.abs (JS.toNumber oiDeltaPct)) minOIDelta] else [])
          ++ (if negb oiPricePassed
              then [PriceBelow (JS.abs (JS.toNumber priceDeltaPct)) minPriceChange] else []) in
        JS.Ok {| type := flowType; label := flowLabel;
                 direction := flowDirection;
                 flowDirection := flowDirection;
                 finalDirection := flowDirection;
                 oiOverride := false;
                 oiReason := Some (Ignored reasons);
                 decision := BASE;
                 oiUsed := false;
                 oiDeltaPassed := oiDeltaPassed;
                 oiPricePassed := oiPricePassed;
                 oiMinDeltaPercent := minOIDelta;
                 oiMinPriceChangePercent := minPriceChange |}
      else
        let priceRising := JS.gt (JS.toNumber priceDeltaPct) PRICE_THRESHOLD in
        let priceFalling := JS.lt (JS.toNumber priceDeltaPct) (JS.neg PRICE_THRESHOLD) in
        let oiRising := JS.gt (JS.toNumber oiDeltaPct) OI_THRESHOLD in
        let oiFalling := JS.lt (JS.toNumber oiDeltaPct) (JS.neg OI_THRESHOLD) in
        let absPrice := JS.abs (JS.toNumber priceDeltaPct) in
        let absOI := JS.abs (JS.toNumber oiDeltaPct) in
        let! quadrant :=
          (if priceFalling && oiRising then
             let! oiTxt := JS.toFixed oiDeltaPct in
             JS.Ok (SHORT, CONTINUATION, BreakoutDown absPrice oiTxt,
                    bool_decide (flowDirection = LONG))
           else if priceFalling && oiFalling then
             JS.Ok (LONG, BOUNCE, LongLiquidationBounce absPrice absOI,
                    bool_decide (flowDirection = SHORT))
           else if priceRising && oiRising then
             let! priceTxt := JS.toFixed priceDeltaPct in
             let! oiTxt := JS.toFixed oiDeltaPct in
             JS.Ok (LONG, CONTINUATION, BreakoutUp priceTxt oiTxt,
                    bool_decide (flowDirection = SHORT))
           else if priceRising && oiFalling then
             let! priceTxt := JS.toFixed priceDeltaPct in
             JS.Ok (SHORT, BOUNCE, ShortSqueezeBounce priceTxt absOI,
                    bool_decide (flowDirection = LONG))
           else
             let! oiTxt := JS.toFixed oiDeltaPct in
             let! priceTxt := JS.toFixed priceDeltaPct in
             JS.Ok (flowDirection, INCONCLUSIVE, NoClearSignal oiTxt priceTxt, false))
        in
        let '(finalDirection, decision, oiReason, oiOverride) := quadrant in
        JS.Ok {| type := flowType; label := flowLabel;
                 direction := finalDirection;
                 flowDirection := flowDirection;
                 finalDirection := finalDirection;
                 oiOverride := oiOverride;
                 oiReason := Some oiReason;
                 decision := decision;
                 oiUsed := oiUsed;
                 oiDeltaPassed := oiDeltaPassed;
                 oiPricePassed := oiPricePassed;
                 oiMinDeltaPercent := OI_MIN_DELTA_PERCENT CONFIG;
                 oiMinPriceChangePercent := OI_MIN_PRICE_CHANGE_PERCENT CONFIG |}
  end.

End WithConfig.

Section WithTrading.

Variable CONFIG : Config.
Variable TRADING : TradingConfig.

(** [shouldAlert]; [now] is the clock reading of the trading-hours
    check. *)
Definition shouldAlert (now : Z) (symbol : string) (stats : option Stats.t) : bool :=
  match stats with
  | None => false
  | Some stats =>
      match getSymbolConfig CONFIG symbol with
      | None => false
      | Some config =>
          if negb (enabled config) then false
          else if negb (isWithinTradingHours TRADING now) then false
          else if JS.lt (Stats.totalVolume stats) (minVolumeUSD config) then false
          else if JS.lt (Stats.dominance stats) (minDominance config) then false
          else if JS.lt (JS.abs (Stats.priceChange stats)) (minPriceChange config) then false
          else if bool_decide (Stats.dominantSide stats = buy)
                  && JS.lt (Stats.priceChange stats) (JS.Fin 0) then false
          else if bool_decide (Stats.dominantSide stats = sell)
                  && JS.gt (Stats.priceChange stats) (JS.Fin 0) then false
          else true
      end
  end.

End WithTrading.

End SignalEngine.

(** The map key [`${symbol}_${stats.dominantSide}`] used by the cooldown
    and by the pending alerts. *)
Definition alertKey (symbol : string) (side : Side) : string :=
  symbol +:+ "_" +:+ Side_str side.

(** ** CooldownManager *)

Module CooldownManager.

Record t : Type := {
  lastAlerts : gmap string Z
}.

Definition new : t := {| lastAlerts := ∅ |}.

Section WithConfig.

Variable CONFIG : Config.

(** [canAlert]; [now] is the [Date.now()] it reads.  [!lastTime] holds
    for a missing entry and for a stored [0]. *)
Definition canAlert (now : Z) (symbol : string) (stats : Stats.t) (cm : t) : bool :=
  match getSymbolConfig CONFIG symbol with
  | None => false
  | Some config =>
      let key := alertKey symbol (Stats.dominantSide stats) in
      match lastAlerts cm !! key with
      | None => true
      | Some lastTime =>
          if Z.eqb lastTime 0 then true
          else
            let cooldownMs := cooldownMinutes config * 60 * 1000 in
            let elapsed := now - lastTime in
            bool_decide (elapsed >= cooldownMs)
      end
  end.

End WithConfig.

Definition recordAlert (now : Z) (symbol : string) (stats : Stats.t) (cm : t) : t :=
  let key := alertKey symbol (Stats.dominantSide stats) in
  {| lastAlerts := <[key := now]> (lastAlerts cm) |}.

(** [Math.ceil(x / 1000)] for an integer [x]. *)
Definition ceilDiv1000 (x : Z) : Z := - ((- x) / 1000).

(** [getRemainingCooldown], in seconds. *)
Definition getRemainingCooldown (CONFIG : Config) (now : Z) (symbol : string) (side : Side)
    (cm : t) : Z :=
  match getSymbolConfig CONFIG symbol with
  | None => 0
  | Some config =>
      let key := alertKey symbol side in
      match lastAlerts cm !! key with
      | None => 0
      | Some lastTime =>
          if Z.eqb lastTime 0 then 0
          else
            let cooldownMs := cooldownMinutes config * 60 * 1000 in
            let elapsed := now - lastTime in
            let remaining := Z.max 0 (cooldownMs - elapsed) in
            ceilDiv1000 remaining
      end
  end.

End CooldownManager.

(** ** A JS [Map] with its iteration order *)

Module OrderedMap.

Abbreviation t V := (list (string * V)).

Definition has {V} (key : string) (m : t V) : bool :=
  existsb (fun e => String.eqb (fst e) key) m.

Definition get {V} (key : string) (m : t V) : option V :=
  snd <$> List.find (fun e => String.eqb (fst e) key) m.

(** [set] keeps the position of a key that is present and appends a
    new one. *)
Definition set {V} (key : string) (v : V) (m : t V) : t V :=
  if has key m then
    List.map (fun e => if String.eqb (fst e) key then (key, v) else e) m
  else m ++ [(key, v)].

Definition clear {V} (m : t V) : t V := [].

Definition size {V} (m : t V) : nat := length m.

(** A [Map] holds a key at most once. *)
Definition uniqueKeys {V} (m : t V) : Prop := NoDup (List.map fst m).

End OrderedMap.

(** ** AlertManager

    The candidates wait in [pendingAlerts].  The interval timer of
    [startMinuteChecker] is one [Tick] event a second; [sendTelegramMessage]
    is its outcome, resolved or rejected. *)

Module AlertManager.

Record AlertData : Type := {
  symbol : string;
  stats : Stats.t;
  interpretation : SignalEngine.Interpretation;
  oiStats : option OIStats.t;
  timestamp : Z
}.

(** A one-shot timer armed by [setTimeout] for
    [performFinalOICheck(key, alertData)]. *)
Record Timeout : Type := {
  due : Z;
  timerKey : string;
  timerAlert : AlertData
}.

(** [timeouts] is the part of the runtime's timer table this object
    filled: the handles are numbers, [clearTimeout] removes one. *)
Record t : Type := {
  pendingAlerts : OrderedMap.t AlertData;
  alertCount : nat;
  finalCheckTimers : gmap string nat;
  timeouts : gmap nat Timeout;
  nextHandle : nat
}.

Definition new : t :=
  {| pendingAlerts := []; alertCount := 0%nat; finalCheckTimers := ∅;
     timeouts := ∅; nextHandle := 0%nat |}.

(** [new Date().getSeconds()] at the clock reading [now]. *)
Definition getSeconds (now : Z) : Z := (now / 1000) mod 60.

Section WithConfig.

Variable CONFIG : Config.

Definition scheduleFinalOICheck (now : Z) (key : string) (alertData : AlertData)
    (am : t) : t :=
  let cleared :=
    match finalCheckTimers am !! key with
    | Some handle => delete handle (timeouts am)
    | None => timeouts am
    end in
  let secondsUntilNextMinute := 60 - getSeconds now in
  let msUntilFinalCheck :=
    secondsUntilNextMinute * 1000 - OI_FINAL_CHECK_OFFSET_MS CONFIG in
  if bool_decide (msUntilFinalCheck > 0) then
    let timer := nextHandle am in
    {| pendingAlerts := pendingAlerts am;
       alertCount := alertCount am;
       finalCheckTimers := <[key := timer]> (finalCheckTimers am);
       timeouts :=
         <[timer := {| due := now + msUntilFinalCheck; timerKey := key;
                       timerAlert := alertData |}]> cleared;
       nextHandle := S timer |}
  else
    {| pendingAlerts := pendingAlerts am;
       alertCount := alertCount am;
       finalCheckTimers := finalCheckTimers am;
       timeouts := cleared;
       nextHandle := nextHandle am |}.

(** [sendAlert]; [now] is the [Date.now()] that stamps the candidate,
    and the reading [scheduleFinalOICheck] takes in the same turn. *)
Definition sendAlert (now : Z) (symbol : string) (stats : Stats.t)
    (interpretation : SignalEngine.Interpretation) (oiStats : option OIStats.t)
    (am : t) : t :=
  let alertData :=
    {| symbol := symbol; stats := stats; interpretation := interpretation;
       oiStats := oiStats; timestamp := now |} in
  let key := alertKey symbol (Stats.dominantSide stats) in
  if negb (OrderedMap.has key (pendingAlerts am)) then
    let am1 :=
      {| pendingAlerts := OrderedMap.set key alertData (pendingAlerts am);
         alertCount := alertCount am;
         finalCheckTimers := finalCheckTimers am;
         timeouts := timeouts am;
         nextHandle := nextHandle am |} in
    scheduleFinalOICheck now key alertData am1
  else am.

End WithConfig.

(** One turn of the loop of [flushPendingAlerts] whose
    [sendTelegramMessage] resolved: the counter moves and the final-check
    timer of the key is cleared. *)
Definition afterSend (key : string) (am : t) : t :=
  {| pendingAlerts := pendingAlerts am;
     alertCount := S (alertCount am);
     finalCheckTimers := delete key (finalCheckTimers am);
     timeouts :=
       match finalCheckTimers am !! key with
       | Some handle => delete handle (timeouts am)
       | None => timeouts am
       end;
     nextHandle := nextHandle am |}.

(** The [for ... of] loop of [flushPendingAlerts] over the entries from
    position [i] on.  [delivered n] tells whether the [n]-th
    [sendTelegramMessage] of this flush resolves ([true]) or rejects
    ([false], caught by the [catch]).  The second component lists the
    send attempts in order with their outcome. *)
Fixpoint flushLoop (delivered : nat -> bool) (i : nat)
    (entries : list (string * AlertData)) (am : t) : t * list (AlertData * bool) :=
  match entries with
  | [] => (am, [])
  | (key, alertData) :: rest =>
      let am1 := if delivered i then afterSend key am else am in
      let '(am2, attempts) := flushLoop delivered (S i) rest am1 in
      (am2, (alertData, delivered i) :: attempts)
  end.

(** [flushPendingAlerts], run to completion with no other handler
    between its [await]s. *)
Definition flushPendingAlerts (delivered : nat -> bool) (am : t)
    : t * list (AlertData * bool) :=
  let '(am1, attempts) := flushLoop delivered 0 (pendingAlerts am) am in
  ({| pendingAlerts := OrderedMap.clear (pendingAlerts am1);
      alertCount := alertCount am1;
      finalCheckTimers := finalCheckTimers am1;
      timeouts := timeouts am1;
      nextHandle := nextHandle am1 |},
   attempts).

(** The messages that reached the sink. *)
Definition emitted (attempts : list (AlertData * bool)) : list AlertData :=
  fst <$> List.filter snd attempts.

Definition getCount (am : t) : nat := alertCount am.

Definition getPendingCount (am : t) : nat := OrderedMap.size (pendingAlerts am).

(** [performFinalOICheck(key, alertData)]; [tracker] is [this.oiTracker]
    as it stands when the timer fires and [now] the clock reading of its
    [getOIStats].  The call throws when [interpretSignal] does. *)
Definition performFinalOICheck (CONFIG : Config) (now : Z)
    (tracker : option OKXOpenInterestTracker.t) (key : string) (alertData : AlertData)
    (am : t) : JS.result t :=
  if negb (OrderedMap.has key (pendingAlerts am)) then JS.Ok am
  else
    let freshOIStats :=
      match tracker with
      | Some tr => OKXOpenInterestTracker.getOIStats now (symbol alertData) tr
      | None => None
      end in
    let! pending :=
      (match freshOIStats with
       | Some fresh =>
           if OIStats.hasWindowData fresh then
             let signalEngine := {| SignalEngine.oiTracker := tracker |} in
             let! updatedInterpretation :=
               SignalEngine.interpretSignal CONFIG signalEngine (stats alertData)
                 (Some fresh) in
             let revised :=
               {| symbol := symbol alertData; stats := stats alertData;
                  interpretation := updatedInterpretation;
                  oiStats := Some fresh; timestamp := timestamp alertData |} in
             JS.Ok (OrderedMap.set key revised (pendingAlerts am))
           else JS.Ok (pendingAlerts am)
       | None => JS.Ok (pendingAlerts am)
       end) in
    JS.Ok {| pendingAlerts := pending;
             alertCount := alertCount am;
             finalCheckTimers := delete key (finalCheckTimers am);
             timeouts := timeouts am;
             nextHandle := nextHandle am |}.

(** The runtime fires the timer [handle]: a cleared or unknown handle
    fires nothing; an armed one leaves the timer table and runs its
    [performFinalOICheck]. *)
Definition fireTimeout (CONFIG : Config) (now : Z)
    (tracker : option OKXOpenInterestTracker.t) (handle : nat) (am : t) : JS.result t :=
  match timeouts am !! handle with
  | None => JS.Ok am
  | Some timer =>
      performFinalOICheck CONFIG now tracker (timerKey timer) (timerAlert timer)
        {| pendingAlerts := pendingAlerts am;
           alertCount := alertCount am;
           finalCheckTimers := finalCheckTimers am;
           timeouts := delete handle (timeouts am);
           nextHandle := nextHandle am |}
  end.

(** One tick of the interval of [startMinuteChecker]. *)
Definition minuteTick (now : Z) (delivered : nat -> bool) (am : t)
    : t * list (AlertData * bool) :=
  if Z.eqb (getSeconds now) 0 && Nat.ltb 0 (OrderedMap.size (pendingAlerts am))
  then flushPendingAlerts delivered am
  else (am, []).

(** [stop]: every timer the map of final checks refers to is cleared, then
    the map. *)
Definition stop (am : t) : t :=
  {| pendingAlerts := pendingAlerts am;
     alertCount := alertCount am;
     finalCheckTimers := ∅;
     timeouts :=
       fold_right (fun timer table => delete timer table) (timeouts am)
         (snd <$> map_to_list (finalCheckTimers am));
     nextHandle := nextHandle am |}.

(** What happens to the manager, one event at a time. *)
Inductive Event : Type :=
| Send (now : Z) (symbol : string) (stats : Stats.t)
       (interpretation : SignalEngine.Interpretation) (oiStats : option OIStats.t)
| Fire (now : Z) (tracker : option OKXOpenInterestTracker.t) (handle : nat)
| Tick (now : Z) (delivered : nat -> bool)
| Flush (delivered : nat -> bool).

Definition handle (CONFIG : Config) (e : Event) (am : t) : JS.result t :=
  match e with
  | Send now symbol stats interpretation oiStats =>
      JS.Ok (sendAlert CONFIG now symbol stats interpretation oiStats am)
  | Fire now tracker h => fireTimeout CONFIG now tracker h am
  | Tick now delivered => JS.Ok (fst (minuteTick now delivered am))
  | Flush delivered => JS.Ok (fst (flushPendingAlerts delivered am))
  end.

Fixpoint handleAll (CONFIG : Config) (es : list Event) (am : t) : JS.result t :=
  match es with
  | [] => JS.Ok am
  | e :: rest =>
      let! am1 := handle CONFIG e am in
      handleAll CONFIG rest am1
  end.

End AlertManager.

(** ** MultiWebSocketManager: the trade streams and the alert pipeline

    The state the trade handler works on.  [oiTracker] is the tracker
    object the manager, the signal engine and the alert manager share;
    the engine is rebuilt from it where it is used. *)

Module MultiWebSocketManager.

Record t : Type := {
  tradeAggregator : TradeAggregator.t;
  cooldownManager : CooldownManager.t;
  alertManager : AlertManager.t;
  oiTracker : option OKXOpenInterestTracker.t;
  reconnectAttempts : gmap string nat
}.

Definition new (windowSeconds : Z) (tracker : option OKXOpenInterestTracker.t) : t :=
  {| tradeAggregator := TradeAggregator.new windowSeconds;
     cooldownManager := CooldownManager.new;
     alertManager := AlertManager.new;
     oiTracker := tracker;
     reconnectAttempts := ∅ |}.

Section WithConfig.

Variable CONFIG : Config.
Variable TRADING : TradingConfig.

(** [handleMessage] on a parsed [aggTrade] message; [now] is the clock
    reading of the turn.  The counters of [logStats] are left out.  A
    throw of [interpretSignal] is caught by the [catch] of the handler,
    after the trade was added. *)
Definition handleMessage (now : Z) (symbol : string) (trade : TradeEvent.t) (m : t) : t :=
  let aggregator :=
    TradeAggregator.addTrade symbol (TradeEvent.timestamp trade) (TradeEvent.price trade)
      (TradeEvent.quantity trade) (TradeEvent.isBuyerMaker trade) (tradeAggregator m) in
  let added :=
    {| tradeAggregator := aggregator;
       cooldownManager := cooldownManager m;
       alertManager := alertManager m;
       oiTracker := oiTracker m;
       reconnectAttempts := reconnectAttempts m |} in
  if negb (isWithinTradingHours TRADING now) then added
  else
    match TradeAggregator.getStats symbol aggregator, getSymbolConfig CONFIG symbol with
    | Some stats, Some config =>
        if negb (JS.ge (Stats.totalVolume stats)
                       (JS.mul (minVolumeUSD config) (JS.Fin 0.5))) then added
        else if negb (SignalEngine.shouldAlert CONFIG TRADING now symbol (Some stats))
        then added
        else if negb (CooldownManager.canAlert CONFIG now symbol stats (cooldownManager m))
        then added
        else
          let oiStats :=
            match oiTracker m with
            | Some tracker => OKXOpenInterestTracker.getOIStats now symbol tracker
            | None => None
            end in
          let signalEngine := {| SignalEngine.oiTracker := oiTracker m |} in
          match SignalEngine.interpretSignal CONFIG signalEngine stats oiStats with
          | JS.Ok interpretation =>
              {| tradeAggregator := TradeAggregator.resetSymbol symbol aggregator;
                 cooldownManager :=
                   CooldownManager.recordAlert now symbol stats (cooldownManager m);
                 alertManager :=
                   AlertManager.sendAlert CONFIG now symbol stats interpretation oiStats
                     (alertManager m);
                 oiTracker := oiTracker m;
                 reconnectAttempts := reconnectAttempts m |}
          | JS.Throw _ => added
          end
    | _, _ => added
    end.

(** A run of trade messages, each with the clock reading of its turn and
    its instrument. *)
Definition handleMessages (msgs : list (Z * string * TradeEvent.t)) (m : t) : t :=
  fold_left (fun m '(now, symbol, trade) => handleMessage now symbol trade m) msgs m.

(** [reconnectSymbol]: the delay of the reconnect it arms, if any. *)
Definition reconnectSymbol (symbol : string) (m : t) : t * option Z :=
  let attempts := default 0%nat (reconnectAttempts m !! symbol) in
  if Nat.leb (MAX_RECONNECTS TRADING) attempts then (m, None)
  else
    ({| tradeAggregator := tradeAggregator m;
        cooldownManager := cooldownManager m;
        alertManager := alertManager m;
        oiTracker := oiTracker m;
        reconnectAttempts := <[symbol := S attempts]> (reconnectAttempts m) |},
     Some (5000 * (Z.of_nat attempts + 1))).

End WithConfig.

(** The [open] handler of [connectSymbol]. *)
Definition onOpen (symbol : string) (m : t) : t :=
  {| tradeAggregator := tradeAggregator m;
     cooldownManager := cooldownManager m;
     alertManager := alertManager m;
     oiTracker := oiTracker m;
     reconnectAttempts := <[symbol := 0%nat]> (reconnectAttempts m) |}.

End MultiWebSocketManager.

(** ** Values used in statements and examples *)

(** The direction the aggressor flow alone gives: Step 1 of
    [interpretSignal]. *)
Definition baseDirection (side : Side) : Direction :=
  match side with
  | buy => LONG
  | sell => SHORT
  end.


(** The two tests of the threshold filter of [interpretSignal]:
    [Math.abs(oiDeltaPct) >= minOIDelta] and
    [Math.abs(priceDeltaPct) >= minPriceChange]. *)
Definition oiThresholdPassed (CONFIG : Config) (oi : OIStats.t) : bool :=
  JS.ge (JS.abs (JS.toNumber (OIStats.oiDeltaPct oi))) (OI_MIN_DELTA_PERCENT CONFIG).

Definition priceThresholdPassed (CONFIG : Config) (oi : OIStats.t) : bool :=
  JS.ge (JS.abs (JS.toNumber (OIStats.priceDeltaPct oi)))
        (OI_MIN_PRICE_CHANGE_PERCENT CONFIG).








(** Concrete inputs. *)
Module Sample.
Definition stats (side : Side) : Stats.t :=
  {| Stats.buyVolume := JS.Fin (match side with buy => 1400000 | sell => 600000 end);
     Stats.sellVolume := JS.Fin (match side with buy => 600000 | sell => 1400000 end);
     Stats.totalVolume := JS.Fin 2000000;
     Stats.dominantSide := side;
     Stats.dominance := JS.Fin 70;
     Stats.priceChange := JS.Fin (match side with buy => 1 | sell => -1 end);
     Stats.duration := JS.Fin 60;
     Stats.tradeCount := 50;
     Stats.lastPrice := Some (JS.Fin 10.1) |}.

(** A snapshot with window data and the given percentage changes. *)
Definition snapshot (oiDeltaPct priceDeltaPct : Q) : OIStats.t :=
  {| OIStats.oiNow := JS.Fin 110;
     OIStats.oi5mAgo := Some (JS.Fin 100);
     OIStats.oiDeltaPct := Some (JS.Fin oiDeltaPct);
     OIStats.oiDelta := Some (JS.Fin 10);
     OIStats.priceNow := JS.Fin 10.5;
     OIStats.price5mAgo := Some (JS.Fin 10);
     OIStats.priceDeltaPct := Some (JS.Fin priceDeltaPct);
     OIStats.hasWindowData := true;
     OIStats.historyCount := 2 |}.

Definition tracker : OKXOpenInterestTracker.t :=
  OKXOpenInterestTracker.new ["ADAUSDT"%string] 300 10.

Definition engine : SignalEngine.t :=
  {| SignalEngine.oiTracker := Some tracker |}.

Definition event (timestamp : Z) (price quantity : Q) (isBuyerMaker : bool) : TradeEvent.t :=
  {| TradeEvent.timestamp := timestamp; TradeEvent.price := JS.Fin price;
     TradeEvent.quantity := JS.Fin quantity; TradeEvent.isBuyerMaker := isBuyerMaker |}.

(** A taker buy of 10 at t = 0 and a taker sell of 20.2 one second later. *)
Definition events : list TradeEvent.t :=
  [ event 0 10 1 false; event 1000 10.1 2 true ].

Definition window : SymbolState.t := feed events (SymbolState.new "ADAUSDT" 180).

(** A tracker for one instrument with a 300 s window whose cache holds
    the two points (t = 0, oi = 100, price = 10) and
    (t = 300 s, oi = 110, price = 10.5). *)
Definition trackerWithHistory : OKXOpenInterestTracker.t :=
  OKXOpenInterestTracker.setCache "ADA-USDT-SWAP"
    {| OKXOpenInterestTracker.lastOI := Some (JS.Fin 110);
       OKXOpenInterestTracker.lastPrice := Some (JS.Fin 10.5);
       OKXOpenInterestTracker.history :=
         [ {| OKXOpenInterestTracker.ts := 0;
              OKXOpenInterestTracker.oi := JS.Fin 100;
              OKXOpenInterestTracker.price := JS.Fin 10 |};
           {| OKXOpenInterestTracker.ts := 300000;
              OKXOpenInterestTracker.oi := JS.Fin 110;
              OKXOpenInterestTracker.price := JS.Fin 10.5 |} ] |}
    tracker.

(** What [interpretSignal] answers without a snapshot. *)
Definition interp (side : Side) : SignalEngine.Interpretation :=
  {| SignalEngine.type := match side with buy => SHORT_SQUEEZE | sell => LONG_LIQUIDATION end;
     SignalEngine.label := match side with buy => "SHORT SQUEEZE" | sell => "LONG LIQUIDATION" end;
     SignalEngine.direction := baseDirection side;
     SignalEngine.flowDirection := baseDirection side;
     SignalEngine.finalDirection := baseDirection side;
     SignalEngine.oiOverride := false;
     SignalEngine.oiReason := None;
     SignalEngine.decision := NO_OI_DATA;
     SignalEngine.oiUsed := false;
     SignalEngine.oiDeltaPassed := false;
     SignalEngine.oiPricePassed := false;
     SignalEngine.oiMinDeltaPercent := JS.Fin 0.6;
     SignalEngine.oiMinPriceChangePercent := JS.Fin 0.35 |}.

(** Two candidates pending, for ADAUSDT buy and XRPUSDT sell. *)
Definition twoPending : AlertManager.t :=
  AlertManager.sendAlert CONFIG_default 1700000015000 "XRPUSDT" (stats sell) (interp sell)
    None
    (AlertManager.sendAlert CONFIG_default 1700000010000 "ADAUSDT" (stats buy) (interp buy)
       None AlertManager.new).

End Sample.

(** The history the cache holds for an instrument; empty when the
    instrument has no cache entry. *)
Definition historyOf (binanceSymbol : string) (tr : OKXOpenInterestTracker.t)
    : list OKXOpenInterestTracker.Point :=
  match OKXOpenInterestTracker.oiCache tr !! binanceToOKX binanceSymbol with
  | Some cache => OKXOpenInterestTracker.history cache
  | None => []
  end.

(** [(now - past) / past * 100] as [getOIStats] computes it. *)
Definition percentChange (now past : JS.number) : JS.number :=
  JS.mul (JS.div (JS.sub now past) past) (JS.Fin 100).


(** ** Predicates and inputs of the statements about the handlers *)

Module TrackerSpec.
Import OKXOpenInterestTracker.
(** The cache entry of an instrument after an open-interest or mark-price
    value was stored: the value is the latest one and, once both are
    known, a point is appended and the history pruned. *)
Definition stored (now : Z) (historyMs : Z) (timestamp : Z)
    (oi price : option JS.number) (history : list Point) : list Point :=
  match oi, price with
  | Some oi, Some price =>
      List.filter (fun item => bool_decide (ts item >= now - historyMs))
        (history ++ [ {| ts := timestamp; oi := oi; price := price |} ])
  | _, _ => history
  end.

(** What holds of a tracker that has handled the updates [seen]: values
    are numbers, each latest value came with an update of its channel, and
    a history is empty until both latest values are known. *)
Definition consistent (seen : list Update) (tr : t) : Prop :=
  forall k cache,
    oiCache tr !! k = Some cache ->
    (forall v, lastOI cache = Some v ->
               v <> JS.NaN
               /\ exists u, u ∈ seen /\ channel u = OpenInterest /\ instId u = k
                            /\ value u = v)
    /\ (forall v, lastPrice cache = Some v ->
                  v <> JS.NaN
                  /\ exists u, u ∈ seen /\ channel u = MarkPrice /\ instId u = k
                               /\ value u = v)
    /\ (forall p, p ∈ history cache -> oi p <> JS.NaN /\ price p <> JS.NaN)
    /\ (history cache <> [] -> is_Some (lastOI cache) /\ is_Some (lastPrice cache)).

(** An open-interest value and a mark price for ADA-USDT-SWAP. *)
Definition updates : list Update :=
  [ {| clock := 1000; channel := OpenInterest; instId := "ADA-USDT-SWAP";
       value := JS.Fin 100; stamp := 900 |};
    {| clock := 2000; channel := MarkPrice; instId := "ADA-USDT-SWAP";
       value := JS.Fin 10; stamp := 1900 |} ].
End TrackerSpec.

Module WindowSpec.
(** The trade [addTrade] builds from an event. *)
Definition tradeOf (e : TradeEvent.t) : SymbolState.Trade :=
  let volume := JS.mul (TradeEvent.price e) (TradeEvent.quantity e) in
  {| SymbolState.timestamp := TradeEvent.timestamp e;
     SymbolState.price := TradeEvent.price e;
     SymbolState.buyVol := if TradeEvent.isBuyerMaker e then JS.Fin 0 else volume;
     SymbolState.sellVol := if TradeEvent.isBuyerMaker e then volume else JS.Fin 0 |}.
End WindowSpec.

Module PoisonSpec.
End PoisonSpec.

Module FilterInputs.
(** Statistics whose volumes are NaN. *)
Definition nanStats : Stats.t :=
  {| Stats.buyVolume := JS.NaN; Stats.sellVolume := JS.NaN; Stats.totalVolume := JS.NaN;
     Stats.dominantSide := sell; Stats.dominance := JS.NaN; Stats.priceChange := JS.NaN;
     Stats.duration := JS.Fin 0; Stats.tradeCount := 1;
     Stats.lastPrice := Some JS.NaN |}.
End FilterInputs.

Module AlertSpec.
Import AlertManager.

(** The key a candidate is filed under. *)
Definition keyOf (a : AlertData) : string :=
  alertKey (symbol a) (Stats.dominantSide (stats a)).

(** What holds of the timers of a manager: handles are below the next
    one, an armed timer is the one [finalCheckTimers] records under its
    key, and it carries a candidate of that key. *)
Definition timersOK (am : t) : Prop :=
  (forall h timer,
      timeouts am !! h = Some timer ->
      (h < nextHandle am)%nat
      /\ finalCheckTimers am !! timerKey timer = Some h
      /\ timerKey timer = keyOf (timerAlert timer))
  /\ (forall key h, finalCheckTimers am !! key = Some h -> (h < nextHandle am)%nat).

(** What holds of a manager after any run of events: the pending map
    holds a key once, each candidate under the key of its own symbol and
    side, and the candidate an armed timer closes over is the one pending
    under its key, if one is. *)
Definition wellFormed (am : t) : Prop :=
  OrderedMap.uniqueKeys (pendingAlerts am)
  /\ (forall key a, In (key, a) (pendingAlerts am) -> key = keyOf a)
  /\ timersOK am
  /\ (forall h timer a,
         timeouts am !! h = Some timer ->
         OrderedMap.get (timerKey timer) (pendingAlerts am) = Some a ->
         a = timerAlert timer).

(** Two candidates that differ in nothing but what the final check
    revises. *)
Definition sameCandidate (a b : AlertData) : Prop :=
  symbol a = symbol b /\ stats a = stats b /\ timestamp a = timestamp b.

End AlertSpec.

Module AlertInputs.
(** Two candidates queued at seconds 30 and 35 of a minute. *)
Definition twoSends : list AlertManager.Event :=
  [ AlertManager.Send 1700000010000 "ADAUSDT" (Sample.stats buy) (Sample.interp buy) None;
    AlertManager.Send 1700000015000 "XRPUSDT" (Sample.stats sell) (Sample.interp sell) None ].

(** The symbol and side of a candidate. *)
Definition subject (a : AlertManager.AlertData) : string * Side :=
  (AlertManager.symbol a, Stats.dominantSide (AlertManager.stats a)).
End AlertInputs.

Module PipelineSpec.
Import MultiWebSocketManager.

(** The aggregator once [handleMessage] has added the trade. *)
Definition withTrade (symbol : string) (trade : TradeEvent.t) (a : TradeAggregator.t)
    : TradeAggregator.t :=
  TradeAggregator.addTrade symbol (TradeEvent.timestamp trade) (TradeEvent.price trade)
    (TradeEvent.quantity trade) (TradeEvent.isBuyerMaker trade) a.

(** A handler run that raised no alert: the trade is in its window and
    nothing else moved. *)
Definition quiet (symbol : string) (trade : TradeEvent.t) (m m' : t) : Prop :=
  tradeAggregator m' = withTrade symbol trade (tradeAggregator m)
  /\ cooldownManager m' = cooldownManager m
  /\ alertManager m' = alertManager m.

(** A small taker buy of ADAUSDT, then a large one 1 % higher a second
    later: the second raises an alert.  The same again 400 s later. *)
Definition burst (t0 : Z) : list (Z * string * TradeEvent.t) :=
  [ (t0 + 500, "ADAUSDT"%string, Sample.event t0 10 1 false);
    (t0 + 1500, "ADAUSDT"%string, Sample.event (t0 + 1000) 10.1 200000 false) ].

Definition afterBurst : t :=
  handleMessages CONFIG_default TRADING_default (burst 1700000000000) (new 180 None).

End PipelineSpec.


(** * Properties *)

(** ** Comparisons of numbers *)

Module JSFacts.
Import JS.

Lemma Qltb_true a b : Qltb a b = true <-> (a < b)%Q.
Proof.
  unfold Qltb. rewrite negb_true_iff.
  destruct (Qle_bool b a) eqn:E.
  - apply Qle_bool_iff in E. split; [discriminate | intros H; exfalso; lra].
  - split; [intros _ | reflexivity].
    destruct (Qlt_le_dec a b) as [H | H]; [exact H |].
    apply Qle_bool_iff in H. congruence.
Qed.

Lemma Qltb_false a b : Qltb a b = false <-> (b <= a)%Q.
Proof.
  unfold Qltb. rewrite negb_false_iff. apply Qle_bool_iff.
Qed.

Lemma lt_Fin a b : lt (Fin a) (Fin b) = true <-> (a < b)%Q.
Proof. apply Qltb_true. Qed.

Lemma le_Fin a b : le (Fin a) (Fin b) = true <-> (a <= b)%Q.
Proof. apply Qle_bool_iff. Qed.

Lemma gt_Fin a b : gt (Fin a) (Fin b) = true <-> (b < a)%Q.
Proof. apply Qltb_true. Qed.

Lemma ge_Fin a b : ge (Fin a) (Fin b) = true <-> (b <= a)%Q.
Proof. apply Qle_bool_iff. Qed.

(** A change whose size reaches [m] lies beyond any bound [t] below
    [m], on one side or the other. *)
Lemma abs_ge_split x m t :
  ge (abs x) m = true -> lt (Fin t) m = true ->
  gt x (Fin t) = true \/ lt x (neg (Fin t)) = true.
Proof.
  destruct x as [| | |q]; destruct m as [| | |b]; simpl; try discriminate; auto.
  intros Hge Hlt. apply Qle_bool_iff in Hge. apply Qltb_true in Hlt.
  unfold gt. simpl. rewrite !Qltb_true.
  destruct (Qlt_le_dec q 0) as [Hq | Hq].
  - rewrite Qabs_neg in Hge by lra. right. lra.
  - rewrite Qabs_pos in Hge by lra. left. lra.
Qed.

(** [null] counts as [0] and so stays under a positive threshold. *)
Lemma ge_abs_toNumber_Some x m :
  lt (Fin 0) m = true -> ge (abs (toNumber x)) m = true -> is_Some x.
Proof.
  destruct x as [n |]; [eauto |].
  destruct m as [| | |b]; cbn [ge le lt abs toNumber]; try discriminate.
  intros Hlt Hge. apply Qltb_true in Hlt. apply Qle_bool_iff in Hge.
  rewrite Qabs_pos in Hge by lra. lra.
Qed.

(** No number is above [t] and below [-t] at once when [t >= 0]. *)
Lemma gt_lt_neg_excl x t :
  (0 <= t)%Q -> gt x (Fin t) = true -> lt x (neg (Fin t)) = true -> False.
Proof.
  intros Ht. destruct x as [| | |q]; simpl; try discriminate.
  unfold gt. simpl. rewrite !Qltb_true. lra.
Qed.

End JSFacts.

(** ** OKXOpenInterestTracker.getOIStats *)

Module OKXOpenInterestTrackerFacts.
Import OKXOpenInterestTracker.

Lemma scanBack_spec (h : list Point) (w : Z) (n : nat) :
  match scanBack h n w with
  | Some p =>
      exists i : nat,
        (i < n)%nat /\ h !! i = Some p /\ ts p <= w
        /\ (forall (j : nat) (q : Point), (i < j < n)%nat -> h !! j = Some q -> w < ts q)
  | None => forall (j : nat) (q : Point), (j < n)%nat -> h !! j = Some q -> w < ts q
  end.
Proof.
  induction n as [| n IH]; cbn [scanBack].
  - intros j q Hj. lia.
  - destruct (h !! n) as [p |] eqn:En.
    + destruct (bool_decide (ts p <= w)) eqn:Ep.
      * apply bool_decide_eq_true_1 in Ep.
        exists n. split; [lia |]. split; [exact En |]. split; [exact Ep |].
        intros j q Hj. lia.
      * apply bool_decide_eq_false_1 in Ep.
        destruct (scanBack h n w) as [p' |].
        -- destruct IH as (i & Hi & Ei & Hts & Hlater).
           exists i. split; [lia |]. split; [exact Ei |]. split; [exact Hts |].
           intros j q Hj Ej. destruct (decide (j = n)) as [-> | Hne].
           ++ rewrite En in Ej. injection Ej as <-. lia.
           ++ apply (Hlater j q); [lia | exact Ej].
        -- intros j q Hj Ej. destruct (decide (j = n)) as [-> | Hne].
           ++ rewrite En in Ej. injection Ej as <-. lia.
           ++ apply (IH j q); [lia | exact Ej].
    + destruct (scanBack h n w) as [p' |].
      * destruct IH as (i & Hi & Ei & Hts & Hlater).
        exists i. split; [lia |]. split; [exact Ei |]. split; [exact Hts |].
        intros j q Hj Ej. destruct (decide (j = n)) as [-> | Hne].
        -- congruence.
        -- apply (Hlater j q); [lia | exact Ej].
      * intros j q Hj Ej. destruct (decide (j = n)) as [-> | Hne].
        -- congruence.
        -- apply (IH j q); [lia | exact Ej].
Qed.

(** C6.  [getOIStats] returns [null] when the instrument has no history.
    Otherwise it returns a snapshot whose [oiNow] and [priceNow] are those
    of the latest history point, and, with [now] the clock reading of the
    query: either some point [past] has a timestamp at or before
    [now - windowMs] while every later point of the history is newer than
    that, so [past] is the first such point met from newest to oldest, and
    the snapshot has [hasWindowData] true and the percentage changes
    [(latest - past) / past * 100] of open interest and price; or no point
    is that old, and the snapshot has [hasWindowData] false and [null]
    deltas.  With the points (t = 0, oi = 100, price = 10) and
    (t = 300 s, oi = 110, price = 10.5), a query at t = 300 s with a 300 s
    window gives [oiDeltaPct] 10 and [priceDeltaPct] 5. *)
Theorem getOIStats_lookup now binanceSymbol tr :
  let h := historyOf binanceSymbol tr in
  let windowAgoTime := now - windowMs tr in
  (h = [] -> getOIStats now binanceSymbol tr = None)
  /\ (forall latest : Point,
        last h = Some latest ->
        exists snap : OIStats.t,
          getOIStats now binanceSymbol tr = Some snap
          /\ OIStats.oiNow snap = oi latest
          /\ OIStats.priceNow snap = price latest
          /\ ((exists (i : nat) (past : Point),
                  h !! i = Some past
                  /\ ts past <= windowAgoTime
                  /\ (forall (j : nat) (q : Point),
                         (i < j)%nat -> h !! j = Some q -> windowAgoTime < ts q)
                  /\ OIStats.hasWindowData snap = true
                  /\ OIStats.oi5mAgo snap = Some (oi past)
                  /\ OIStats.price5mAgo snap = Some (price past)
                  /\ OIStats.oiDeltaPct snap = Some (percentChange (oi latest) (oi past))
                  /\ OIStats.priceDeltaPct snap
                     = Some (percentChange (price latest) (price past)))
              \/ ((forall (j : nat) (q : Point), h !! j = Some q -> windowAgoTime < ts q)
                  /\ OIStats.hasWindowData snap = false
                  /\ OIStats.oi5mAgo snap = None
                  /\ OIStats.price5mAgo snap = None
                  /\ OIStats.oiDeltaPct snap = None
                  /\ OIStats.priceDeltaPct snap = None)))
  /\ (exists (snap : OIStats.t) (oiPct pricePct : Q),
        getOIStats 300000 "ADAUSDT" Sample.trackerWithHistory = Some snap
        /\ OIStats.hasWindowData snap = true
        /\ OIStats.oiDeltaPct snap = Some (JS.Fin oiPct) /\ (oiPct == 10)%Q
        /\ OIStats.priceDeltaPct snap = Some (JS.Fin pricePct) /\ (pricePct == 5)%Q).
Proof.
  intros h windowAgoTime. split; [| split].
  - unfold h, historyOf, getOIStats.
    destruct (oiCache tr !! binanceToOKX binanceSymbol) as [cache |]; [| reflexivity].
    intros ->. reflexivity.
  - intros latest Hlast. unfold getOIStats.
    unfold h, historyOf in *.
    destruct (oiCache tr !! binanceToOKX binanceSymbol) as [cache |]; [| discriminate].
    rewrite Hlast.
    pose proof (scanBack_spec (history cache) windowAgoTime (length (history cache))) as Hscan.
    fold windowAgoTime.
    destruct (scanBack (history cache) (length (history cache)) windowAgoTime) as [past |].
    + destruct Hscan as (i & Hi & Ei & Hts & Hlater).
      eexists. split; [reflexivity |]. cbn. split; [reflexivity |]. split; [reflexivity |].
      left. exists i, past. split; [exact Ei |]. split; [exact Hts |].
      split; [| auto 10].
      intros j q Hj Ej. apply (Hlater j q); [| exact Ej].
      split; [exact Hj |]. apply lookup_lt_Some in Ej. exact Ej.
    + eexists. split; [reflexivity |]. cbn. split; [reflexivity |]. split; [reflexivity |].
      right. split; [| auto 10].
      intros j q Ej. apply (Hscan j q); [| exact Ej]. apply lookup_lt_Some in Ej. exact Ej.
  - eexists _, _, _. split; [vm_compute; reflexivity |].
    split; [reflexivity |]. split; [reflexivity |]. split; [reflexivity |].
    split; reflexivity.
Qed.

(** The two-point history queried at t = 300 s: the point at t = 0 is the
    one found. *)
Lemma getOIStats_lookup_witness :
  last (historyOf "ADAUSDT" Sample.trackerWithHistory)
  = Some {| ts := 300000; oi := JS.Fin 110; price := JS.Fin 10.5 |}
  /\ exists snap : OIStats.t,
       getOIStats 300000 "ADAUSDT" Sample.trackerWithHistory = Some snap
       /\ OIStats.oiNow snap = JS.Fin 110
       /\ OIStats.priceNow snap = JS.Fin 10.5
       /\ OIStats.hasWindowData snap = true.
Proof.
  assert (Hlast : last (historyOf "ADAUSDT" Sample.trackerWithHistory)
                  = Some {| ts := 300000; oi := JS.Fin 110; price := JS.Fin 10.5 |})
    by (vm_compute; reflexivity).
  split; [exact Hlast |].
  destruct (proj1 (proj2 (getOIStats_lookup 300000 "ADAUSDT" Sample.trackerWithHistory))
              _ Hlast) as (snap & Hsnap & Hoi & Hprice & _).
  exists snap. split; [exact Hsnap |]. split; [exact Hoi |]. split; [exact Hprice |].
  assert (E : getOIStats 300000 "ADAUSDT" Sample.trackerWithHistory
              = Some {| OIStats.oiNow := JS.Fin 110;
                        OIStats.oi5mAgo := Some (JS.Fin 100);
                        OIStats.oiDeltaPct := Some (percentChange (JS.Fin 110) (JS.Fin 100));
                        OIStats.oiDelta := Some (JS.sub (JS.Fin 110) (JS.Fin 100));
                        OIStats.priceNow := JS.Fin 10.5;
                        OIStats.price5mAgo := Some (JS.Fin 10);
                        OIStats.priceDeltaPct := Some (percentChange (JS.Fin 10.5) (JS.Fin 10));
                        OIStats.hasWindowData := true;
                        OIStats.historyCount := 2 |})
    by (vm_compute; reflexivity).
  rewrite E in Hsnap. injection Hsnap as <-. reflexivity.
Defined.

End OKXOpenInterestTrackerFacts.

(** ** The range of a double *)

Module RangeFacts.
Import JS.













End RangeFacts.

(** ** SymbolState: statistics of the window *)

Module SymbolStateFacts.
Import SymbolState RangeFacts.




Lemma cleanup_trades now st :
  trades (cleanup now st)
  = List.filter (fun t => bool_decide (timestamp t >= now - windowMs st)) (trades st).
Proof. reflexivity. Qed.


Lemma addTrade_windowMs ts p q m st : windowMs (addTrade ts p q m st) = windowMs st.
Proof. reflexivity. Qed.






Lemma feed_windowMs evs st : windowMs (feed evs st) = windowMs st.
Proof.
  revert st. induction evs as [| e evs IH]; intros st; [reflexivity |].
  cbn. rewrite IH. apply addTrade_windowMs.
Qed.




(** *** Volumes inside the range of a double *)








(** *** What [getStats] returns *)








(** Outside the range of a double the relations fail.  One taker buy of
    [2^1023] at quantity 2 has a volume, and so a total, of Infinity, and
    the dominance is NaN; one of [2^-600] at quantity [2^-600] has a
    volume of zero, and [getStats] returns [null] though a trade is in the
    window. *)
Lemma getStats_out_of_range :
  (exists r,
      getStats (feed [Sample.event 0 (inject_Z (2 ^ 1023)) 2 false]
                  (SymbolState.new "ADAUSDT" 180)) = Some r
      /\ Stats.totalVolume r = JS.PosInf /\ Stats.dominance r = JS.NaN)
  /\ getStats (feed [Sample.event 0 (1 # 2 ^ 600) (1 # 2 ^ 600) false]
                 (SymbolState.new "ADAUSDT" 180)) = None
  /\ length (trades (feed [Sample.event 0 (1 # 2 ^ 600) (1 # 2 ^ 600) false]
                       (SymbolState.new "ADAUSDT" 180))) = 1%nat.
Proof.
  split; [| split; vm_compute; reflexivity].
  eexists. split; [vm_compute; reflexivity |]. split; reflexivity.
Qed.

(** ** Pruning *)

Lemma filter_none {A} (f : A -> bool) (l : list A) :
  (forall x, In x l -> f x = false) -> List.filter f l = [].
Proof.
  induction l as [| x l IH]; intros H; [reflexivity |].
  cbn. rewrite (H x (or_introl eq_refl)). apply IH. intros y Hy. apply H. right. exact Hy.
Qed.

(** C4, amended.  [getStats] does not read the clock: advancing the clock
    with no new trade leaves its result as it was.  The window is pruned
    by [cleanup], which [addTrade] runs with the timestamp of the new
    trade: after a [cleanup] at a time later than the timestamp of every
    retained trade plus the window duration, the window is empty,
    [firstPrice] is [null] and [getStats] returns [null]. *)
Theorem cleanup_past_window st now :
  (forall t, In t (trades st) -> timestamp t + windowMs st < now) ->
  trades (cleanup now st) = []
  /\ firstPrice (cleanup now st) = None
  /\ getStats (cleanup now st) = None
  /\ (forall symbol ms w,
         Runtime.getStats symbol (Runtime.advanceClock ms w) = Runtime.getStats symbol w).
Proof.
  intros Hold.
  assert (E : trades (cleanup now st) = []).
  { rewrite cleanup_trades. apply filter_none. intros t Ht.
    apply bool_decide_eq_false_2. specialize (Hold t Ht). lia. }
  split; [exact E |]. split; [| split].
  - unfold cleanup in *. cbn in *. rewrite E. reflexivity.
  - unfold getStats. rewrite E. reflexivity.
  - reflexivity.
Qed.

(** The sample window, cleaned 182 s after its first trade. *)
Lemma cleanup_past_window_witness :
  (forall t, In t (trades Sample.window) -> timestamp t + windowMs Sample.window < 182000)
  /\ trades (cleanup 182000 Sample.window) = []
  /\ getStats (cleanup 182000 Sample.window) = None.
Proof.
  assert (H : forall t, In t (trades Sample.window) ->
                        timestamp t + windowMs Sample.window < 182000).
  { intros t Ht. vm_compute in Ht. destruct Ht as [<- | [<- | []]]; vm_compute; reflexivity. }
  split; [exact H |].
  destruct (cleanup_past_window Sample.window 182000 H) as (H1 & _ & H3 & _).
  split; assumption.
Defined.

(** C4 as stated fails: one trade at t = 0 in a 180 s window, then the
    clock moves on by 181 s with no further trade, and [getStats] still
    answers. *)
Lemma getStats_survives_clock_advance :
  let w0 := {| Runtime.clock := 0; Runtime.tradeAggregator := TradeAggregator.new 180 |} in
  let w1 := Runtime.onTrade "ADAUSDT" 0 (JS.Fin 10) (JS.Fin 1) false w0 in
  let w2 := Runtime.advanceClock 181000 w1 in
  Runtime.clock w2 - 0 > 180 * 1000
  /\ Runtime.getStats "ADAUSDT" w2 <> None.
Proof.
  cbn zeta. split; [cbn; lia |]. vm_compute. discriminate.
Qed.

End SymbolStateFacts.

(** ** SignalEngine.interpretSignal *)

Module SignalEngineFacts.
Import SignalEngine.

Lemma availableOI_Some CONFIG eng oiStats o :
  availableOI CONFIG eng oiStats = Some o ->
  oiStats = Some o /\ OI_ENABLED CONFIG = true /\ is_Some (oiTracker eng)
  /\ OIStats.hasWindowData o = true.
Proof.
  unfold availableOI.
  destruct (OI_ENABLED CONFIG); simpl; [| discriminate].
  destruct (oiTracker eng) as [tr |]; [| discriminate].
  destruct oiStats as [o' |]; [| discriminate].
  destruct (OIStats.hasWindowData o') eqn:Hw; [| discriminate].
  intros [= ->]. eauto.
Qed.

Lemma availableOI_None CONFIG eng oiStats :
  availableOI CONFIG eng oiStats = None <->
  OI_ENABLED CONFIG = false \/ oiTracker eng = None \/ oiStats = None
  \/ (exists o, oiStats = Some o /\ OIStats.hasWindowData o = false).
Proof.
  unfold availableOI.
  destruct (OI_ENABLED CONFIG); simpl; [| tauto].
  destruct (oiTracker eng) as [tr |]; [| tauto].
  destruct oiStats as [o |]; [| tauto].
  destruct (OIStats.hasWindowData o) eqn:Hw.
  - split; [discriminate |].
    intros [H | [H | [H | (o' & [= <-] & H)]]]; congruence.
  - split; [| reflexivity]. intros _. right. right. right. eauto.
Qed.

(** C1.  Whenever [interpretSignal] returns with [oiUsed] true, its answer
    follows the quadrant table.  With price falling meaning a price change
    below -0.1 %, price rising one above 0.1 %, open interest rising a
    change above 0.5 % and falling one below -0.5 %:
    falling price and rising OI give SHORT and CONTINUATION; falling price
    and falling OI give LONG and BOUNCE; rising price and rising OI give
    LONG and CONTINUATION; rising price and falling OI give SHORT and
    BOUNCE; when neither movement is significant the base direction is kept
    and the decision is INCONCLUSIVE (the decision is INCONCLUSIVE exactly
    when the price or the open interest is not significant); and
    [oiOverride] is true if and only if the final direction differs from
    the base direction, which is LONG for buy dominance and SHORT for sell
    dominance. *)
Theorem interpretSignal_quadrant_table CONFIG eng stats oi r :
interpretSignal CONFIG eng stats (Some oi) = JS.Ok r ->
oiUsed r = true ->
let price := JS.toNumber (OIStats.priceDeltaPct oi) in
let oiPct := JS.toNumber (OIStats.oiDeltaPct oi) in
let priceRising := JS.gt price (JS.Fin 0.1) in
let priceFalling := JS.lt price (JS.Fin (-0.1)) in
let oiRising := JS.gt oiPct (JS.Fin 0.5) in
let oiFalling := JS.lt oiPct (JS.Fin (-0.5)) in
flowDirection r = baseDirection (Stats.dominantSide stats)
/\ (priceFalling = true -> oiRising = true ->
    finalDirection r = SHORT /\ decision r = CONTINUATION)
/\ (priceFalling = true -> oiFalling = true ->
    finalDirection r = LONG /\ decision r = BOUNCE)
/\ (priceRising = true -> oiRising = true ->
    finalDirection r = LONG /\ decision r = CONTINUATION)
/\ (priceRising = true -> oiFalling = true ->
    finalDirection r = SHORT /\ decision r = BOUNCE)
/\ (priceRising = false -> priceFalling = false ->
    oiRising = false -> oiFalling = false ->
    finalDirection r = flowDirection r /\ decision r = INCONCLUSIVE)
/\ (decision r = INCONCLUSIVE <->
    (priceRising || priceFalling) && (oiRising || oiFalling) = false)
/\ (oiOverride r = true <-> finalDirection r <> flowDirection r).
Proof.
intros Hres Hused price oiPct priceRising priceFalling oiRising oiFalling.
assert (Hp : priceRising = true -> priceFalling = true -> False).
{ apply JSFacts.gt_lt_neg_excl. lra. }
assert (Ho : oiRising = true -> oiFalling = true -> False).
{ apply JSFacts.gt_lt_neg_excl. lra. }
unfold interpretSignal in Hres.
destruct (availableOI CONFIG eng (Some oi)) as [o' |] eqn:Hav.
2: { destruct (Stats.dominantSide stats); injection Hres as <-; discriminate Hused. }
apply availableOI_Some in Hav as ([= <-] & _).
change (JS.neg PRICE_THRESHOLD) with (JS.Fin (-0.1)) in Hres.
change (JS.neg OI_THRESHOLD) with (JS.Fin (-0.5)) in Hres.
change PRICE_THRESHOLD with (JS.Fin 0.1) in Hres.
change OI_THRESHOLD with (JS.Fin 0.5) in Hres.
fold price oiPct in Hres. fold priceRising priceFalling oiRising oiFalling in Hres.
destruct (JS.ge (JS.abs oiPct) _), (JS.ge (JS.abs price) _);
  cbn [andb negb] in Hres;
  try (destruct (Stats.dominantSide stats); injection Hres as <-; discriminate Hused).
clearbody priceRising priceFalling oiRising oiFalling.
destruct priceRising, priceFalling, oiRising, oiFalling;
  try (exfalso; auto; fail);
  destruct (OIStats.priceDeltaPct oi), (OIStats.oiDeltaPct oi);
  destruct (Stats.dominantSide stats);
  cbn in Hres; try discriminate Hres; injection Hres as <-; cbn;
  repeat split; intros; try discriminate; try congruence; try (exfalso; auto; fail).
Qed.

(** With both gate thresholds above the significance thresholds of the
    quadrants, every snapshot that passes the gate is significant in
    price and in open interest, the call returns, and the decision is
    one of the four quadrants. *)
Lemma quadrant_forced CONFIG eng stats oiStats :
  JS.lt (JS.Fin 0.5) (OI_MIN_DELTA_PERCENT CONFIG) = true ->
  JS.lt (JS.Fin 0.1) (OI_MIN_PRICE_CHANGE_PERCENT CONFIG) = true ->
  exists r,
    interpretSignal CONFIG eng stats oiStats = JS.Ok r
    /\ (oiUsed r = true ->
        exists oi,
          oiStats = Some oi
          /\ (JS.gt (JS.toNumber (OIStats.oiDeltaPct oi)) (JS.Fin 0.5) = true
              \/ JS.lt (JS.toNumber (OIStats.oiDeltaPct oi)) (JS.Fin (-0.5)) = true)
          /\ (JS.gt (JS.toNumber (OIStats.priceDeltaPct oi)) (JS.Fin 0.1) = true
              \/ JS.lt (JS.toNumber (OIStats.priceDeltaPct oi)) (JS.Fin (-0.1)) = true)
          /\ (decision r = CONTINUATION \/ decision r = BOUNCE)).
Proof.
  intros Hoi Hprice. unfold interpretSignal.
  destruct (availableOI CONFIG eng oiStats) as [oi |] eqn:Hav.
  2: { destruct (Stats.dominantSide stats);
       (eexists; split; [reflexivity |]; cbn; discriminate). }
  apply availableOI_Some in Hav as (-> & _).
  destruct (JS.ge (JS.abs (JS.toNumber (OIStats.oiDeltaPct oi))) _) eqn:Ho;
    [| destruct (Stats.dominantSide stats);
       (eexists; split; [reflexivity |]; cbn; discriminate)].
  destruct (JS.ge (JS.abs (JS.toNumber (OIStats.priceDeltaPct oi))) _) eqn:Hp;
    [| destruct (Stats.dominantSide stats);
       (eexists; split; [reflexivity |]; cbn; discriminate)].
  pose proof (JSFacts.abs_ge_split _ _ _ Ho Hoi) as Hoi2.
  pose proof (JSFacts.abs_ge_split _ _ _ Hp Hprice) as Hprice2.
  assert (Hso : is_Some (OIStats.oiDeltaPct oi)).
  { eapply JSFacts.ge_abs_toNumber_Some; [| exact Ho].
    destruct (OI_MIN_DELTA_PERCENT CONFIG); try discriminate; [reflexivity |].
    apply JSFacts.lt_Fin in Hoi. apply JSFacts.lt_Fin. lra. }
  assert (Hsp : is_Some (OIStats.priceDeltaPct oi)).
  { eapply JSFacts.ge_abs_toNumber_Some; [| exact Hp].
    destruct (OI_MIN_PRICE_CHANGE_PERCENT CONFIG); try discriminate; [reflexivity |].
    apply JSFacts.lt_Fin in Hprice. apply JSFacts.lt_Fin. lra. }
  destruct Hso as [o Eo], Hsp as [p Ep]. rewrite Eo, Ep in *.
  cbn [JS.toNumber] in *.
  assert (Hxp : JS.gt p (JS.Fin 0.1) = true -> JS.lt p (JS.Fin (-0.1)) = true -> False).
  { apply JSFacts.gt_lt_neg_excl. lra. }
  assert (Hxo : JS.gt o (JS.Fin 0.5) = true -> JS.lt o (JS.Fin (-0.5)) = true -> False).
  { apply JSFacts.gt_lt_neg_excl. lra. }
  change (JS.neg PRICE_THRESHOLD) with (JS.Fin (-0.1)).
  change (JS.neg OI_THRESHOLD) with (JS.Fin (-0.5)).
  change PRICE_THRESHOLD with (JS.Fin 0.1).
  change OI_THRESHOLD with (JS.Fin 0.5).
  change (JS.neg (JS.Fin 0.5)) with (JS.Fin (-0.5)) in Hoi2.
  change (JS.neg (JS.Fin 0.1)) with (JS.Fin (-0.1)) in Hprice2.
  destruct (JS.gt p (JS.Fin 0.1)) eqn:G1, (JS.lt p (JS.Fin (-0.1))) eqn:G2,
    (JS.gt o (JS.Fin 0.5)) eqn:G3, (JS.lt o (JS.Fin (-0.5))) eqn:G4;
    try (exfalso; auto; fail);
    try (exfalso; destruct Hoi2; discriminate);
    try (exfalso; destruct Hprice2; discriminate);
    destruct (Stats.dominantSide stats);
    (eexists; split; [reflexivity |]; intros _; eexists; split; [reflexivity |];
     rewrite Eo, Ep; cbn [JS.toNumber]; rewrite ?G1, ?G2, ?G3, ?G4; cbn; auto).
Qed.


(** The table at a buy-dominated window with OI up 1 % and price down 1 %:
    the flow says LONG, the answer is SHORT by override. *)
Lemma interpretSignal_quadrant_table_witness :
  exists r,
    interpretSignal CONFIG_default Sample.engine (Sample.stats buy)
      (Some (Sample.snapshot 1 (-1))) = JS.Ok r
    /\ oiUsed r = true
    /\ flowDirection r = LONG
    /\ finalDirection r = SHORT /\ decision r = CONTINUATION
    /\ oiOverride r = true.
Proof.
  eexists. split; [reflexivity |]. split; [reflexivity |].
  pose proof (interpretSignal_quadrant_table CONFIG_default Sample.engine
                (Sample.stats buy) (Sample.snapshot 1 (-1)) _ eq_refl eq_refl)
    as (Hflow & HA & _ & _ & _ & _ & _ & Hov).
  split; [exact Hflow |].
  destruct (HA eq_refl eq_refl) as [Hfin Hdec].
  split; [exact Hfin |]. split; [exact Hdec |].
  apply Hov. rewrite Hfin, Hflow. discriminate.
Defined.

(** C2, amended.  When OI is disabled, the snapshot is absent, or its
    [hasWindowData] is false, [interpretSignal] returns the base direction
    unchanged (LONG for buy dominance, SHORT for sell dominance) with
    [oiUsed] false; the decision it reports is [NO_OI_DATA]. *)
Theorem interpretSignal_without_oi CONFIG eng stats oiStats :
  OI_ENABLED CONFIG = false
  \/ oiStats = None
  \/ (exists o, oiStats = Some o /\ OIStats.hasWindowData o = false) ->
  exists r,
    interpretSignal CONFIG eng stats oiStats = JS.Ok r
    /\ flowDirection r = baseDirection (Stats.dominantSide stats)
    /\ finalDirection r = baseDirection (Stats.dominantSide stats)
    /\ decision r = NO_OI_DATA
    /\ oiUsed r = false.
Proof.
  intros H.
  assert (Hav : availableOI CONFIG eng oiStats = None).
  { apply availableOI_None. tauto. }
  unfold interpretSignal. rewrite Hav.
  destruct (Stats.dominantSide stats); eexists; (split; [reflexivity |]); cbn; auto.
Qed.

Lemma interpretSignal_without_oi_witness :
  (OI_ENABLED CONFIG_default = false
   \/ (None : option OIStats.t) = None
   \/ (exists o, None = Some o /\ OIStats.hasWindowData o = false))
  /\ exists r,
       interpretSignal CONFIG_default Sample.engine (Sample.stats sell) None = JS.Ok r
       /\ flowDirection r = SHORT
       /\ finalDirection r = SHORT
       /\ decision r = NO_OI_DATA
       /\ oiUsed r = false.
Proof.
  split; [right; left; reflexivity |].
  apply (interpretSignal_without_oi CONFIG_default Sample.engine (Sample.stats sell) None).
  right; left; reflexivity.
Defined.

(** C2 as stated fails: with no snapshot the decision is [NO_OI_DATA],
    not [BASE]. *)
Lemma no_oi_decision_is_not_BASE :
  exists r,
    interpretSignal CONFIG_default Sample.engine (Sample.stats buy) None = JS.Ok r
    /\ finalDirection r = LONG
    /\ oiUsed r = false
    /\ decision r = NO_OI_DATA
    /\ decision r <> BASE.
Proof.
  eexists. split; [reflexivity |]. cbn. repeat split; discriminate.
Qed.

Section Gate.
Variables (CONFIG : Config) (eng : t) (stats : Stats.t) (oiStats : option OIStats.t).
Variable oi : OIStats.t.
Hypothesis Havailable : availableOI CONFIG eng oiStats = Some oi.

(** A snapshot that fails a threshold is ignored. *)
Lemma gate_failed :
  oiThresholdPassed CONFIG oi && priceThresholdPassed CONFIG oi = false ->
  exists r,
    interpretSignal CONFIG eng stats oiStats = JS.Ok r
    /\ flowDirection r = baseDirection (Stats.dominantSide stats)
    /\ finalDirection r = baseDirection (Stats.dominantSide stats)
    /\ decision r = BASE
    /\ oiUsed r = false
    /\ oiOverride r = false
    /\ oiDeltaPassed r = oiThresholdPassed CONFIG oi
    /\ oiPricePassed r = priceThresholdPassed CONFIG oi.
Proof.
  intros Hfail. unfold interpretSignal. rewrite Havailable.
  fold (oiThresholdPassed CONFIG oi) (priceThresholdPassed CONFIG oi).
  rewrite Hfail. cbn [negb].
  destruct (Stats.dominantSide stats); eexists; (split; [reflexivity |]);
    cbn; auto 10.
Qed.

(** A snapshot that passes both goes to the quadrants. *)
Lemma gate_passed r :
  oiThresholdPassed CONFIG oi && priceThresholdPassed CONFIG oi = true ->
  interpretSignal CONFIG eng stats oiStats = JS.Ok r ->
  oiUsed r = true
  /\ oiDeltaPassed r = true
  /\ oiPricePassed r = true
  /\ (decision r = CONTINUATION \/ decision r = BOUNCE \/ decision r = INCONCLUSIVE).
Proof.
  intros Hpass. unfold interpretSignal. rewrite Havailable.
  fold (oiThresholdPassed CONFIG oi) (priceThresholdPassed CONFIG oi).
  rewrite Hpass. cbn [negb].
  apply andb_true_iff in Hpass as [-> ->].
  destruct (JS.lt _ _ && JS.gt _ _); [| destruct (JS.lt _ _ && JS.lt _ _);
    [| destruct (JS.gt _ _ && JS.gt _ _); [| destruct (JS.gt _ _ && JS.lt _ _)]]];
    destruct (OIStats.priceDeltaPct oi), (OIStats.oiDeltaPct oi);
    destruct (Stats.dominantSide stats); cbn;
    intros [= <-]; cbn; auto 10.
Qed.

(** The call throws only on a [null] change. *)
Lemma interpretSignal_returns :
  is_Some (OIStats.oiDeltaPct oi) -> is_Some (OIStats.priceDeltaPct oi) ->
  exists r, interpretSignal CONFIG eng stats oiStats = JS.Ok r.
Proof.
  intros [o Eo] [p Ep].
  destruct (oiThresholdPassed CONFIG oi && priceThresholdPassed CONFIG oi) eqn:Hpass.
  2: { destruct (gate_failed Hpass) as (r & Hr & _). eauto. }
  unfold interpretSignal. rewrite Havailable.
  fold (oiThresholdPassed CONFIG oi) (priceThresholdPassed CONFIG oi).
  rewrite Hpass. cbn [negb].
  rewrite Eo, Ep.
  destruct (JS.lt _ _ && JS.gt _ _); [| destruct (JS.lt _ _ && JS.lt _ _);
    [| destruct (JS.gt _ _ && JS.gt _ _); [| destruct (JS.gt _ _ && JS.lt _ _)]]];
    destruct (Stats.dominantSide stats); cbn; eauto.
Qed.

End Gate.

(** C3.  With OI enabled, a tracker installed and a snapshot that has
    window data: the result has [oiUsed] true, and a decision other than
    BASE, if and only if |oiDeltaPct| >= OI_MIN_DELTA_PERCENT and
    |priceDeltaPct| >= OI_MIN_PRICE_CHANGE_PERCENT; if either threshold
    fails the call returns the base direction with decision BASE, [oiUsed]
    false, and [oiDeltaPassed] / [oiPricePassed] telling which threshold
    held; the call returns whenever both changes are numbers; and under the
    default thresholds 0.6 and 0.35 an OI change of 0.5 % with a price
    change of 1 % gives [oiUsed] false and decision BASE. *)
Theorem interpretSignal_threshold_gate CONFIG eng stats oi :
  OI_ENABLED CONFIG = true ->
  is_Some (oiTracker eng) ->
  OIStats.hasWindowData oi = true ->
  let oiPassed := oiThresholdPassed CONFIG oi in
  let pricePassed := priceThresholdPassed CONFIG oi in
  (forall r,
      interpretSignal CONFIG eng stats (Some oi) = JS.Ok r ->
      (oiUsed r = true <-> oiPassed = true /\ pricePassed = true)
      /\ (decision r <> BASE <-> oiPassed = true /\ pricePassed = true))
  /\ (oiPassed = false \/ pricePassed = false ->
      exists r,
        interpretSignal CONFIG eng stats (Some oi) = JS.Ok r
        /\ finalDirection r = baseDirection (Stats.dominantSide stats)
        /\ decision r = BASE
        /\ oiUsed r = false
        /\ oiDeltaPassed r = oiPassed
        /\ oiPricePassed r = pricePassed)
  /\ (is_Some (OIStats.oiDeltaPct oi) -> is_Some (OIStats.priceDeltaPct oi) ->
      exists r, interpretSignal CONFIG eng stats (Some oi) = JS.Ok r)
  /\ (OIStats.oiDeltaPct oi = Some (JS.Fin 0.5) ->
      OIStats.priceDeltaPct oi = Some (JS.Fin 1) ->
      exists r,
        interpretSignal CONFIG_default eng stats (Some oi) = JS.Ok r
        /\ oiUsed r = false
        /\ decision r = BASE
        /\ oiDeltaPassed r = false
        /\ oiPricePassed r = true).
Proof.
  intros Hen [tr Htr] Hw oiPassed pricePassed.
  assert (Hav : forall C, OI_ENABLED C = true -> availableOI C eng (Some oi) = Some oi).
  { intros C HC. unfold availableOI. rewrite HC, Htr, Hw. reflexivity. }
  split; [| split; [| split]].
  - intros r Hr.
    destruct (oiPassed && pricePassed) eqn:Hpass.
    + destruct (gate_passed _ _ _ _ _ (Hav _ Hen) _ Hpass Hr) as (Hu & _ & _ & Hd).
      apply andb_true_iff in Hpass.
      split; split; auto.
      intros _. destruct Hd as [-> | [-> | ->]]; discriminate.
    + destruct (gate_failed _ _ stats _ _ (Hav _ Hen) Hpass)
        as (r' & Hr' & _ & _ & Hd & Hu & _).
      rewrite Hr in Hr'. injection Hr' as <-.
      apply andb_false_iff in Hpass.
      split; split.
      * rewrite Hu. discriminate.
      * intros [H1 H2]. destruct Hpass; congruence.
      * congruence.
      * intros [H1 H2]. destruct Hpass; congruence.
  - intros Hfail.
    assert (Hpass : oiPassed && pricePassed = false).
    { apply andb_false_iff. exact Hfail. }
    destruct (gate_failed _ _ stats _ _ (Hav _ Hen) Hpass)
      as (r & Hr & _ & Hf & Hd & Hu & _ & Ho & Hp).
    exists r. auto 10.
  - apply (interpretSignal_returns _ _ _ _ _ (Hav _ Hen)).
  - intros Eo Ep.
    destruct (gate_failed CONFIG_default _ stats _ _ (Hav CONFIG_default eq_refl))
      as (r & Hr & _ & _ & Hd & Hu & _ & Ho & Hp).
    { unfold oiThresholdPassed. rewrite Eo. reflexivity. }
    exists r. rewrite Ho, Hp. unfold oiThresholdPassed, priceThresholdPassed.
    rewrite Eo, Ep. auto.
Qed.

Lemma interpretSignal_threshold_gate_witness :
  OI_ENABLED CONFIG_default = true
  /\ is_Some (oiTracker Sample.engine)
  /\ OIStats.hasWindowData (Sample.snapshot 0.5 1) = true
  /\ exists r,
       interpretSignal CONFIG_default Sample.engine (Sample.stats buy)
         (Some (Sample.snapshot 0.5 1)) = JS.Ok r
       /\ oiUsed r = false
       /\ decision r = BASE
       /\ oiDeltaPassed r = false
       /\ oiPricePassed r = true.
Proof.
  split; [reflexivity |]. split; [eexists; reflexivity |]. split; [reflexivity |].
  refine (proj2 (proj2 (proj2
    (interpretSignal_threshold_gate CONFIG_default Sample.engine (Sample.stats buy)
       (Sample.snapshot 0.5 1) eq_refl (ex_intro _ _ eq_refl) eq_refl))) eq_refl eq_refl).
Defined.

(** C10.  Under the default thresholds 0.6 and 0.35 [interpretSignal]
    always returns, and whenever its result has [oiUsed] true the OI
    change is above 0.5 or below -0.5, the price change is above 0.1 or
    below -0.1, and the decision is CONTINUATION or BOUNCE: the
    INCONCLUSIVE branch is never taken. *)
Theorem interpretSignal_default_never_inconclusive eng stats oiStats :
  exists r,
    interpretSignal CONFIG_default eng stats oiStats = JS.Ok r
    /\ (oiUsed r = true ->
        exists oi,
          oiStats = Some oi
          /\ (JS.gt (JS.toNumber (OIStats.oiDeltaPct oi)) (JS.Fin 0.5) = true
              \/ JS.lt (JS.toNumber (OIStats.oiDeltaPct oi)) (JS.Fin (-0.5)) = true)
          /\ (JS.gt (JS.toNumber (OIStats.priceDeltaPct oi)) (JS.Fin 0.1) = true
              \/ JS.lt (JS.toNumber (OIStats.priceDeltaPct oi)) (JS.Fin (-0.1)) = true)
          /\ (decision r = CONTINUATION \/ decision r = BOUNCE)).
Proof.
  apply quadrant_forced; reflexivity.
Qed.

(** OI up 0.8 % and price up 0.5 % under the defaults: the gate is passed
    and the decision is a quadrant. *)
Lemma interpretSignal_default_never_inconclusive_witness :
  exists r,
    interpretSignal CONFIG_default Sample.engine (Sample.stats buy)
      (Some (Sample.snapshot 0.8 0.5)) = JS.Ok r
    /\ oiUsed r = true
    /\ (decision r = CONTINUATION \/ decision r = BOUNCE).
Proof.
  destruct (interpretSignal_default_never_inconclusive Sample.engine (Sample.stats buy)
              (Some (Sample.snapshot 0.8 0.5))) as (r & Hr & H).
  exists r. split; [exact Hr |].
  assert (Hu : oiUsed r = true).
  { assert (E : exists r0, interpretSignal CONFIG_default Sample.engine (Sample.stats buy)
                             (Some (Sample.snapshot 0.8 0.5)) = JS.Ok r0 /\ oiUsed r0 = true)
      by (eexists; split; [vm_compute; reflexivity | reflexivity]).
    destruct E as (r0 & Hr0 & Hu0). rewrite Hr in Hr0. injection Hr0 as ->. exact Hu0. }
  split; [exact Hu |].
  destruct (H Hu) as (oi & _ & _ & _ & Hd). exact Hd.
Defined.

End SignalEngineFacts.

(** ** CooldownManager *)

Lemma list_ascii_app (a b : string) :
  list_ascii_of_string (a +:+ b) = list_ascii_of_string a ++ list_ascii_of_string b.
Proof.
  induction a as [| c a IH]; [reflexivity |].
  change (String c a +:+ b)%string with (String c (a +:+ b)).
  cbn [list_ascii_of_string]. rewrite IH. reflexivity.
Qed.

Lemma list_ascii_inj (a b : string) :
  list_ascii_of_string a = list_ascii_of_string b -> a = b.
Proof.
  intros H. rewrite <- (string_of_list_ascii_of_string a),
              <- (string_of_list_ascii_of_string b), H. reflexivity.
Qed.

(** Distinct (instrument, side) pairs have distinct keys. *)
Lemma alertKey_inj x y s1 s2 : alertKey x s1 = alertKey y s2 -> x = y /\ s1 = s2.
Proof.
  unfold alertKey. intros H.
  apply (f_equal list_ascii_of_string) in H. rewrite !list_ascii_app in H.
  destruct s1, s2; cbn [Side_str] in H.
  - apply app_inj_2 in H as [H _]; [| reflexivity].
    split; [apply list_ascii_inj; exact H | reflexivity].
  - exfalso.
    change (list_ascii_of_string "_" ++ list_ascii_of_string "buy")
      with ((list_ascii_of_string "_" ++ []) ++ list_ascii_of_string "buy") in H.
    change (list_ascii_of_string "_" ++ list_ascii_of_string "sell")
      with ((list_ascii_of_string "_" ++ list_ascii_of_string "s")
              ++ list_ascii_of_string "ell") in H.
    rewrite !app_assoc in H.
    apply app_inj_2 in H as [_ H]; [discriminate | reflexivity].
  - exfalso.
    change (list_ascii_of_string "_" ++ list_ascii_of_string "buy")
      with ((list_ascii_of_string "_" ++ []) ++ list_ascii_of_string "buy") in H.
    change (list_ascii_of_string "_" ++ list_ascii_of_string "sell")
      with ((list_ascii_of_string "_" ++ list_ascii_of_string "s")
              ++ list_ascii_of_string "ell") in H.
    rewrite !app_assoc in H.
    apply app_inj_2 in H as [_ H]; [discriminate | reflexivity].
  - apply app_inj_2 in H as [H _]; [| reflexivity].
    split; [apply list_ascii_inj; exact H | reflexivity].
Qed.

Module CooldownManagerFacts.
Import CooldownManager.

(** [recordAlert] touches the entry of its own (instrument, side) only. *)
Lemma recordAlert_frame CONFIG t0 now x y statsX statsY cm :
  (x, Stats.dominantSide statsX) <> (y, Stats.dominantSide statsY) ->
  canAlert CONFIG now y statsY (recordAlert t0 x statsX cm) = canAlert CONFIG now y statsY cm.
Proof.
  intros Hne. unfold canAlert, recordAlert. cbn [lastAlerts].
  rewrite lookup_insert_ne; [reflexivity |].
  intros H. apply alertKey_inj in H as [-> E]. apply Hne. rewrite E. reflexivity.
Qed.

(** C7.  For a configured instrument, and provided no emission stamped
    with a clock reading of 0 is stored for the key (a stored 0 is read as
    a missing entry): [canAlert] is true if and only if no emission is
    recorded for the key of (instrument, side), or the time elapsed since
    the recorded one is at least [cooldownMinutes * 60 * 1000].  After
    [recordAlert] for (X, buy) at a non-zero reading [t0], [canAlert] for
    (X, buy) is false as long as less than the cooldown has elapsed since
    [t0] and true from then on, and [canAlert] for (X, sell) is what it was
    before. *)
Theorem canAlert_cooldown CONFIG config symbol stats cm now :
  getSymbolConfig CONFIG symbol = Some config ->
  lastAlerts cm !! alertKey symbol (Stats.dominantSide stats) <> Some 0 ->
  let cooldownMs := cooldownMinutes config * 60 * 1000 in
  (canAlert CONFIG now symbol stats cm = true <->
   lastAlerts cm !! alertKey symbol (Stats.dominantSide stats) = None
   \/ exists lastTime,
        lastAlerts cm !! alertKey symbol (Stats.dominantSide stats) = Some lastTime
        /\ now - lastTime >= cooldownMs)
  /\ (forall (t0 later : Z) (statsBuy statsSell : Stats.t),
         Stats.dominantSide statsBuy = buy ->
         Stats.dominantSide statsSell = sell ->
         t0 <> 0 ->
         let cm' := recordAlert t0 symbol statsBuy cm in
         (later - t0 < cooldownMs -> canAlert CONFIG later symbol statsBuy cm' = false)
         /\ (later - t0 >= cooldownMs -> canAlert CONFIG later symbol statsBuy cm' = true)
         /\ canAlert CONFIG later symbol statsSell cm'
            = canAlert CONFIG later symbol statsSell cm).
Proof.
  intros Hcfg Hnz cooldownMs. split.
  - unfold canAlert. rewrite Hcfg.
    destruct (lastAlerts cm !! alertKey symbol (Stats.dominantSide stats)) as [t |] eqn:E.
    + destruct (Z.eqb_spec t 0) as [-> | Hne]; [congruence |].
      fold cooldownMs. rewrite bool_decide_eq_true. split.
      * intros H. right. exists t. auto.
      * intros [? | (t' & [= <-] & H)]; [discriminate | exact H].
    + split; auto.
  - intros t0 later statsBuy statsSell Hb Hs Ht0 cm'.
    unfold canAlert. rewrite Hcfg. unfold cm', recordAlert. cbn [lastAlerts].
    rewrite Hb, Hs, lookup_insert_eq.
    rewrite lookup_insert_ne.
    2: { intros H. apply alertKey_inj in H as [_ H]. discriminate. }
    destruct (Z.eqb_spec t0 0) as [? | _]; [contradiction |].
    fold cooldownMs. split; [| split].
    + intros H. apply bool_decide_eq_false_2. lia.
    + intros H. apply bool_decide_eq_true_2. exact H.
    + reflexivity.
Qed.

(** ADAUSDT with its five-minute cooldown. *)
Lemma canAlert_cooldown_witness :
  getSymbolConfig CONFIG_default "ADAUSDT" = Some (mkSymbol 1000000 65 0.6)
  /\ lastAlerts new !! alertKey "ADAUSDT" buy <> Some 0
  /\ canAlert CONFIG_default 1700000000000 "ADAUSDT" (Sample.stats buy) new = true
  /\ (let cm' := recordAlert 1700000000000 "ADAUSDT" (Sample.stats buy) new in
      canAlert CONFIG_default 1700000299999 "ADAUSDT" (Sample.stats buy) cm' = false
      /\ canAlert CONFIG_default 1700000300000 "ADAUSDT" (Sample.stats buy) cm' = true
      /\ canAlert CONFIG_default 1700000299999 "ADAUSDT" (Sample.stats sell) cm' = true).
Proof.
  assert (Hcfg : getSymbolConfig CONFIG_default "ADAUSDT" = Some (mkSymbol 1000000 65 0.6))
    by (vm_compute; reflexivity).
  assert (Hnz : lastAlerts new !! alertKey "ADAUSDT" (Stats.dominantSide (Sample.stats buy))
                <> Some 0) by (vm_compute; discriminate).
  destruct (canAlert_cooldown CONFIG_default _ "ADAUSDT" (Sample.stats buy) new
              1700000000000 Hcfg Hnz) as [Hiff Hrec].
  split; [exact Hcfg |]. split; [exact Hnz |]. split.
  - apply Hiff. left. vm_compute. reflexivity.
  - cbn zeta.
    assert (Ht0 : 1700000000000 <> 0) by lia.
    split; [| split].
    + refine (proj1 (Hrec 1700000000000 1700000299999 (Sample.stats buy) (Sample.stats sell)
                       eq_refl eq_refl Ht0) _).
      vm_compute. reflexivity.
    + refine (proj1 (proj2 (Hrec 1700000000000 1700000300000 (Sample.stats buy)
                              (Sample.stats sell) eq_refl eq_refl Ht0)) _).
      vm_compute. discriminate.
    + rewrite (proj2 (proj2 (Hrec 1700000000000 1700000299999 (Sample.stats buy)
                              (Sample.stats sell) eq_refl eq_refl Ht0))).
      vm_compute. reflexivity.
Defined.

End CooldownManagerFacts.

(** ** AlertManager *)

Module OrderedMapFacts.
Import OrderedMap.

Lemma has_app {V} key (m1 m2 : t V) : has key (m1 ++ m2) = has key m1 || has key m2.
Proof. apply existsb_app. Qed.

Lemma filter_key_absent {V} key (m : t V) :
  has key m = false -> List.filter (fun e => String.eqb (fst e) key) m = [].
Proof.
  unfold has. induction m as [| e m IH]; [reflexivity |].
  cbn. destruct (String.eqb (fst e) key); [discriminate |]. exact IH.
Qed.

Lemma get_set_absent {V} key (v : V) m :
  has key m = false -> get key (set key v m) = Some v.
Proof.
  intros E. unfold set, get. rewrite E.
  unfold has in E. induction m as [| e m IH]; cbn.
  - rewrite String.eqb_refl. reflexivity.
  - cbn in E. destruct (String.eqb (fst e) key); [discriminate |]. apply IH. exact E.
Qed.

Lemma has_false_not_In {V} key (m : t V) :
  has key m = false <-> key ∉ List.map fst m.
Proof.
  unfold has. induction m as [| e m IH]; cbn.
  - split; [intros _; apply not_elem_of_nil | reflexivity].
  - rewrite not_elem_of_cons.
    destruct (String.eqb_spec (fst e) key) as [E | E]; cbn.
    + split; [discriminate | intros [H _]; congruence].
    + rewrite IH. split; [intros H; split; [congruence | exact H] | tauto].
Qed.

Lemma get_Some_has {V} key (c : V) (m : t V) :
  get key m = Some c -> has key m = true.
Proof.
  unfold get, has. induction m as [| e m IH]; cbn; [discriminate |].
  destruct (String.eqb (fst e) key); cbn; [reflexivity | exact IH].
Qed.

(** With unique keys, the entries under a key are the one [get] finds. *)
Lemma filter_key_unique {V} key (c : V) (m : t V) :
  uniqueKeys m -> get key m = Some c ->
  List.filter (fun e => String.eqb (fst e) key) m = [(key, c)].
Proof.
  unfold uniqueKeys, get. induction m as [| [k v] m IH]; cbn; [discriminate |].
  intros Hnd Hget. apply NoDup_cons in Hnd as [Hk Hnd].
  destruct (String.eqb_spec k key) as [-> | Hne]; cbn in *.
  - injection Hget as ->. f_equal. apply filter_key_absent.
    apply has_false_not_In. exact Hk.
  - apply IH; assumption.
Qed.

Lemma uniqueKeys_set_absent {V} key (v : V) (m : t V) :
  uniqueKeys m -> has key m = false -> uniqueKeys (m ++ [(key, v)]).
Proof.
  unfold uniqueKeys. intros Hnd Habs. rewrite List.map_app. cbn.
  apply NoDup_app. split; [exact Hnd |]. split.
  - intros k Hk Hin. apply list_elem_of_singleton in Hin as ->.
    apply has_false_not_In in Habs. contradiction.
  - apply NoDup_singleton.
Qed.

End OrderedMapFacts.

Module AlertManagerFacts.
Import AlertManager.

Lemma scheduleFinalOICheck_pending CONFIG now key a am :
  pendingAlerts (scheduleFinalOICheck CONFIG now key a am) = pendingAlerts am.
Proof. unfold scheduleFinalOICheck. destruct (bool_decide _); reflexivity. Qed.

Lemma scheduleFinalOICheck_count CONFIG now key a am :
  alertCount (scheduleFinalOICheck CONFIG now key a am) = alertCount am.
Proof. unfold scheduleFinalOICheck. destruct (bool_decide _); reflexivity. Qed.

(** The pending map keeps its keys unique. *)
Lemma sendAlert_uniqueKeys CONFIG now symbol stats interp oi am :
  OrderedMap.uniqueKeys (pendingAlerts am) ->
  OrderedMap.uniqueKeys (pendingAlerts (sendAlert CONFIG now symbol stats interp oi am)).
Proof.
  intros Huniq. unfold sendAlert.
  destruct (OrderedMap.has _ (pendingAlerts am)) eqn:Hhas; cbn [negb]; [exact Huniq |].
  rewrite scheduleFinalOICheck_pending. cbn [pendingAlerts].
  unfold OrderedMap.set. rewrite Hhas.
  apply OrderedMapFacts.uniqueKeys_set_absent; assumption.
Qed.

(** While a key is pending, [sendAlert] for it changes nothing. *)
Lemma sendAlert_pending CONFIG now symbol stats interp oi am :
  OrderedMap.has (alertKey symbol (Stats.dominantSide stats)) (pendingAlerts am) = true ->
  sendAlert CONFIG now symbol stats interp oi am = am.
Proof. intros H. unfold sendAlert. rewrite H. reflexivity. Qed.

(** For an absent key, [sendAlert] appends the candidate. *)
Lemma sendAlert_absent CONFIG now symbol stats interp oi am :
  OrderedMap.has (alertKey symbol (Stats.dominantSide stats)) (pendingAlerts am) = false ->
  pendingAlerts (sendAlert CONFIG now symbol stats interp oi am)
  = pendingAlerts am
    ++ [ (alertKey symbol (Stats.dominantSide stats),
          {| symbol := symbol; stats := stats; interpretation := interp;
             oiStats := oi; timestamp := now |}) ].
Proof.
  intros H. unfold sendAlert. rewrite H. cbn [negb].
  rewrite scheduleFinalOICheck_pending. cbn [pendingAlerts].
  unfold OrderedMap.set. rewrite H. reflexivity.
Qed.

Lemma flushLoop_state delivered entries : forall i am,
  pendingAlerts (fst (flushLoop delivered i entries am)) = pendingAlerts am
  /\ nextHandle (fst (flushLoop delivered i entries am)) = nextHandle am.
Proof.
  induction entries as [| [key a] rest IH]; intros i am; [split; reflexivity |].
  cbn [flushLoop].
  specialize (IH (S i) (if delivered i then afterSend key am else am)).
  destruct (flushLoop delivered (S i) rest _) as [am2 attempts]. cbn [fst] in *.
  destruct (delivered i); exact IH.
Qed.

Lemma flushLoop_attempts delivered entries : forall i am,
  snd (flushLoop delivered i entries am)
  = imap (fun n e => (snd e, delivered (i + n)%nat)) entries.
Proof.
  induction entries as [| [key a] rest IH]; intros i am; [reflexivity |].
  cbn [flushLoop imap].
  specialize (IH (S i) (if delivered i then afterSend key am else am)).
  destruct (flushLoop delivered (S i) rest _) as [am2 attempts]. cbn [snd] in *.
  rewrite Nat.add_0_r. f_equal. rewrite IH.
  apply imap_ext. intros n e _. cbn. do 2 f_equal. lia.
Qed.

Lemma flushLoop_count delivered entries : forall i am,
  alertCount (fst (flushLoop delivered i entries am))
  = (alertCount am + length (List.filter snd (snd (flushLoop delivered i entries am))))%nat.
Proof.
  induction entries as [| [key a] rest IH]; intros i am; [cbn; lia |].
  cbn [flushLoop].
  specialize (IH (S i) (if delivered i then afterSend key am else am)).
  destruct (flushLoop delivered (S i) rest _) as [am2 attempts]. cbn [fst snd] in *.
  rewrite IH. cbn [List.filter snd].
  destruct (delivered i); cbn; lia.
Qed.

Lemma flushLoop_nil delivered i am : flushLoop delivered i [] am = (am, []).
Proof. reflexivity. Qed.

(** C8.  Starting with no candidate for the key of (instrument, side), a
    first [sendAlert] stores its candidate and a second one for the same
    key, while the first is still pending, changes nothing: the map holds
    exactly one candidate for the key, the first.  In general [sendAlert]
    for a pending key leaves the manager as it is.  [flushPendingAlerts]
    on an empty pending map attempts no send, emits nothing and leaves the
    manager as it is; so does any flush that follows another. *)
Theorem sendAlert_twice_and_empty_flush CONFIG symbol side am :
  let key := alertKey symbol side in
  (forall now1 now2 stats1 stats2 interp1 interp2 oi1 oi2,
      Stats.dominantSide stats1 = side ->
      Stats.dominantSide stats2 = side ->
      OrderedMap.has key (pendingAlerts am) = false ->
      let first :=
        {| symbol := symbol; stats := stats1; interpretation := interp1;
           oiStats := oi1; timestamp := now1 |} in
      let am1 := sendAlert CONFIG now1 symbol stats1 interp1 oi1 am in
      let am2 := sendAlert CONFIG now2 symbol stats2 interp2 oi2 am1 in
      am2 = am1
      /\ OrderedMap.get key (pendingAlerts am2) = Some first
      /\ List.filter (fun e => String.eqb (fst e) key) (pendingAlerts am2) = [(key, first)])
  /\ (forall now stats interp oi pending,
         Stats.dominantSide stats = side ->
         OrderedMap.uniqueKeys (pendingAlerts am) ->
         OrderedMap.get key (pendingAlerts am) = Some pending ->
         let am' := sendAlert CONFIG now symbol stats interp oi am in
         am' = am
         /\ List.filter (fun e => String.eqb (fst e) key) (pendingAlerts am')
            = [(key, pending)])
  /\ (forall delivered,
         pendingAlerts am = [] ->
         flushPendingAlerts delivered am = (am, [])
         /\ emitted (snd (flushPendingAlerts delivered am)) = [])
  /\ (forall delivered1 delivered2,
         let am1 := fst (flushPendingAlerts delivered1 am) in
         flushPendingAlerts delivered2 am1 = (am1, [])).
Proof.
  intros key. split; [| split; [| split]].
  - intros now1 now2 stats1 stats2 interp1 interp2 oi1 oi2 Hs1 Hs2 Habs first am1 am2.
    assert (Hp1 : pendingAlerts am1 = pendingAlerts am ++ [(key, first)]).
    { unfold am1, key. rewrite <- Hs1. apply sendAlert_absent. rewrite Hs1. exact Habs. }
    assert (Hhas : OrderedMap.has key (pendingAlerts am1) = true).
    { rewrite Hp1, OrderedMapFacts.has_app. cbn. rewrite String.eqb_refl.
      apply orb_true_r. }
    assert (E : am2 = am1).
    { unfold am2. apply sendAlert_pending. rewrite Hs2. exact Hhas. }
    split; [exact E |]. rewrite E, Hp1. split.
    + unfold OrderedMap.get. 
      assert (G := OrderedMapFacts.get_set_absent key first (pendingAlerts am) Habs).
      unfold OrderedMap.set, OrderedMap.get in G. rewrite Habs in G. exact G.
    + rewrite List.filter_app, (OrderedMapFacts.filter_key_absent _ _ Habs).
      cbn. rewrite String.eqb_refl. reflexivity.
  - intros now stats interp oi pending Hs Huniq Hget am'.
    assert (E : am' = am).
    { unfold am'. apply sendAlert_pending. rewrite Hs.
      apply (OrderedMapFacts.get_Some_has key pending). exact Hget. }
    split; [exact E |]. rewrite E.
    apply OrderedMapFacts.filter_key_unique; assumption.
  - intros delivered Hempty. unfold flushPendingAlerts. rewrite Hempty. cbn.
    split; [| reflexivity]. f_equal. destruct am; cbn in *. subst. reflexivity.
  - intros delivered1 delivered2 am1.
    assert (Hempty : pendingAlerts am1 = []).
    { unfold am1, flushPendingAlerts.
      destruct (flushLoop delivered1 0 (pendingAlerts am) am). reflexivity. }
    unfold flushPendingAlerts. rewrite Hempty. cbn.
    f_equal. destruct am1; cbn in *. subst. reflexivity.
Qed.

(** C9.  Whatever sends fail during a flush: the pending map is empty
    afterwards; the send attempts are exactly the pending candidates, each
    once, in map order; the candidate at position [n] is attempted with
    the outcome of the [n]-th send, whatever the outcomes before it; a
    candidate whose send resolves is emitted; and [alertCount] grows by
    the number of emitted messages. *)
Theorem flush_survives_failures delivered am :
  let result := flushPendingAlerts delivered am in
  pendingAlerts (fst result) = []
  /\ fst <$> snd result = snd <$> pendingAlerts am
  /\ (forall (n : nat) key a,
         pendingAlerts am !! n = Some (key, a) -> snd result !! n = Some (a, delivered n))
  /\ (forall (n : nat) key a,
         pendingAlerts am !! n = Some (key, a) -> delivered n = true -> a ∈ emitted (snd result))
  /\ alertCount (fst result) = (alertCount am + length (emitted (snd result)))%nat.
Proof.
  intros result.
  assert (Hatt : snd result = imap (fun n e => (snd e, delivered n)) (pendingAlerts am)).
  { unfold result, flushPendingAlerts.
    pose proof (flushLoop_attempts delivered (pendingAlerts am) 0 am) as H.
    destruct (flushLoop delivered 0 (pendingAlerts am) am) as [am1 attempts].
    cbn [snd] in *. exact H. }
  assert (Hlook : forall (n : nat) key a,
             pendingAlerts am !! n = Some (key, a) -> snd result !! n = Some (a, delivered n)).
  { intros n key a Hn. rewrite Hatt, list_lookup_imap, Hn. reflexivity. }
  split; [| split; [| split; [| split]]].
  - unfold result, flushPendingAlerts.
    destruct (flushLoop delivered 0 (pendingAlerts am) am). reflexivity.
  - rewrite Hatt. rewrite fmap_imap. 
    rewrite <- (imap_const snd (pendingAlerts am)).
    apply imap_ext. reflexivity.
  - exact Hlook.
  - intros n key a Hn Hd. unfold emitted.
    apply list_elem_of_fmap. exists (a, true). split; [reflexivity |].
    apply list_elem_of_In, filter_In. split; [| reflexivity].
    apply list_elem_of_In, list_elem_of_lookup. exists n.
    rewrite (Hlook n key a Hn), Hd. reflexivity.
  - unfold emitted. rewrite length_fmap.
    unfold result, flushPendingAlerts.
    pose proof (flushLoop_count delivered (pendingAlerts am) 0 am) as H.
    destruct (flushLoop delivered 0 (pendingAlerts am) am) as [am1 attempts].
    cbn [fst snd alertCount] in *. exact H.
Qed.

(** One candidate stored, a second one dropped, and a flush of nothing. *)
Lemma sendAlert_twice_and_empty_flush_witness :
  OrderedMap.has (alertKey "ADAUSDT" buy) (pendingAlerts AlertManager.new) = false
  /\ (let am1 :=
        sendAlert CONFIG_default 1700000010000 "ADAUSDT" (Sample.stats buy) (Sample.interp buy)
          None AlertManager.new in
      let am2 :=
        sendAlert CONFIG_default 1700000020000 "ADAUSDT" (Sample.stats buy) (Sample.interp buy)
          (Some (Sample.snapshot 1 1)) am1 in
      am2 = am1
      /\ OrderedMap.size (pendingAlerts am2) = 1%nat)
  /\ flushPendingAlerts (fun _ => true) AlertManager.new = (AlertManager.new, []).
Proof.
  destruct (sendAlert_twice_and_empty_flush CONFIG_default "ADAUSDT" buy AlertManager.new)
    as (Htwice & _ & Hflush & _).
  split; [reflexivity |]. split.
  - cbn zeta.
    destruct (Htwice 1700000010000 1700000020000 (Sample.stats buy) (Sample.stats buy)
                (Sample.interp buy) (Sample.interp buy) None (Some (Sample.snapshot 1 1))
                eq_refl eq_refl eq_refl) as (E & _ & _).
    split; [exact E |]. rewrite E. vm_compute. reflexivity.
  - apply (Hflush (fun _ => true)). reflexivity.
Defined.

(** A flush over two candidates whose first send fails: the second is
    still sent and nothing stays pending. *)
Lemma flush_survives_failures_witness :
  let result := flushPendingAlerts (fun n => negb (Nat.eqb n 0)) Sample.twoPending in
  OrderedMap.size (pendingAlerts Sample.twoPending) = 2%nat
  /\ pendingAlerts (fst result) = []
  /\ (symbol <$> emitted (snd result)) = ["XRPUSDT"%string]
  /\ alertCount (fst result) = 1%nat.
Proof.
  cbn zeta.
  destruct (flush_survives_failures (fun n => negb (Nat.eqb n 0)) Sample.twoPending)
    as (Hempty & _ & _ & _ & Hcount).
  split; [vm_compute; reflexivity |]. split; [exact Hempty |].
  split; [vm_compute; reflexivity |].
  rewrite Hcount. vm_compute. reflexivity.
Defined.

End AlertManagerFacts.

(** ** The rest of the handlers *)

Module SnapshotFacts.
Import OKXOpenInterestTracker.

(** A snapshot has its four past values and deltas exactly when it has
    window data, and counts a history that is not empty. *)
Lemma getOIStats_shape now binanceSymbol tr snap :
  getOIStats now binanceSymbol tr = Some snap ->
  (if OIStats.hasWindowData snap
   then is_Some (OIStats.oi5mAgo snap) /\ is_Some (OIStats.price5mAgo snap)
        /\ is_Some (OIStats.oiDeltaPct snap) /\ is_Some (OIStats.priceDeltaPct snap)
        /\ is_Some (OIStats.oiDelta snap)
   else OIStats.oi5mAgo snap = None /\ OIStats.price5mAgo snap = None
        /\ OIStats.oiDeltaPct snap = None /\ OIStats.priceDeltaPct snap = None
        /\ OIStats.oiDelta snap = None)
  /\ OIStats.historyCount snap = getHistoryCount binanceSymbol tr
  /\ (0 < OIStats.historyCount snap)%nat.
Proof.
  unfold getOIStats, getHistoryCount.
  destruct (oiCache tr !! binanceToOKX binanceSymbol) as [cache |]; [| discriminate].
  destruct (last (history cache)) as [latest |] eqn:Elast; [| discriminate].
  assert (Hlen : (0 < length (history cache))%nat).
  { destruct (history cache); [discriminate | cbn; lia]. }
  destruct (scanBack _ _ _) as [past |]; intros [= <-]; cbn; eauto 10.
Qed.

(** X1.  [interpretSignal] returns on whatever [getOIStats] gives it, a
    snapshot or [null]: the [toFixed] calls on the deltas never meet a
    [null], since a snapshot with window data carries both deltas. *)
Theorem interpretSignal_on_getOIStats CONFIG eng stats now binanceSymbol tr :
  exists r,
    SignalEngine.interpretSignal CONFIG eng stats (getOIStats now binanceSymbol tr) = JS.Ok r.
Proof.
  destruct (SignalEngine.availableOI CONFIG eng (getOIStats now binanceSymbol tr))
    as [oi |] eqn:Hav.
  - pose proof Hav as Hav'.
    apply SignalEngineFacts.availableOI_Some in Hav' as (Hsnap & _ & _ & Hw).
    destruct (getOIStats_shape _ _ _ _ Hsnap) as (Hshape & _).
    rewrite Hw in Hshape. destruct Hshape as (_ & _ & Ho & Hp & _).
    exact (SignalEngineFacts.interpretSignal_returns CONFIG eng stats _ oi Hav Ho Hp).
  - unfold SignalEngine.interpretSignal. rewrite Hav.
    destruct (Stats.dominantSide stats); eauto.
Qed.

End SnapshotFacts.

Module TrackerFacts.
Import OKXOpenInterestTracker TrackerSpec.

Lemma setCache_setCache k c1 c2 tr : setCache k c2 (setCache k c1 tr) = setCache k c2 tr.
Proof. unfold setCache. cbn. rewrite insert_insert_eq. reflexivity. Qed.

Lemma handleOpenInterest_stored now k v timestamp tr cache :
  isNaN v = false -> oiCache tr !! k = Some cache ->
  handleOpenInterest now k v timestamp tr
  = setCache k
      {| lastOI := Some v; lastPrice := lastPrice cache;
         history := stored now (historyMs tr) timestamp (Some v) (lastPrice cache)
                      (history cache) |} tr.
Proof.
  intros Hv Hc. unfold handleOpenInterest. rewrite Hv, Hc.
  unfold addToHistory. cbn [oiCache setCache]. rewrite lookup_insert_eq.
  unfold stored. destruct (lastPrice cache) as [p |]; cbn.
  - rewrite setCache_setCache. reflexivity.
  - reflexivity.
Qed.

Lemma handleMarkPrice_stored now k v timestamp tr cache :
  isNaN v = false -> oiCache tr !! k = Some cache ->
  handleMarkPrice now k v timestamp tr
  = setCache k
      {| lastOI := lastOI cache; lastPrice := Some v;
         history := stored now (historyMs tr) timestamp (lastOI cache) (Some v)
                      (history cache) |} tr.
Proof.
  intros Hv Hc. unfold handleMarkPrice. rewrite Hv, Hc.
  unfold addToHistory. cbn [oiCache setCache]. rewrite lookup_insert_eq.
  unfold stored. destruct (lastOI cache) as [o |]; cbn.
  - rewrite setCache_setCache. reflexivity.
  - reflexivity.
Qed.

(** An update with a NaN value or for an instrument without a cache entry
    changes nothing. *)
Lemma handleUpdate_ignored u tr :
  isNaN (value u) = true \/ oiCache tr !! instId u = None -> handleUpdate u tr = tr.
Proof.
  unfold handleUpdate, handleOpenInterest, handleMarkPrice.
  intros [H | H]; destruct (channel u); rewrite ?H;
    try reflexivity; destruct (isNaN (value u)); rewrite ?H; reflexivity.
Qed.

Lemma isNaN_false v : isNaN v = false <-> v <> JS.NaN.
Proof. destruct v; cbn; split; congruence. Qed.

Lemma stored_elem now h timestamp o p l x :
  x ∈ stored now h timestamp o p l ->
  x ∈ l \/ (o = Some (oi x) /\ p = Some (price x) /\ ts x = timestamp).
Proof.
  unfold stored. destruct o as [o |], p as [p |]; auto.
  intros Hx. apply list_elem_of_In, filter_In in Hx as [Hx _].
  apply in_app_or in Hx as [Hx | [<- | []]].
  - left. apply list_elem_of_In. exact Hx.
  - right. auto.
Qed.

Lemma stored_nonempty now h timestamp o p l :
  stored now h timestamp o p l <> [] -> l <> [] \/ (is_Some o /\ is_Some p).
Proof.
  unfold stored. destruct o as [o |], p as [p |]; eauto.
Qed.

Lemma consistent_weaken seen u tr : consistent seen tr -> consistent (seen ++ [u]) tr.
Proof.
  intros H k cache Hk. destruct (H k cache Hk) as (H1 & H2 & H3 & H4).
  split; [| split; [| split]]; auto.
  - intros v Hv. destruct (H1 v Hv) as (Hn & u' & Hin & Hu). split; [exact Hn |].
    exists u'. split; [apply elem_of_app; left; exact Hin | exact Hu].
  - intros v Hv. destruct (H2 v Hv) as (Hn & u' & Hin & Hu). split; [exact Hn |].
    exists u'. split; [apply elem_of_app; left; exact Hin | exact Hu].
Qed.

Lemma consistent_step seen u tr :
  consistent seen tr -> consistent (seen ++ [u]) (handleUpdate u tr).
Proof.
  intros Hinv.
  destruct (isNaN (value u)) eqn:Hnan.
  { rewrite handleUpdate_ignored by auto. apply consistent_weaken. exact Hinv. }
  destruct (oiCache tr !! instId u) as [c |] eqn:Hc.
  2: { rewrite handleUpdate_ignored by auto. apply consistent_weaken. exact Hinv. }
  pose proof (consistent_weaken seen u tr Hinv) as Hw.
  destruct (Hw (instId u) c Hc) as (H1 & H2 & H3 & H4).
  assert (Hu : u ∈ seen ++ [u]) by (apply elem_of_app; right; apply list_elem_of_singleton; reflexivity).
  apply isNaN_false in Hnan.
  unfold handleUpdate. destruct (channel u) eqn:Hch.
  - rewrite (handleOpenInterest_stored _ _ _ _ _ c) by (auto; apply isNaN_false; exact Hnan).
    intros k cache Hk. cbn [oiCache setCache] in Hk.
    destruct (decide (instId u = k)) as [<- | Hne].
    + rewrite lookup_insert_eq in Hk. apply (inj Some) in Hk. subst cache.
      cbn [lastOI lastPrice history].
      split; [| split; [| split]].
      * intros v [= <-]. split; [exact Hnan |]. exists u. auto.
      * exact H2.
      * intros p Hp. apply stored_elem in Hp as [Hp | (Ho & Hpr & _)]; [auto |].
        injection Ho as Ho. rewrite <- Ho. split; [exact Hnan |].
        destruct (H2 _ Hpr) as [Hn _]. exact Hn.
      * intros Hne. split; [eauto |].
        apply stored_nonempty in Hne as [Hne | [_ Hp]]; [| exact Hp].
        apply H4. exact Hne.
    + rewrite lookup_insert_ne in Hk by exact Hne. exact (Hw k cache Hk).
  - rewrite (handleMarkPrice_stored _ _ _ _ _ c) by (auto; apply isNaN_false; exact Hnan).
    intros k cache Hk. cbn [oiCache setCache] in Hk.
    destruct (decide (instId u = k)) as [<- | Hne].
    + rewrite lookup_insert_eq in Hk. apply (inj Some) in Hk. subst cache.
      cbn [lastOI lastPrice history].
      split; [| split; [| split]].
      * exact H1.
      * intros v [= <-]. split; [exact Hnan |]. exists u. auto.
      * intros p Hp. apply stored_elem in Hp as [Hp | (Ho & Hpr & _)]; [auto |].
        injection Hpr as Hpr. rewrite <- Hpr. split; [| exact Hnan].
        destruct (H1 _ Ho) as [Hn _]. exact Hn.
      * intros Hne. split; [| eauto].
        apply stored_nonempty in Hne as [Hne | [Ho _]]; [| exact Ho].
        apply H4. exact Hne.
    + rewrite lookup_insert_ne in Hk by exact Hne. exact (Hw k cache Hk).
Qed.

Lemma consistent_run us : forall seen tr,
  consistent seen tr -> consistent (seen ++ us) (handleUpdates us tr).
Proof.
  induction us as [| u us IH]; intros seen tr H.
  - rewrite app_nil_r. exact H.
  - cbn. replace (seen ++ u :: us) with ((seen ++ [u]) ++ us)
      by (rewrite <- app_assoc; reflexivity).
    apply IH, consistent_step, H.
Qed.

(** The cache of a fresh tracker: an empty entry for each instrument. *)
Lemma new_cache symbols w h k cache :
  oiCache (new symbols w h) !! k = Some cache ->
  k ∈ binanceToOKX <$> symbols
  /\ cache = {| lastOI := None; lastPrice := None; history := [] |}.
Proof.
  unfold new. cbn [oiCache].
  assert (G : forall (m : gmap string Cache),
             fold_left
               (fun cache binanceSymbol =>
                  <[binanceToOKX binanceSymbol :=
                      {| lastOI := None; lastPrice := None; history := [] |}]> cache)
               symbols m !! k = Some cache ->
             (k ∈ binanceToOKX <$> symbols
              /\ cache = {| lastOI := None; lastPrice := None; history := [] |})
             \/ m !! k = Some cache).
  { induction symbols as [| s symbols IH]; intros m; cbn; [auto |].
    intros H. apply IH in H as [[H1 H2] | H].
    - left. split; [apply elem_of_cons; right; exact H1 | exact H2].
    - destruct (decide (binanceToOKX s = k)) as [<- | Hne].
      + rewrite lookup_insert_eq in H. injection H as <-.
        left. split; [apply elem_of_cons; left; reflexivity | reflexivity].
      + rewrite lookup_insert_ne in H by exact Hne. right. exact H. }
  intros H. apply G in H as [H | H]; [exact H |].
  rewrite lookup_empty in H. discriminate.
Qed.

Lemma consistent_new symbols w h : consistent [] (new symbols w h).
Proof.
  intros k cache Hk. apply new_cache in Hk as [_ ->]. cbn.
  split; [| split; [| split]]; try discriminate.
  - intros p Hp. apply elem_of_nil in Hp. contradiction.
  - congruence.
Qed.

(** The updates never add or drop a cache entry. *)
Lemma handleUpdate_dom u tr k :
  is_Some (oiCache (handleUpdate u tr) !! k) <-> is_Some (oiCache tr !! k).
Proof.
  destruct (isNaN (value u)) eqn:Hnan; [rewrite handleUpdate_ignored by auto; tauto |].
  destruct (oiCache tr !! instId u) as [c |] eqn:Hc;
    [| rewrite handleUpdate_ignored by auto; tauto].
  unfold handleUpdate.
  destruct (channel u);
    [rewrite (handleOpenInterest_stored _ _ _ _ _ c) by auto
    | rewrite (handleMarkPrice_stored _ _ _ _ _ c) by auto];
    cbn [oiCache setCache];
    (destruct (decide (instId u = k)) as [<- | Hne];
     [rewrite lookup_insert_eq, Hc; split; eauto
     | rewrite lookup_insert_ne by exact Hne; tauto]).
Qed.

Lemma handleUpdates_dom us : forall tr k,
  is_Some (oiCache (handleUpdates us tr) !! k) <-> is_Some (oiCache tr !! k).
Proof.
  induction us as [| u us IH]; intros tr k; [cbn; tauto |].
  cbn. rewrite IH. apply handleUpdate_dom.
Qed.

(** X2.  A tracker that started empty answers [getOIStats] with a
    snapshot only for a subscribed instrument that has received both an
    open-interest and a mark-price value that are numbers, and the
    current values of the snapshot are then numbers. *)
Theorem snapshot_needs_both_feeds symbols w h us now binanceSymbol snap :
  getOIStats now binanceSymbol (handleUpdates us (new symbols w h)) = Some snap ->
  binanceToOKX binanceSymbol ∈ binanceToOKX <$> symbols
  /\ (exists u, u ∈ us /\ channel u = OpenInterest
                /\ instId u = binanceToOKX binanceSymbol /\ value u <> JS.NaN)
  /\ (exists u, u ∈ us /\ channel u = MarkPrice
                /\ instId u = binanceToOKX binanceSymbol /\ value u <> JS.NaN)
  /\ OIStats.oiNow snap <> JS.NaN
  /\ OIStats.priceNow snap <> JS.NaN.
Proof.
  intros Hsnap.
  pose proof (consistent_run us [] _ (consistent_new symbols w h)) as Hinv.
  cbn [app] in Hinv.
  unfold getOIStats in Hsnap.
  destruct (oiCache (handleUpdates us (new symbols w h)) !! binanceToOKX binanceSymbol)
    as [cache |] eqn:Hc; [| discriminate].
  destruct (last (history cache)) as [latest |] eqn:Hlast; [| discriminate].
  destruct (Hinv _ _ Hc) as (H1 & H2 & H3 & H4).
  assert (Hne : history cache <> []) by (intros E; rewrite E in Hlast; discriminate).
  destruct (H4 Hne) as [[o Ho] [p Hp]].
  destruct (H1 o Ho) as (Hno & uo & Huo & Hcho & Hio & Hvo).
  destruct (H2 p Hp) as (Hnp & up & Hup & Hchp & Hip & Hvp).
  assert (Hin : latest ∈ history cache).
  { apply list_elem_of_lookup. exists (Nat.pred (length (history cache))).
    rewrite <- last_lookup. exact Hlast. }
  destruct (H3 latest Hin) as [Hlo Hlp].
  split; [| split; [| split]].
  - assert (Hs : is_Some (oiCache (new symbols w h) !! binanceToOKX binanceSymbol)).
    { apply (handleUpdates_dom us). rewrite Hc. eauto. }
    destruct Hs as [c0 Hc0]. apply new_cache in Hc0 as [Hk _]. exact Hk.
  - exists uo. rewrite Hvo. auto.
  - exists up. rewrite Hvp. auto.
  - destruct (scanBack _ _ _); injection Hsnap as <-; cbn; auto.
Qed.

Lemma snapshot_needs_both_feeds_witness :
  exists snap,
    getOIStats 2500 "ADAUSDT" (handleUpdates updates (new ["ADAUSDT"%string] 300 10)) = Some snap
    /\ OIStats.oiNow snap <> JS.NaN
    /\ OIStats.priceNow snap <> JS.NaN.
Proof.
  destruct (getOIStats 2500 "ADAUSDT" (handleUpdates updates (new ["ADAUSDT"%string] 300 10)))
    as [snap |] eqn:E.
  - exists snap. split; [reflexivity |].
    exact (proj2 (proj2 (proj2 (snapshot_needs_both_feeds ["ADAUSDT"%string] 300 10 updates 2500
                                  "ADAUSDT" snap E)))).
  - vm_compute in E. discriminate.
Defined.

End TrackerFacts.

Module TrackerUpdateFacts.
Import OKXOpenInterestTracker TrackerSpec TrackerFacts.

Lemma stored_cases now h timestamp o p l :
  stored now h timestamp o p l = l
  \/ (exists ov pv,
         o = Some ov /\ p = Some pv
         /\ stored now h timestamp o p l
            = List.filter (fun item => bool_decide (ts item >= now - h))
                (l ++ [ {| ts := timestamp; oi := ov; price := pv |} ])).
Proof.
  unfold stored. destruct o as [ov |], p as [pv |]; eauto 10.
Qed.

Lemma filter_sublist {A} (f : A -> bool) (l : list A) : List.filter f l `sublist_of` l.
Proof.
  induction l as [| x l IH]; cbn; [constructor |].
  destruct (f x); [apply sublist_skip | apply sublist_cons]; exact IH.
Qed.

(** The cache entry of the instrument of an update, before and after. *)
Lemma handleUpdate_entry u tr cache :
  isNaN (value u) = false -> oiCache tr !! instId u = Some cache ->
  exists cache',
    oiCache (handleUpdate u tr) !! instId u = Some cache'
    /\ (channel u = OpenInterest ->
        lastOI cache' = Some (value u) /\ lastPrice cache' = lastPrice cache
        /\ history cache'
           = stored (clock u) (historyMs tr) (stamp u) (Some (value u)) (lastPrice cache)
               (history cache))
    /\ (channel u = MarkPrice ->
        lastOI cache' = lastOI cache /\ lastPrice cache' = Some (value u)
        /\ history cache'
           = stored (clock u) (historyMs tr) (stamp u) (lastOI cache) (Some (value u))
               (history cache)).
Proof.
  intros Hnan Hc. unfold handleUpdate. destruct (channel u).
  - rewrite (handleOpenInterest_stored _ _ _ _ _ cache Hnan Hc).
    cbn [oiCache setCache]. rewrite lookup_insert_eq. eexists. split; [reflexivity |].
    split; [intros _; cbn; auto | discriminate].
  - rewrite (handleMarkPrice_stored _ _ _ _ _ cache Hnan Hc).
    cbn [oiCache setCache]. rewrite lookup_insert_eq. eexists. split; [reflexivity |].
    split; [discriminate | intros _; cbn; auto].
Qed.

Lemma handleUpdate_settings u tr :
  windowMs (handleUpdate u tr) = windowMs tr /\ historyMs (handleUpdate u tr) = historyMs tr
  /\ binanceSymbols (handleUpdate u tr) = binanceSymbols tr.
Proof.
  destruct (isNaN (value u)) eqn:Hnan; [rewrite handleUpdate_ignored by auto; auto |].
  destruct (oiCache tr !! instId u) as [c |] eqn:Hc;
    [| rewrite handleUpdate_ignored by auto; auto].
  unfold handleUpdate.
  destruct (channel u);
    [rewrite (handleOpenInterest_stored _ _ _ _ _ c) by auto
    | rewrite (handleMarkPrice_stored _ _ _ _ _ c) by auto]; cbn; auto.
Qed.

Lemma handleUpdate_other u tr k :
  k <> instId u -> oiCache (handleUpdate u tr) !! k = oiCache tr !! k.
Proof.
  intros Hne.
  destruct (isNaN (value u)) eqn:Hnan; [rewrite handleUpdate_ignored by auto; auto |].
  destruct (oiCache tr !! instId u) as [c |] eqn:Hc;
    [| rewrite handleUpdate_ignored by auto; auto].
  unfold handleUpdate.
  destruct (channel u);
    [rewrite (handleOpenInterest_stored _ _ _ _ _ c) by auto
    | rewrite (handleMarkPrice_stored _ _ _ _ _ c) by auto];
    cbn [oiCache setCache]; apply lookup_insert_ne; congruence.
Qed.

(** X3.  One update touches the cache entry of its instrument alone and
    leaves the two window settings; its history is either as it was, or
    holds nothing older than the history length before the clock reading
    and nothing but what it held and one new point stamped by the
    update. *)
Theorem handleUpdate_retention u tr :
  (forall k, k <> instId u -> oiCache (handleUpdate u tr) !! k = oiCache tr !! k)
  /\ (forall cache cache',
         oiCache tr !! instId u = Some cache ->
         oiCache (handleUpdate u tr) !! instId u = Some cache' ->
         history cache' = history cache
         \/ (Forall (fun p => clock u - historyMs tr <= ts p) (history cache')
             /\ exists point,
                  ts point = stamp u
                  /\ history cache' `sublist_of` history cache ++ [point]))
  /\ windowMs (handleUpdate u tr) = windowMs tr
  /\ historyMs (handleUpdate u tr) = historyMs tr.
Proof.
  split; [intros k; apply handleUpdate_other |].
  split; [| destruct (handleUpdate_settings u tr) as (H1 & H2 & _); auto].
  intros cache cache' Hc Hc'.
  destruct (isNaN (value u)) eqn:Hnan.
  { rewrite handleUpdate_ignored in Hc' by auto. left. congruence. }
  destruct (handleUpdate_entry u tr cache Hnan Hc) as (c2 & Hc2 & Hoi & Hmp).
  rewrite Hc' in Hc2. injection Hc2 as <-.
  assert (Hst : exists o p, history cache'
                            = stored (clock u) (historyMs tr) (stamp u) o p (history cache)).
  { destruct (channel u); [destruct Hoi as (_ & _ & H) | destruct Hmp as (_ & _ & H)];
      eauto. }
  destruct Hst as (o & p & Hst).
  destruct (stored_cases (clock u) (historyMs tr) (stamp u) o p (history cache))
    as [E | (ov & pv & _ & _ & E)]; rewrite E in Hst; [left; exact Hst |].
  right. rewrite Hst. split.
  - apply List.Forall_forall. intros x Hx. apply filter_In in Hx as [_ Hx].
    apply bool_decide_eq_true_1 in Hx. lia.
  - eexists. split; [| apply filter_sublist]. reflexivity.
Qed.

Lemma last_filter_snoc {A} (f : A -> bool) (l : list A) (x : A) :
  f x = true -> last (List.filter f (l ++ [x])) = Some x.
Proof.
  intros Hx. rewrite List.filter_app. cbn. rewrite Hx. apply last_snoc.
Qed.

(** The "now" values of the snapshot of a cache entry are those of its
    last point. *)
Lemma getOIStats_now now binanceSymbol tr cache latest :
  oiCache tr !! binanceToOKX binanceSymbol = Some cache ->
  last (history cache) = Some latest ->
  exists snap,
    getOIStats now binanceSymbol tr = Some snap
    /\ OIStats.oiNow snap = oi latest /\ OIStats.priceNow snap = price latest.
Proof.
  intros Hc Hl. unfold getOIStats. rewrite Hc, Hl.
  destruct (scanBack _ _ _); eexists; split; try reflexivity; cbn; auto.
Qed.

(** X4.  Once the other value is known, a value that is a number and is
    not stamped older than the history length is what [getOIStats] reports
    as current right after its update, beside the other value. *)
Theorem update_is_the_new_now u tr binanceSymbol cache :
  instId u = binanceToOKX binanceSymbol ->
  oiCache tr !! instId u = Some cache ->
  value u <> JS.NaN ->
  clock u - historyMs tr <= stamp u ->
  forall now,
    (channel u = OpenInterest ->
     forall p, lastPrice cache = Some p ->
       exists snap,
         getOIStats now binanceSymbol (handleUpdate u tr) = Some snap
         /\ OIStats.oiNow snap = value u /\ OIStats.priceNow snap = p)
    /\ (channel u = MarkPrice ->
        forall o, lastOI cache = Some o ->
          exists snap,
            getOIStats now binanceSymbol (handleUpdate u tr) = Some snap
            /\ OIStats.oiNow snap = o /\ OIStats.priceNow snap = value u).
Proof.
  intros Hid Hc Hnan Hfresh now.
  apply isNaN_false in Hnan.
  destruct (handleUpdate_entry u tr cache Hnan Hc) as (c2 & Hc2 & Hoi & Hmp).
  rewrite Hid in Hc2.
  assert (Hkeep : forall pt, ts pt = stamp u ->
            (fun item => bool_decide (ts item >= clock u - historyMs tr)) pt = true).
  { intros pt E. apply bool_decide_eq_true_2. lia. }
  split.
  - intros Hch p Hp. destruct (Hoi Hch) as (_ & _ & Hh).
    rewrite Hp in Hh. cbn [stored] in Hh.
    destruct (getOIStats_now now binanceSymbol _ c2
                {| ts := stamp u; oi := value u; price := p |} Hc2)
      as (snap & Hs & H1 & H2);
      [rewrite Hh; apply last_filter_snoc, Hkeep; reflexivity |].
    exists snap. cbn in H1, H2. auto.
  - intros Hch o Ho. destruct (Hmp Hch) as (_ & _ & Hh).
    rewrite Ho in Hh. cbn [stored] in Hh.
    destruct (getOIStats_now now binanceSymbol _ c2
                {| ts := stamp u; oi := o; price := value u |} Hc2)
      as (snap & Hs & H1 & H2);
      [rewrite Hh; apply last_filter_snoc, Hkeep; reflexivity |].
    exists snap. cbn in H1, H2. auto.
Qed.

Lemma update_is_the_new_now_witness :
  let u := {| clock := 301000; channel := OpenInterest; instId := "ADA-USDT-SWAP";
              value := JS.Fin 120; stamp := 300500 |} in
  exists snap,
    getOIStats 301001 "ADAUSDT" (handleUpdate u Sample.trackerWithHistory) = Some snap
    /\ OIStats.oiNow snap = JS.Fin 120 /\ OIStats.priceNow snap = JS.Fin 10.5.
Proof.
  intros u.
  destruct (oiCache Sample.trackerWithHistory !! instId u) as [cache |] eqn:E;
    [| vm_compute in E; discriminate].
  assert (Hp : lastPrice cache = Some (JS.Fin 10.5)).
  { vm_compute in E. injection E as <-. reflexivity. }
  refine (proj1 (update_is_the_new_now u Sample.trackerWithHistory "ADAUSDT" cache
                   _ E _ _ 301001) _ _ Hp).
  - vm_compute. reflexivity.
  - discriminate.
  - vm_compute. discriminate.
  - reflexivity.
Defined.

End TrackerUpdateFacts.

Module WindowFacts.
Import SymbolState WindowSpec SymbolStateFacts.

Lemma addTrade_tradeOf e st :
  trades (addTrade (TradeEvent.timestamp e) (TradeEvent.price e) (TradeEvent.quantity e)
            (TradeEvent.isBuyerMaker e) st)
  = List.filter (fun t => bool_decide (timestamp t >= TradeEvent.timestamp e - windowMs st))
      (trades st ++ [tradeOf e]).
Proof. reflexivity. Qed.






Lemma filter_filter_imp {A} (f g : A -> bool) (l : list A) :
  (forall x, g x = true -> f x = true) ->
  List.filter g (List.filter f l) = List.filter g l.
Proof.
  intros H. induction l as [| x l IH]; [reflexivity |].
  cbn. destruct (f x) eqn:Ef; cbn.
  - rewrite IH. reflexivity.
  - destruct (g x) eqn:Eg; [apply H in Eg; congruence | exact IH].
Qed.

(** X6.  Pruning composes: a [cleanup] followed by a later one is the
    later one alone. *)
Theorem cleanup_cleanup t1 t2 st :
  t1 <= t2 -> cleanup t2 (cleanup t1 st) = cleanup t2 st.
Proof.
  intros Hle. unfold cleanup. cbn.
  rewrite filter_filter_imp; [reflexivity |].
  intros x Hx. apply bool_decide_eq_true_1 in Hx. apply bool_decide_eq_true_2. lia.
Qed.

Lemma cleanup_cleanup_witness :
  0 <= 181000
  /\ trades (cleanup 181000 (cleanup 0 Sample.window)) = trades (cleanup 181000 Sample.window).
Proof.
  assert (H : 0 <= 181000) by lia.
  split; [exact H |]. rewrite (cleanup_cleanup 0 181000 Sample.window H). reflexivity.
Defined.

End WindowFacts.

Module WindowRunFacts.
Import SymbolState WindowSpec PoisonSpec SymbolStateFacts WindowFacts.

Lemma feed_snoc evs e st :
  feed (evs ++ [e]) st
  = addTrade (TradeEvent.timestamp e) (TradeEvent.price e) (TradeEvent.quantity e)
      (TradeEvent.isBuyerMaker e) (feed evs st).
Proof. unfold feed. rewrite fold_left_app. reflexivity. Qed.

Lemma feed_symbol evs st : symbol (feed evs st) = symbol st.
Proof.
  revert st. induction evs as [| e evs IH]; intros st; [reflexivity |].
  cbn. rewrite IH. reflexivity.
Qed.


(** X7.  Events that all lie within one window length of every later
    one are all retained, in their order: nothing is pruned, and the
    statistics count every event. *)
Theorem feed_within_window symbol windowSeconds events :
  (forall (i j : nat) ei ej,
      (i <= j)%nat -> events !! i = Some ei -> events !! j = Some ej ->
      TradeEvent.timestamp ej - windowSeconds * 1000 <= TradeEvent.timestamp ei) ->
  trades (feed events (new symbol windowSeconds)) = tradeOf <$> events
  /\ (forall r, getStats (feed events (new symbol windowSeconds)) = Some r ->
                Stats.tradeCount r = length events).
Proof.
  intros Hwin.
  assert (E : trades (feed events (new symbol windowSeconds)) = tradeOf <$> events).
  { induction events as [| e evs IH] using rev_ind; [reflexivity |].
    rewrite feed_snoc, addTrade_tradeOf, feed_windowMs. cbn [windowMs new].
    rewrite IH.
    2: { intros i j ei ej Hij Hi Hj. apply (Hwin i j); [exact Hij | |].
         - apply lookup_app_l_Some. exact Hi.
         - apply lookup_app_l_Some. exact Hj. }
    rewrite fmap_app. cbn [fmap list_fmap].
    apply forallb_filter_id. apply forallb_forall. intros t Ht.
    apply bool_decide_eq_true_2.
    assert (Hlast : (evs ++ [e]) !! length evs = Some e)
      by (rewrite lookup_app_r by lia; rewrite Nat.sub_diag; reflexivity).
    apply in_app_or in Ht as [Ht | [<- | []]].
    - apply list_elem_of_In, list_elem_of_fmap in Ht as (ei & -> & Hei).
      apply list_elem_of_lookup in Hei as [i Hi].
      pose proof (lookup_lt_Some _ _ _ Hi) as Hlt.
      specialize (Hwin i (length evs) ei e).
      cbn [timestamp tradeOf]. 
      assert (TradeEvent.timestamp e - windowSeconds * 1000 <= TradeEvent.timestamp ei).
      { apply Hwin; [lia | apply lookup_app_l_Some; exact Hi | exact Hlast]. }
      lia.
    - specialize (Hwin (length evs) (length evs) e e).
      cbn [timestamp tradeOf].
      assert (TradeEvent.timestamp e - windowSeconds * 1000 <= TradeEvent.timestamp e).
      { apply Hwin; [lia | exact Hlast | exact Hlast]. }
      lia. }
  split; [exact E |].
  intros r Hr. unfold getStats in Hr. rewrite E in Hr.
  destruct (tradeOf <$> events) as [| first rest] eqn:Ef; [discriminate |].
  destruct (last (first :: rest)); [| discriminate].
  destruct (sumVolumes (first :: rest)) as [b s].
  destruct (JS.eqb _ _); [discriminate |]. injection Hr as <-.
  change (length (first :: rest) = length events).
  rewrite <- Ef, length_fmap. reflexivity.
Qed.

Lemma feed_within_window_witness :
  trades (feed Sample.events (new "ADAUSDT" 180)) = tradeOf <$> Sample.events.
Proof.
  refine (proj1 (feed_within_window "ADAUSDT" 180 Sample.events _)).
  intros i j ei ej _ Hi Hj.
  assert (Hei : 0 <= TradeEvent.timestamp ei <= 1000).
  { destruct i as [| [| i]]; cbn in Hi; [| | discriminate];
      injection Hi as <-; cbn; lia. }
  assert (Hej : 0 <= TradeEvent.timestamp ej <= 1000).
  { destruct j as [| [| j]]; cbn in Hj; [| | discriminate];
      injection Hj as <-; cbn; lia. }
  lia.
Defined.

End WindowRunFacts.

Module WindowStatsFacts.
Import SymbolState WindowSpec PoisonSpec SymbolStateFacts WindowFacts WindowRunFacts.




(** X9.  A reset forgets the window: whatever was fed before, the window
    is the fresh one of its symbol and length, has no statistics, and goes
    on as a fresh window does. *)
Theorem reset_is_fresh symbol windowSeconds events :
  reset (feed events (new symbol windowSeconds)) = new symbol windowSeconds
  /\ getStats (reset (feed events (new symbol windowSeconds))) = None
  /\ forall later,
       feed later (reset (feed events (new symbol windowSeconds)))
       = feed later (new symbol windowSeconds).
Proof.
  assert (E : reset (feed events (new symbol windowSeconds)) = new symbol windowSeconds).
  { unfold reset. rewrite feed_symbol, feed_windowMs. reflexivity. }
  split; [exact E |]. rewrite E. split; reflexivity.
Qed.






End WindowStatsFacts.

Module FilterFacts.
Import SignalEngine FilterInputs.

Lemma getUTCHours_range now : 0 <= getUTCHours now < 24.
Proof. unfold getUTCHours. apply Z.mod_pos_bound. lia. Qed.

Lemma getUTCHours_day now : getUTCHours (now + 86400000) = getUTCHours now.
Proof.
  unfold getUTCHours.
  replace (now + 86400000) with (now + 24 * 3600000) by lia.
  rewrite Z.div_add by lia. rewrite Z.add_mod by lia.
  rewrite Z.mod_same by lia. rewrite Z.add_0_r. apply Z.mod_mod. lia.
Qed.

(** X10.  With the trading hours off every instant is inside them.  With
    them on, an instant is inside exactly when its UTC hour is from the
    start hour up to, and not including, the end hour: an end hour at or
    below the start hour leaves no instant inside (a span over midnight is
    empty), and a span from 0 to 24 covers every instant.  The answer
    repeats every 24 hours. *)
Theorem isWithinTradingHours_spec TRADING now :
  (TRADING_HOURS_ENABLED TRADING = false -> isWithinTradingHours TRADING now = true)
  /\ (TRADING_HOURS_ENABLED TRADING = true ->
      (isWithinTradingHours TRADING now = true <->
       TRADING_START_HOUR_UTC TRADING <= (now / 3600000) mod 24
         < TRADING_END_HOUR_UTC TRADING)
      /\ (TRADING_END_HOUR_UTC TRADING <= TRADING_START_HOUR_UTC TRADING ->
          isWithinTradingHours TRADING now = false)
      /\ (TRADING_START_HOUR_UTC TRADING <= 0 -> 24 <= TRADING_END_HOUR_UTC TRADING ->
          isWithinTradingHours TRADING now = true))
  /\ isWithinTradingHours TRADING (now + 86400000) = isWithinTradingHours TRADING now.
Proof.
  pose proof (getUTCHours_range now) as Hr.
  unfold isWithinTradingHours.
  split; [intros ->; reflexivity |]. split.
  - intros ->. cbn [negb]. fold (getUTCHours now).
    rewrite andb_true_iff, !bool_decide_eq_true.
    split; [split; intros; lia |]. split.
    + intros Hle. apply andb_false_iff.
      destruct (decide (getUTCHours now >= TRADING_START_HOUR_UTC TRADING));
        [right | left]; apply bool_decide_eq_false_2; lia.
    + intros H0 H24. lia.
  - rewrite getUTCHours_day. reflexivity.
Qed.

(** X11.  [shouldAlert] accepts statistics only for a configured, enabled
    symbol inside the trading hours; when the statistics and thresholds
    are finite numbers, volume and dominance are at least their minimum
    and the price has moved by at least the minimum in the direction of
    the dominant side. *)
Theorem shouldAlert_filters CONFIG TRADING now symbol stats :
  shouldAlert CONFIG TRADING now symbol (Some stats) = true ->
  exists config,
    getSymbolConfig CONFIG symbol = Some config
    /\ enabled config = true
    /\ isWithinTradingHours TRADING now = true
    /\ forall v d c mv md mc : Q,
         Stats.totalVolume stats = JS.Fin v ->
         Stats.dominance stats = JS.Fin d ->
         Stats.priceChange stats = JS.Fin c ->
         minVolumeUSD config = JS.Fin mv ->
         minDominance config = JS.Fin md ->
         minPriceChange config = JS.Fin mc ->
         (mv <= v)%Q /\ (md <= d)%Q /\ (mc <= Qabs c)%Q
         /\ (Stats.dominantSide stats = buy -> (0 <= c)%Q /\ (mc <= c)%Q)
         /\ (Stats.dominantSide stats = sell -> (c <= 0)%Q /\ (c <= - mc)%Q).
Proof.
  unfold shouldAlert.
  destruct (getSymbolConfig CONFIG symbol) as [config |]; [| discriminate].
  destruct (enabled config) eqn:He; [| discriminate]. cbn [negb].
  destruct (isWithinTradingHours TRADING now) eqn:Hh; [| discriminate]. cbn [negb].
  destruct (JS.lt (Stats.totalVolume stats) _) eqn:Hv; [discriminate |].
  destruct (JS.lt (Stats.dominance stats) _) eqn:Hd; [discriminate |].
  destruct (JS.lt (JS.abs _) _) eqn:Hc; [discriminate |].
  destruct (bool_decide (Stats.dominantSide stats = buy) && _) eqn:Hb; [discriminate |].
  destruct (bool_decide (Stats.dominantSide stats = sell) && _) eqn:Hs; [discriminate |].
  intros _. exists config. split; [reflexivity |]. split; [exact He |].
  split; [reflexivity |].
  intros v d c mv md mc Ev Ed Ec Emv Emd Emc.
  rewrite Ev, Emv in Hv. rewrite Ed, Emd in Hd. rewrite Ec, Emc in Hc.
  rewrite Ec in Hb, Hs. cbn [JS.abs] in Hc.
  apply JSFacts.Qltb_false in Hv, Hd, Hc.
  split; [exact Hv |]. split; [exact Hd |]. split; [exact Hc |].
  split; intros Hside; rewrite Hside in Hb, Hs; cbn in Hb, Hs.
  - apply JSFacts.Qltb_false in Hb. split; [exact Hb |].
    rewrite Qabs_pos in Hc by exact Hb. exact Hc.
  - unfold JS.gt in Hs. cbn in Hs. apply JSFacts.Qltb_false in Hs. split; [exact Hs |].
    rewrite Qabs_neg in Hc by exact Hs. lra.
Qed.

Lemma shouldAlert_filters_witness :
  shouldAlert CONFIG_default TRADING_default 1700000000000 "ADAUSDT" (Some (Sample.stats buy))
  = true
  /\ exists config,
       getSymbolConfig CONFIG_default "ADAUSDT" = Some config /\ enabled config = true.
Proof.
  assert (H : shouldAlert CONFIG_default TRADING_default 1700000000000 "ADAUSDT"
                (Some (Sample.stats buy)) = true) by (vm_compute; reflexivity).
  split; [exact H |].
  destruct (shouldAlert_filters CONFIG_default TRADING_default 1700000000000 "ADAUSDT"
              (Sample.stats buy) H) as (config & Hc & He & _).
  exists config. split; [exact Hc | exact He].
Defined.

(** X12.  The comparisons of [shouldAlert] are all false on NaN: for a
    configured, enabled symbol inside the trading hours, statistics whose
    volume, dominance and price change are NaN pass every filter. *)
Theorem shouldAlert_accepts_NaN CONFIG TRADING now symbol config stats :
  getSymbolConfig CONFIG symbol = Some config ->
  enabled config = true ->
  isWithinTradingHours TRADING now = true ->
  Stats.totalVolume stats = JS.NaN ->
  Stats.dominance stats = JS.NaN ->
  Stats.priceChange stats = JS.NaN ->
  shouldAlert CONFIG TRADING now symbol (Some stats) = true.
Proof.
  intros Hc He Hh Hv Hd Hp. unfold shouldAlert.
  rewrite Hc, He, Hh, Hv, Hd, Hp. cbn. rewrite !andb_false_r. reflexivity.
Qed.

Lemma shouldAlert_accepts_NaN_witness :
  shouldAlert CONFIG_default TRADING_default 1700000000000 "ADAUSDT" (Some nanStats) = true.
Proof.
  apply (shouldAlert_accepts_NaN CONFIG_default TRADING_default 1700000000000 "ADAUSDT"
           (mkSymbol 1000000 65 0.6) nanStats); reflexivity.
Defined.

End FilterFacts.

Module CooldownTimeFacts.
Import CooldownManager.

Lemma ceilDiv1000_spec x :
  1000 * (ceilDiv1000 x - 1) < x <= 1000 * ceilDiv1000 x.
Proof.
  unfold ceilDiv1000.
  pose proof (Z.div_mod (- x) 1000 ltac:(lia)) as Hdm.
  pose proof (Z.mod_pos_bound (- x) 1000 ltac:(lia)) as Hb.
  lia.
Qed.

(** X13.  For a configured symbol [getRemainingCooldown] is 0 exactly
    when [canAlert] holds and is never negative.  While a cooldown runs it
    is the milliseconds left, rounded up to whole seconds, and waiting
    that many seconds is enough for [canAlert] to hold. *)
Theorem getRemainingCooldown_spec CONFIG config now symbol stats cm :
  getSymbolConfig CONFIG symbol = Some config ->
  let remaining := getRemainingCooldown CONFIG now symbol (Stats.dominantSide stats) cm in
  (canAlert CONFIG now symbol stats cm = true <-> remaining = 0)
  /\ 0 <= remaining
  /\ (forall lastTime,
         lastAlerts cm !! alertKey symbol (Stats.dominantSide stats) = Some lastTime ->
         lastTime <> 0 ->
         let msLeft := lastTime + cooldownMinutes config * 60 * 1000 - now in
         (0 < msLeft -> 1000 * (remaining - 1) < msLeft <= 1000 * remaining)
         /\ (canAlert CONFIG (now + 1000 * remaining) symbol stats cm = true)).
Proof.
  intros Hcfg remaining. unfold remaining, getRemainingCooldown, canAlert. rewrite Hcfg.
  destruct (lastAlerts cm !! alertKey symbol (Stats.dominantSide stats)) as [t |] eqn:E.
  2: { split; [tauto |]. split; [lia |]. discriminate. }
  destruct (Z.eqb_spec t 0) as [-> | Hne].
  { split; [tauto |]. split; [lia |]. intros ? [= <-] ?. congruence. }
  set (cd := cooldownMinutes config * 60 * 1000).
  pose proof (ceilDiv1000_spec (Z.max 0 (cd - (now - t)))) as Hceil.
  split; [| split].
  - rewrite bool_decide_eq_true. split; intros H; lia.
  - lia.
  - intros lastTime Hl _. injection Hl as <-. cbv zeta. fold cd. split.
    + intros Hleft. lia.
    + apply bool_decide_eq_true_2. lia.
Qed.

Lemma getRemainingCooldown_spec_witness :
  let cm := recordAlert 1700000000000 "ADAUSDT" (Sample.stats buy) new in
  getSymbolConfig CONFIG_default "ADAUSDT" = Some (mkSymbol 1000000 65 0.6)
  /\ getRemainingCooldown CONFIG_default 1700000100500 "ADAUSDT" buy cm = 200
  /\ canAlert CONFIG_default 1700000100500 "ADAUSDT" (Sample.stats buy) cm = false
  /\ canAlert CONFIG_default (1700000100500 + 1000 * 200) "ADAUSDT" (Sample.stats buy) cm = true.
Proof.
  intros cm.
  assert (Hc : getSymbolConfig CONFIG_default "ADAUSDT" = Some (mkSymbol 1000000 65 0.6))
    by reflexivity.
  assert (Hr : getRemainingCooldown CONFIG_default 1700000100500 "ADAUSDT" buy cm = 200)
    by (vm_compute; reflexivity).
  split; [exact Hc |]. split; [exact Hr |].
  destruct (getRemainingCooldown_spec CONFIG_default (mkSymbol 1000000 65 0.6) 1700000100500
              "ADAUSDT" (Sample.stats buy) cm Hc) as (Hiff & _ & Hrun).
  split.
  - destruct (canAlert CONFIG_default 1700000100500 "ADAUSDT" (Sample.stats buy) cm) eqn:E;
      [| reflexivity].
    pose proof (proj1 Hiff eq_refl) as E'.
    change (Stats.dominantSide (Sample.stats buy)) with buy in E'.
    rewrite Hr in E'. discriminate.
  - destruct (Hrun 1700000000000) as (_ & Hlater); [vm_compute; reflexivity | discriminate |].
    change (Stats.dominantSide (Sample.stats buy)) with buy in Hlater.
    rewrite Hr in Hlater. exact Hlater.
Defined.

(** X14.  Time alone never closes a cooldown again: once [canAlert] holds
    it holds at every later clock reading, as long as nothing is
    recorded. *)
Theorem canAlert_stays_true CONFIG now later symbol stats cm :
  now <= later ->
  canAlert CONFIG now symbol stats cm = true ->
  canAlert CONFIG later symbol stats cm = true.
Proof.
  intros Hle. unfold canAlert.
  destruct (getSymbolConfig CONFIG symbol) as [config |]; [| discriminate].
  destruct (lastAlerts cm !! _) as [t |]; [| reflexivity].
  destruct (Z.eqb t 0); [reflexivity |].
  rewrite !bool_decide_eq_true. lia.
Qed.

Lemma canAlert_stays_true_witness :
  let cm := recordAlert 1700000000000 "ADAUSDT" (Sample.stats buy) new in
  1700000300000 <= 1700000999999
  /\ canAlert CONFIG_default 1700000999999 "ADAUSDT" (Sample.stats buy) cm = true.
Proof.
  intros cm.
  assert (H : 1700000300000 <= 1700000999999) by lia.
  split; [exact H |].
  apply (canAlert_stays_true CONFIG_default 1700000300000 1700000999999 "ADAUSDT"
           (Sample.stats buy) cm H).
  vm_compute. reflexivity.
Defined.

End CooldownTimeFacts.

Module AlertInvariantFacts.
Import AlertManager AlertSpec OrderedMapFacts AlertManagerFacts.

Lemma interpretSignal_fresh CONFIG eng stats now binanceSymbol tr fresh :
  OKXOpenInterestTracker.getOIStats now binanceSymbol tr = Some fresh ->
  exists r, SignalEngine.interpretSignal CONFIG eng stats (Some fresh) = JS.Ok r.
Proof.
  intros Hsnap.
  destruct (SignalEngine.availableOI CONFIG eng (Some fresh)) as [oi |] eqn:Hav.
  - pose proof Hav as Hav'.
    apply SignalEngineFacts.availableOI_Some in Hav' as (Hs & _ & _ & Hw).
    injection Hs as ->.
    destruct (SnapshotFacts.getOIStats_shape _ _ _ _ Hsnap) as (Hshape & _).
    rewrite Hw in Hshape. destruct Hshape as (_ & _ & Ho & Hp & _).
    exact (SignalEngineFacts.interpretSignal_returns CONFIG eng stats _ oi Hav Ho Hp).
  - unfold SignalEngine.interpretSignal. rewrite Hav.
    destruct (Stats.dominantSide stats); eauto.
Qed.

(** *** The ordered map *)

Lemma set_present_keys {V} key (v : V) (m : OrderedMap.t V) :
  OrderedMap.has key m = true ->
  List.map fst (OrderedMap.set key v m) = List.map fst m.
Proof.
  intros H. unfold OrderedMap.set. rewrite H. rewrite List.map_map.
  apply List.map_ext_in. intros [k x] _. cbn.
  destruct (String.eqb_spec k key) as [-> |]; reflexivity.
Qed.

Lemma set_present_In {V} key (v : V) (m : OrderedMap.t V) k x :
  OrderedMap.has key m = true ->
  In (k, x) (OrderedMap.set key v m) ->
  (k = key /\ x = v) \/ (k <> key /\ In (k, x) m).
Proof.
  intros H. unfold OrderedMap.set. rewrite H. intros Hin.
  apply in_map_iff in Hin as ([k' x'] & E & Hin). cbn in E.
  destruct (String.eqb_spec k' key) as [-> | Hne].
  - injection E as <- <-. left. split; reflexivity.
  - injection E as <- <-. right. split; [exact Hne | exact Hin].
Qed.

Lemma get_set_ne {V} key key' (v : V) (m : OrderedMap.t V) :
  key' <> key -> OrderedMap.get key' (OrderedMap.set key v m) = OrderedMap.get key' m.
Proof.
  intros Hne. unfold OrderedMap.set, OrderedMap.get.
  destruct (OrderedMap.has key m).
  - f_equal. induction m as [| [k x] m IH]; [reflexivity |]. cbn.
    destruct (String.eqb_spec k key) as [-> | Hk]; cbn.
    + destruct (String.eqb_spec key key') as [E | _]; [congruence |]. exact IH.
    + destruct (String.eqb k key'); [reflexivity | exact IH].
  - f_equal. induction m as [| [k x] m IH]; cbn.
    + destruct (String.eqb_spec key key') as [E | _]; [congruence | reflexivity].
    + destruct (String.eqb k key'); [reflexivity | exact IH].
Qed.

(** *** The timers *)

Lemma timersOK_lookup_key am h h' timer timer' :
  timersOK am ->
  timeouts am !! h = Some timer -> timeouts am !! h' = Some timer' ->
  timerKey timer = timerKey timer' -> h = h'.
Proof.
  intros [Ht _] H H' E.
  destruct (Ht _ _ H) as (_ & F & _). destruct (Ht _ _ H') as (_ & F' & _).
  rewrite E in F. congruence.
Qed.

(** Clearing the timer recorded under [key] leaves no armed timer of
    that key. *)
Lemma cleared_no_key am key h timer :
  timersOK am ->
  match finalCheckTimers am !! key with
  | Some handle => delete handle (timeouts am)
  | None => timeouts am
  end !! h = Some timer ->
  timeouts am !! h = Some timer /\ timerKey timer <> key.
Proof.
  intros [Ht _] H.
  destruct (finalCheckTimers am !! key) as [handle |] eqn:E.
  - apply lookup_delete_Some in H as [Hne H]. split; [exact H |].
    intros <-. destruct (Ht _ _ H) as (_ & F & _). congruence.
  - split; [exact H |]. intros <-. destruct (Ht _ _ H) as (_ & F & _). congruence.
Qed.

Lemma scheduleFinalOICheck_timersOK CONFIG now a am :
  timersOK am -> timersOK (scheduleFinalOICheck CONFIG now (keyOf a) a am).
Proof.
  intros Hok. pose proof Hok as [Ht Hf]. unfold scheduleFinalOICheck.
  destruct (bool_decide _); split; cbn.
  - intros h timer H. apply lookup_insert_Some in H as [[<- <-] | [Hne H]].
    + cbn. rewrite lookup_insert_eq. split; [lia |]. split; reflexivity.
    + apply (cleared_no_key am (keyOf a) h timer Hok) in H as [H Hk].
      destruct (Ht _ _ H) as (Hlt & F & K).
      split; [lia |]. split; [| exact K]. rewrite lookup_insert_ne by congruence. exact F.
  - intros key h H. apply lookup_insert_Some in H as [[_ <-] | [_ H]]; [lia |].
    apply Hf in H. lia.
  - intros h timer H.
    apply (cleared_no_key am (keyOf a) h timer Hok) in H as [H Hk].
    exact (Ht _ _ H).
  - exact Hf.
Qed.

Lemma scheduleFinalOICheck_timeouts CONFIG now a am h timer :
  timersOK am ->
  timeouts (scheduleFinalOICheck CONFIG now (keyOf a) a am) !! h = Some timer ->
  (timerKey timer = keyOf a /\ timerAlert timer = a)
  \/ (timerKey timer <> keyOf a /\ timeouts am !! h = Some timer).
Proof.
  intros Hok. unfold scheduleFinalOICheck.
  destruct (bool_decide _); cbn; intros H.
  - apply lookup_insert_Some in H as [[<- <-] | [Hne H]]; [left; split; reflexivity |].
    apply (cleared_no_key am (keyOf a) h timer Hok) in H as [H Hk]. right. split; assumption.
  - apply (cleared_no_key am (keyOf a) h timer Hok) in H as [H Hk]. right. split; assumption.
Qed.

Lemma sendAlert_wellFormed CONFIG now symbol stats interp oi am :
  wellFormed am -> wellFormed (sendAlert CONFIG now symbol stats interp oi am).
Proof.
  intros Hwf. pose proof Hwf as (Hu & Hk & Hok & Ha).
  destruct (OrderedMap.has (alertKey symbol (Stats.dominantSide stats)) (pendingAlerts am))
    eqn:Ehas.
  { rewrite sendAlert_pending by exact Ehas. exact Hwf. }
  pose proof (sendAlert_absent CONFIG now symbol stats interp oi am Ehas) as Hp.
  pose proof (sendAlert_uniqueKeys CONFIG now symbol stats interp oi am Hu) as Hu'.
  set (a := {| AlertManager.symbol := symbol; AlertManager.stats := stats;
               interpretation := interp; oiStats := oi; timestamp := now |}) in *.
  change (alertKey symbol (Stats.dominantSide stats)) with (keyOf a) in *.
  set (am1 := {| pendingAlerts := OrderedMap.set (keyOf a) a (pendingAlerts am);
                 alertCount := alertCount am;
                 finalCheckTimers := finalCheckTimers am;
                 timeouts := timeouts am;
                 nextHandle := nextHandle am |}).
  assert (E : sendAlert CONFIG now symbol stats interp oi am
              = scheduleFinalOICheck CONFIG now (keyOf a) a am1).
  { unfold sendAlert. fold a. change (alertKey symbol (Stats.dominantSide stats)) with (keyOf a).
    rewrite Ehas. reflexivity. }
  assert (Hok1 : timersOK am1) by exact Hok.
  split; [exact Hu' |]. split; [| split].
  - rewrite Hp. intros key x Hin. apply in_app_or in Hin as [Hin | [[= <- <-] | []]].
    + exact (Hk _ _ Hin).
    + reflexivity.
  - rewrite E. apply scheduleFinalOICheck_timersOK. exact Hok1.
  - rewrite Hp. rewrite E. intros h timer x H Hget.
    apply (scheduleFinalOICheck_timeouts CONFIG now a am1 h timer Hok1) in H
      as [[Hkey Hal] | [Hkey H]].
    + rewrite Hkey in Hget.
      pose proof (get_set_absent (keyOf a) a (pendingAlerts am) Ehas) as G.
      unfold OrderedMap.set in G. rewrite Ehas in G. congruence.
    + apply (Ha h timer x H).
      rewrite <- (get_set_ne (keyOf a) (timerKey timer) a (pendingAlerts am) Hkey).
      unfold OrderedMap.set. rewrite Ehas. exact Hget.
Qed.

Lemma timersOK_fired am handle timer :
  timersOK am -> timeouts am !! handle = Some timer ->
  timersOK {| pendingAlerts := pendingAlerts am; alertCount := alertCount am;
              finalCheckTimers := finalCheckTimers am;
              timeouts := delete handle (timeouts am);
              nextHandle := nextHandle am |}.
Proof.
  intros [Ht Hf] _. split; cbn; [| exact Hf].
  intros h t H. apply lookup_delete_Some in H as [_ H]. exact (Ht _ _ H).
Qed.

(** What [fireTimeout] leaves: the pending keys and the counter as they
    were, every candidate the same but for what the check revises. *)
Lemma fireTimeout_wellFormed CONFIG now tracker handle am :
  wellFormed am ->
  exists am',
    fireTimeout CONFIG now tracker handle am = JS.Ok am'
    /\ wellFormed am'
    /\ alertCount am' = alertCount am
    /\ timeouts am' = delete handle (timeouts am)
    /\ Forall2 (fun e e' => fst e = fst e' /\ sameCandidate (snd e) (snd e'))
         (pendingAlerts am) (pendingAlerts am').
Proof.
  intros Hwf. pose proof Hwf as (Hu & Hk & Hok & Ha).
  assert (Hrefl : Forall2 (fun e e' : string * AlertData =>
                             fst e = fst e' /\ sameCandidate (snd e) (snd e'))
                    (pendingAlerts am) (pendingAlerts am)).
  { apply Forall2_same_length_lookup_2; [reflexivity |].
    intros i x y Hx Hy. assert (x = y) as -> by congruence.
    split; [reflexivity |]. split; [| split]; reflexivity. }
  unfold fireTimeout.
  destruct (timeouts am !! handle) as [timer |] eqn:Eh.
  2: { exists am. split; [reflexivity |]. split; [exact Hwf |]. split; [reflexivity |].
       split; [| exact Hrefl]. symmetry. apply delete_id. exact Eh. }
  pose proof (timersOK_fired am handle timer Hok Eh) as Hok'.
  set (am0 := {| pendingAlerts := pendingAlerts am; alertCount := alertCount am;
                 finalCheckTimers := finalCheckTimers am;
                 timeouts := delete handle (timeouts am);
                 nextHandle := nextHandle am |}) in *.
  assert (Hwf0 : wellFormed am0).
  { split; [exact Hu |]. split; [exact Hk |]. split; [exact Hok' |].
    intros h t x H. unfold am0 in H. cbn in H.
    apply lookup_delete_Some in H as [_ H]. exact (Ha h t x H). }
  unfold performFinalOICheck. cbn [pendingAlerts am0].
  destruct (OrderedMap.has (timerKey timer) (pendingAlerts am)) eqn:Ehas; cbn [negb].
  2: { exists am0. split; [reflexivity |]. split; [exact Hwf0 |]. split; [reflexivity |].
       split; [reflexivity | exact Hrefl]. }
  (* the timers once the key is deleted from the map of final checks *)
  assert (Hok2 : forall pending,
             timersOK {| pendingAlerts := pending; alertCount := alertCount am0;
                         finalCheckTimers := delete (timerKey timer) (finalCheckTimers am0);
                         timeouts := timeouts am0; nextHandle := nextHandle am0 |}).
  { intros pending. destruct Hok as [Ht Hf]. split; cbn.
    - intros h t H. unfold am0 in H. cbn in H. apply lookup_delete_Some in H as [Hne H].
      destruct (Ht _ _ H) as (Hlt & F & K). split; [exact Hlt |]. split; [| exact K].
      rewrite lookup_delete_ne; [exact F |].
      intros E. apply Hne. symmetry.
      exact (timersOK_lookup_key am h handle t timer (conj Ht Hf) H Eh (eq_sym E)).
    - intros key h H. apply lookup_delete_Some in H as [_ H]. exact (Hf _ _ H). }
  assert (Hother : forall h t, timeouts am0 !! h = Some t -> timerKey t <> timerKey timer).
  { intros h t H E. unfold am0 in H. cbn in H. apply lookup_delete_Some in H as [Hne H].
    apply Hne. symmetry. exact (timersOK_lookup_key am h handle t timer Hok H Eh E). }
  assert (Hsame : exists am',
             JS.Ok {| pendingAlerts := pendingAlerts am; alertCount := alertCount am0;
                      finalCheckTimers := delete (timerKey timer) (finalCheckTimers am0);
                      timeouts := timeouts am0; nextHandle := nextHandle am0 |}
             = JS.Ok am'
             /\ wellFormed am'
             /\ alertCount am' = alertCount am
             /\ timeouts am' = delete handle (timeouts am)
             /\ Forall2 (fun e e' => fst e = fst e' /\ sameCandidate (snd e) (snd e'))
                  (pendingAlerts am) (pendingAlerts am')).
  { eexists. split; [reflexivity |]. split; [| split; [reflexivity | split; [reflexivity |]]].
    - split; [exact Hu |]. split; [exact Hk |]. split; [apply Hok2 |].
      intros h t x H. unfold am0 in H. cbn in H.
      apply lookup_delete_Some in H as [_ H]. exact (Ha h t x H).
    - exact Hrefl. }
  destruct (match tracker with
            | Some tr => OKXOpenInterestTracker.getOIStats now (symbol (timerAlert timer)) tr
            | None => None
            end) as [fresh |] eqn:Efresh; [| exact Hsame].
  destruct (OIStats.hasWindowData fresh) eqn:Ew; [| exact Hsame].
  destruct tracker as [tr |]; [| discriminate].
  destruct (interpretSignal_fresh CONFIG {| SignalEngine.oiTracker := Some tr |}
              (stats (timerAlert timer)) _ _ _ _ Efresh) as [r Hr].
  rewrite Hr. cbn [JS.bind].
  set (revised := {| symbol := symbol (timerAlert timer); stats := stats (timerAlert timer);
                     interpretation := r; oiStats := Some fresh;
                     timestamp := timestamp (timerAlert timer) |}).
  destruct (proj1 Hok _ _ Eh) as (_ & _ & Hkey).
  eexists. split; [reflexivity |]. split; [| split; [reflexivity | split; [reflexivity |]]].
  - split; [| split; [| split]]; cbn [pendingAlerts timeouts].
    + unfold OrderedMap.uniqueKeys. rewrite set_present_keys by exact Ehas. exact Hu.
    + intros key x Hin. apply set_present_In in Hin as [[-> ->] | [_ Hin]]; [| | exact Ehas].
      * exact Hkey.
      * exact (Hk _ _ Hin).
    + apply Hok2.
    + intros h t x H Hget. pose proof (Hother h t H) as Hne.
      rewrite get_set_ne in Hget by exact Hne.
      unfold am0 in H. cbn in H. apply lookup_delete_Some in H as [_ H].
      exact (Ha h t x H Hget).
  - cbn [pendingAlerts].
    assert (Hlen : length (OrderedMap.set (timerKey timer) revised (pendingAlerts am))
                   = length (pendingAlerts am)).
    { rewrite <- (length_map fst), set_present_keys by exact Ehas. apply length_map. }
    apply Forall2_same_length_lookup_2; [symmetry; exact Hlen |].
    intros i [k x] [k' x'] Hx Hy.
    unfold OrderedMap.set in Hy. rewrite Ehas in Hy.
    change (List.map ?f ?l) with (f <$> l) in Hy.
    rewrite list_lookup_fmap, Hx in Hy. cbn in Hy.
    destruct (String.eqb_spec k (timerKey timer)) as [-> | Hne].
    + injection Hy as <- <-. split; [reflexivity |].
      assert (Hget : OrderedMap.get (timerKey timer) (pendingAlerts am) = Some x).
      { assert (Hin : In (timerKey timer, x) (pendingAlerts am)).
        { apply list_elem_of_In. apply list_elem_of_lookup. exists i. exact Hx. }
        destruct (OrderedMap.get (timerKey timer) (pendingAlerts am)) as [c |] eqn:G.
        - pose proof (filter_key_unique _ _ _ Hu G) as F.
          assert (Hin' : In (timerKey timer, x)
                           (List.filter (fun e => String.eqb (fst e) (timerKey timer))
                              (pendingAlerts am))).
          { apply filter_In. split; [exact Hin |]. cbn. apply String.eqb_refl. }
          rewrite F in Hin'. destruct Hin' as [[= <-] | []]. reflexivity.
        - unfold OrderedMap.get in G.
          destruct (List.find _ (pendingAlerts am)) as [e |] eqn:Ef; [discriminate |].
          apply (find_none _ _ Ef) in Hin. cbn in Hin. rewrite String.eqb_refl in Hin.
          discriminate. }
      rewrite (Ha handle timer x Eh Hget). split; [| split]; reflexivity.
    + injection Hy as <- <-. split; [reflexivity |]. split; [| split]; reflexivity.
Qed.

Lemma afterSend_timersOK key am : timersOK am -> timersOK (afterSend key am).
Proof.
  intros Hok. pose proof Hok as [Ht Hf]. split; cbn.
  - intros h t H. apply (cleared_no_key am key h t Hok) in H as [H Hne].
    destruct (Ht _ _ H) as (Hlt & F & K). split; [exact Hlt |]. split; [| exact K].
    rewrite lookup_delete_ne by congruence. exact F.
  - intros k h H. apply lookup_delete_Some in H as [_ H]. exact (Hf _ _ H).
Qed.

Lemma flushLoop_timersOK delivered entries : forall i am,
  timersOK am -> timersOK (fst (flushLoop delivered i entries am)).
Proof.
  induction entries as [| [key a] rest IH]; intros i am Hok; [exact Hok |].
  cbn [flushLoop].
  specialize (IH (S i) (if delivered i then afterSend key am else am)).
  destruct (flushLoop delivered (S i) rest _) as [am2 attempts]. cbn [fst] in *.
  apply IH. destruct (delivered i); [apply afterSend_timersOK |]; exact Hok.
Qed.

Lemma flushPendingAlerts_wellFormed delivered am :
  wellFormed am -> wellFormed (fst (flushPendingAlerts delivered am)).
Proof.
  intros (_ & _ & Hok & _). unfold flushPendingAlerts.
  pose proof (flushLoop_timersOK delivered (pendingAlerts am) 0 am Hok) as H.
  destruct (flushLoop delivered 0 (pendingAlerts am) am) as [am1 attempts]. cbn [fst] in *.
  split; [apply NoDup_nil_2 |]. split; [intros ? ? [] |]. split; [exact H |].
  intros h t x _ Hget. discriminate.
Qed.

Lemma handle_wellFormed CONFIG e am :
  wellFormed am -> exists am', handle CONFIG e am = JS.Ok am' /\ wellFormed am'.
Proof.
  intros Hwf. destruct e as [now symbol stats interp oi | now tracker h | now delivered | delivered];
    cbn [handle].
  - eexists. split; [reflexivity |]. apply sendAlert_wellFormed. exact Hwf.
  - destruct (fireTimeout_wellFormed CONFIG now tracker h am Hwf) as (am' & E & Hwf' & _).
    exists am'. split; assumption.
  - eexists. split; [reflexivity |]. unfold minuteTick.
    destruct (_ && _); [apply flushPendingAlerts_wellFormed |]; exact Hwf.
  - eexists. split; [reflexivity |]. apply flushPendingAlerts_wellFormed. exact Hwf.
Qed.

Lemma new_wellFormed : wellFormed AlertManager.new.
Proof.
  split; [apply NoDup_nil_2 |]. split; [intros ? ? [] |].
  split; [split; cbn; intros ? ? H; rewrite lookup_empty in H; discriminate |].
  intros h t x H. cbn in H. rewrite lookup_empty in H. discriminate.
Qed.

Lemma handleAll_wellFormed CONFIG es : forall am,
  wellFormed am -> exists am', handleAll CONFIG es am = JS.Ok am' /\ wellFormed am'.
Proof.
  induction es as [| e es IH]; intros am Hwf; [exists am; split; [reflexivity | exact Hwf] |].
  cbn [handleAll]. destruct (handle_wellFormed CONFIG e am Hwf) as (am1 & E & Hwf1).
  rewrite E. cbn [JS.bind]. apply IH. exact Hwf1.
Qed.

End AlertInvariantFacts.

Module AlertTimerFacts.
Import AlertManager AlertSpec AlertInputs OrderedMapFacts AlertManagerFacts AlertInvariantFacts.

Lemma getSeconds_split now :
  now = (now / 60000) * 60000 + getSeconds now * 1000 + now mod 1000
  /\ 0 <= getSeconds now < 60 /\ 0 <= now mod 1000 < 1000.
Proof.
  unfold getSeconds.
  pose proof (Z.div_mod now 1000 ltac:(lia)) as H1.
  pose proof (Z.div_mod (now / 1000) 60 ltac:(lia)) as H2.
  pose proof (Z.mod_pos_bound now 1000 ltac:(lia)) as B1.
  pose proof (Z.mod_pos_bound (now / 1000) 60 ltac:(lia)) as B2.
  assert (E : now / 60000 = now / 1000 / 60) by (rewrite Z.div_div by lia; reflexivity).
  rewrite E. split; [lia |]. split; assumption.
Qed.

(** X15.  The final check of a candidate is due [OI_FINAL_CHECK_OFFSET_MS]
    before the next minute boundary, later by the milliseconds past the
    second at which it was queued; a candidate queued when no more than
    the offset is left of the minute gets no final check. *)
Theorem scheduleFinalOICheck_due CONFIG now key a am :
  let am' := scheduleFinalOICheck CONFIG now key a am in
  let nextMinute := (now / 60000 + 1) * 60000 in
  let offset := OI_FINAL_CHECK_OFFSET_MS CONFIG in
  (offset < (60 - getSeconds now) * 1000 ->
   finalCheckTimers am' !! key = Some (nextHandle am)
   /\ timeouts am' !! nextHandle am
      = Some {| due := nextMinute - offset + now mod 1000; timerKey := key;
                timerAlert := a |}
   /\ nextMinute - offset <= nextMinute - offset + now mod 1000 < nextMinute - offset + 1000)
  /\ ((60 - getSeconds now) * 1000 <= offset ->
      finalCheckTimers am' = finalCheckTimers am
      /\ nextHandle am' = nextHandle am
      /\ forall h timer, timeouts am' !! h = Some timer -> timeouts am !! h = Some timer).
Proof.
  intros am' nextMinute offset. unfold am', scheduleFinalOICheck. fold offset.
  destruct (getSeconds_split now) as (Hsplit & Hs & Hms).
  split; intros Hlt.
  - rewrite bool_decide_eq_true_2 by lia. cbn.
    rewrite !lookup_insert_eq. split; [reflexivity |]. split; [| lia].
    do 2 f_equal. unfold nextMinute. lia.
  - rewrite bool_decide_eq_false_2 by lia. cbn.
    split; [reflexivity |]. split; [reflexivity |]. intros h timer H.
    destruct (finalCheckTimers am !! key); [| exact H].
    apply lookup_delete_Some in H as [_ H]. exact H.
Qed.

Lemma scheduleFinalOICheck_due_witness :
  let a :=
    {| symbol := "ADAUSDT"; stats := Sample.stats buy; interpretation := Sample.interp buy;
       oiStats := None; timestamp := 1700000010250 |} in
  let am' := scheduleFinalOICheck CONFIG_default 1700000010250 "ADAUSDT_buy" a AlertManager.new in
  OI_FINAL_CHECK_OFFSET_MS CONFIG_default < (60 - getSeconds 1700000010250) * 1000
  /\ timeouts am' !! nextHandle AlertManager.new
     = Some {| due := 1700000038250; timerKey := "ADAUSDT_buy"; timerAlert := a |}.
Proof.
  intros a am'.
  assert (H : OI_FINAL_CHECK_OFFSET_MS CONFIG_default < (60 - getSeconds 1700000010250) * 1000)
    by (vm_compute; reflexivity).
  split; [exact H |].
  exact (proj1 (proj2 (proj1 (scheduleFinalOICheck_due CONFIG_default 1700000010250
                                "ADAUSDT_buy" a AlertManager.new) H))).
Defined.

(** X16.  No run of events makes a handler throw, and after any run the
    pending map holds a key once, each candidate under the key of its own
    symbol and side, every armed timer is the one recorded for its key,
    and the candidate it closes over is the one pending under that key. *)
Theorem handleAll_never_throws CONFIG es :
  exists am, handleAll CONFIG es AlertManager.new = JS.Ok am /\ wellFormed am.
Proof. apply handleAll_wellFormed. exact new_wellFormed. Qed.

Lemma emitted_sublist attempts : emitted attempts `sublist_of` fst <$> attempts.
Proof.
  unfold emitted. induction attempts as [| [a b] rest IH]; [constructor |].
  cbn. destruct b; cbn; [apply sublist_skip | apply sublist_cons]; exact IH.
Qed.

Lemma flush_attempted delivered am :
  fst <$> snd (flushPendingAlerts delivered am) = snd <$> pendingAlerts am.
Proof.
  unfold flushPendingAlerts.
  pose proof (flushLoop_attempts delivered (pendingAlerts am) 0 am) as H.
  destruct (flushLoop delivered 0 (pendingAlerts am) am) as [am1 attempts]. cbn [snd] in *.
  subst attempts. generalize 0%nat.
  induction (pendingAlerts am) as [| [k a] rest IH]; intros n; [reflexivity |].
  cbn. f_equal. specialize (IH (S n)).
  rewrite <- IH. f_equal. apply imap_ext. intros i x _. cbn. f_equal. f_equal. lia.
Qed.

Lemma wellFormed_subjects am :
  wellFormed am -> List.NoDup (subject <$> (snd <$> pendingAlerts am)).
Proof.
  intros (Hu & Hk & _). unfold OrderedMap.uniqueKeys in Hu.
  apply NoDup_ListNoDup.
  apply (NoDup_fmap_1 (fun p : string * Side => alertKey (fst p) (snd p))).
  rewrite <- !list_fmap_compose.
  assert (E : (fun p : string * Side => alertKey (fst p) (snd p)) ∘ subject ∘ snd
              <$> pendingAlerts am = fst <$> pendingAlerts am).
  { apply list_fmap_ext. intros i [k a] Hin. cbn.
    symmetry. apply (Hk k a). apply list_elem_of_In. apply list_elem_of_lookup.
    exists i. exact Hin. }
  rewrite E. exact Hu.
Qed.

(** X17.  After any run of events a flush attempts, and so emits, at most
    one alert for a symbol and side. *)
Theorem flush_one_alert_per_subject CONFIG es am delivered :
  handleAll CONFIG es AlertManager.new = JS.Ok am ->
  let attempts := snd (flushPendingAlerts delivered am) in
  List.NoDup (subject <$> (fst <$> attempts))
  /\ List.NoDup (subject <$> emitted attempts).
Proof.
  intros Hrun attempts.
  destruct (handleAll_wellFormed CONFIG es AlertManager.new new_wellFormed) as (am' & E & Hwf).
  rewrite Hrun in E. injection E as <-.
  assert (H : List.NoDup (subject <$> (fst <$> attempts))).
  { unfold attempts. rewrite flush_attempted. apply wellFormed_subjects. exact Hwf. }
  split; [exact H |].
  apply NoDup_ListNoDup. apply NoDup_ListNoDup in H.
  eapply sublist_NoDup; [exact H | apply fmap_sublist; apply emitted_sublist].
Qed.

Lemma flush_one_alert_per_subject_witness :
  handleAll CONFIG_default twoSends AlertManager.new = JS.Ok Sample.twoPending
  /\ List.NoDup (subject <$> emitted (snd (flushPendingAlerts (fun _ => true) Sample.twoPending))).
Proof.
  assert (H : handleAll CONFIG_default twoSends AlertManager.new = JS.Ok Sample.twoPending)
    by (vm_compute; reflexivity).
  split; [exact H |].
  exact (proj2 (flush_one_alert_per_subject CONFIG_default twoSends Sample.twoPending
                  (fun _ => true) H)).
Defined.

Lemma clear_all_lookup (handles : list nat) (table : gmap nat Timeout) h :
  fold_right (fun timer table => delete timer table) table handles !! h
  = if bool_decide (h ∈ handles) then None else table !! h.
Proof.
  induction handles as [| x rest IH]; cbn.
  - rewrite bool_decide_eq_false_2 by apply not_elem_of_nil. reflexivity.
  - destruct (decide (x = h)) as [-> | Hne].
    + rewrite lookup_delete_eq. rewrite bool_decide_eq_true_2 by apply list_elem_of_here.
      reflexivity.
    + rewrite lookup_delete_ne by exact Hne. rewrite IH.
      destruct (decide (h ∈ rest)) as [Hin | Hout].
      * rewrite !bool_decide_eq_true_2; [reflexivity | | exact Hin].
        apply list_elem_of_further. exact Hin.
      * rewrite !bool_decide_eq_false_2; [reflexivity | | exact Hout].
        intros Hin. apply elem_of_cons in Hin as [-> | Hin]; [apply Hne |]; auto.
Qed.

(** X18.  After any run of events [stop] leaves no final-check timer armed;
    the candidates still pending stay in the map. *)
Theorem stop_clears_every_timer CONFIG es am :
  handleAll CONFIG es AlertManager.new = JS.Ok am ->
  timeouts (stop am) = ∅
  /\ finalCheckTimers (stop am) = ∅
  /\ pendingAlerts (stop am) = pendingAlerts am
  /\ alertCount (stop am) = alertCount am.
Proof.
  intros Hrun.
  destruct (handleAll_wellFormed CONFIG es AlertManager.new new_wellFormed) as (am' & E & Hwf).
  rewrite Hrun in E. injection E as <-.
  destruct Hwf as (_ & _ & [Ht _] & _).
  split; [| split; [reflexivity | split; reflexivity]].
  apply map_eq. intros h. rewrite lookup_empty. unfold stop. cbn [timeouts].
  rewrite clear_all_lookup.
  destruct (timeouts am !! h) as [timer |] eqn:Eh.
  - rewrite bool_decide_eq_true_2; [reflexivity |].
    destruct (Ht _ _ Eh) as (_ & F & _).
    apply list_elem_of_fmap. exists (timerKey timer, h). split; [reflexivity |].
    apply elem_of_map_to_list. exact F.
  - destruct (bool_decide _); reflexivity.
Qed.

Lemma stop_clears_every_timer_witness :
  handleAll CONFIG_default twoSends AlertManager.new = JS.Ok Sample.twoPending
  /\ size (timeouts Sample.twoPending) = 2%nat
  /\ timeouts (stop Sample.twoPending) = ∅.
Proof.
  assert (H : handleAll CONFIG_default twoSends AlertManager.new = JS.Ok Sample.twoPending)
    by (vm_compute; reflexivity).
  split; [exact H |]. split; [vm_compute; reflexivity |].
  exact (proj1 (stop_clears_every_timer CONFIG_default twoSends Sample.twoPending H)).
Defined.

(** X19.  After any run of events a final check returns, keeps the pending
    keys in their order and the counter, and changes nothing of a
    candidate but its interpretation and snapshot. *)
Theorem final_check_keeps_candidates CONFIG es am now tracker h :
  handleAll CONFIG es AlertManager.new = JS.Ok am ->
  exists am',
    fireTimeout CONFIG now tracker h am = JS.Ok am'
    /\ alertCount am' = alertCount am
    /\ timeouts am' = delete h (timeouts am)
    /\ Forall2 (fun e e' => fst e = fst e' /\ sameCandidate (snd e) (snd e'))
         (pendingAlerts am) (pendingAlerts am').
Proof.
  intros Hrun.
  destruct (handleAll_wellFormed CONFIG es AlertManager.new new_wellFormed) as (am1 & E & Hwf).
  rewrite Hrun in E. injection E as <-.
  destruct (fireTimeout_wellFormed CONFIG now tracker h am Hwf) as (am' & E & _ & Hc & Ht & Hp).
  exists am'. split; [exact E |]. split; [exact Hc |]. split; [exact Ht | exact Hp].
Qed.

Lemma final_check_keeps_candidates_witness :
  handleAll CONFIG_default twoSends AlertManager.new = JS.Ok Sample.twoPending
  /\ exists am',
       fireTimeout CONFIG_default 1700000058000 (Some Sample.trackerWithHistory) 0
         Sample.twoPending = JS.Ok am'
       /\ alertCount am' = 0%nat.
Proof.
  assert (H : handleAll CONFIG_default twoSends AlertManager.new = JS.Ok Sample.twoPending)
    by (vm_compute; reflexivity).
  split; [exact H |].
  destruct (final_check_keeps_candidates CONFIG_default twoSends Sample.twoPending
              1700000058000 (Some Sample.trackerWithHistory) 0%nat H)
    as (am' & E & Hc & _).
  exists am'. split; [exact E |]. rewrite Hc. reflexivity.
Defined.

End AlertTimerFacts.

Module PipelineFacts.
Import MultiWebSocketManager WindowSpec PoisonSpec AlertSpec PipelineSpec OrderedMapFacts AlertManagerFacts.

Lemma handleMessage_cases CONFIG TRADING now symbol trade m :
  let m' := handleMessage CONFIG TRADING now symbol trade m in
  let aggregator := withTrade symbol trade (tradeAggregator m) in
  (oiTracker m' = oiTracker m /\ reconnectAttempts m' = reconnectAttempts m)
  /\ (quiet symbol trade m m'
      \/ exists stats config interpretation oiStats,
           TradeAggregator.getStats symbol aggregator = Some stats
           /\ getSymbolConfig CONFIG symbol = Some config
           /\ isWithinTradingHours TRADING now = true
           /\ JS.ge (Stats.totalVolume stats) (JS.mul (minVolumeUSD config) (JS.Fin 0.5)) = true
           /\ SignalEngine.shouldAlert CONFIG TRADING now symbol (Some stats) = true
           /\ CooldownManager.canAlert CONFIG now symbol stats (cooldownManager m) = true
           /\ tradeAggregator m' = TradeAggregator.resetSymbol symbol aggregator
           /\ cooldownManager m' = CooldownManager.recordAlert now symbol stats (cooldownManager m)
           /\ alertManager m'
              = AlertManager.sendAlert CONFIG now symbol stats interpretation oiStats
                  (alertManager m)).
Proof.
  intros m' aggregator. unfold m', handleMessage. fold (withTrade symbol trade (tradeAggregator m)).
  fold aggregator.
  assert (Hq : forall x, x = {| tradeAggregator := aggregator;
                                cooldownManager := cooldownManager m;
                                alertManager := alertManager m;
                                oiTracker := oiTracker m;
                                reconnectAttempts := reconnectAttempts m |} ->
               (oiTracker x = oiTracker m /\ reconnectAttempts x = reconnectAttempts m)
               /\ (quiet symbol trade m x \/ False)).
  { intros x ->. split; [split; reflexivity |]. left. split; [| split]; reflexivity. }
  assert (Hq' : forall x P, x = {| tradeAggregator := aggregator;
                                   cooldownManager := cooldownManager m;
                                   alertManager := alertManager m;
                                   oiTracker := oiTracker m;
                                   reconnectAttempts := reconnectAttempts m |} ->
               (oiTracker x = oiTracker m /\ reconnectAttempts x = reconnectAttempts m)
               /\ (quiet symbol trade m x \/ P)).
  { intros x P E. destruct (Hq x E) as [H1 [H2 | []]]. split; [exact H1 | left; exact H2]. }
  destruct (isWithinTradingHours TRADING now) eqn:Eh; cbn [negb]; [| apply Hq'; reflexivity].
  destruct (TradeAggregator.getStats symbol aggregator) as [stats |] eqn:Es;
    [| apply Hq'; reflexivity].
  destruct (getSymbolConfig CONFIG symbol) as [config |] eqn:Ec; [| apply Hq'; reflexivity].
  destruct (JS.ge _ _) eqn:Ev; cbn [negb]; [| apply Hq'; reflexivity].
  destruct (SignalEngine.shouldAlert _ _ _ _ _) eqn:Ea; cbn [negb]; [| apply Hq'; reflexivity].
  destruct (CooldownManager.canAlert _ _ _ _ _) eqn:Ecd; cbn [negb]; [| apply Hq'; reflexivity].
  destruct (SignalEngine.interpretSignal _ _ _ _) as [interpretation | err] eqn:Ei;
    [| apply Hq'; reflexivity].
  split; [split; reflexivity |]. right.
  eexists stats, config, interpretation, _.
  split; [reflexivity |]. split; [reflexivity |]. split; [reflexivity |].
  split; [exact Ev |]. split; [exact Ea |]. split; [exact Ecd |].
  split; [reflexivity |]. split; reflexivity.
Qed.

Lemma getStats_resetSymbol symbol a :
  TradeAggregator.getStats symbol (TradeAggregator.resetSymbol symbol a) = None.
Proof.
  unfold TradeAggregator.getStats, TradeAggregator.resetSymbol.
  destruct (TradeAggregator.states a !! symbol) as [st |] eqn:E; cbn.
  - rewrite lookup_insert_eq. reflexivity.
  - rewrite E. reflexivity.
Qed.

Lemma sendAlert_has CONFIG now symbol stats interp oi am :
  OrderedMap.has (alertKey symbol (Stats.dominantSide stats))
    (AlertManager.pendingAlerts (AlertManager.sendAlert CONFIG now symbol stats interp oi am))
  = true.
Proof.
  destruct (OrderedMap.has (alertKey symbol (Stats.dominantSide stats))
              (AlertManager.pendingAlerts am)) eqn:E.
  - rewrite sendAlert_pending by exact E. exact E.
  - rewrite sendAlert_absent by exact E. rewrite has_app. cbn.
    rewrite String.eqb_refl. apply orb_true_r.
Qed.

(** X20.  What an alert takes.  A handler run that moves the cooldowns, the
    alert manager or anything of the aggregator beyond adding the trade
    was inside the trading hours, on a configured symbol whose window
    passed the filters of [shouldAlert] outside its cooldown; it stamps the
    cooldown of the symbol and side with its clock reading, leaves a
    candidate pending under their key and an empty window. *)
Theorem handleMessage_alert_conditions CONFIG TRADING now symbol trade m :
  let m' := handleMessage CONFIG TRADING now symbol trade m in
  let aggregator := withTrade symbol trade (tradeAggregator m) in
  ~ quiet symbol trade m m' ->
  exists stats config,
    TradeAggregator.getStats symbol aggregator = Some stats
    /\ getSymbolConfig CONFIG symbol = Some config
    /\ isWithinTradingHours TRADING now = true
    /\ JS.ge (Stats.totalVolume stats) (JS.mul (minVolumeUSD config) (JS.Fin 0.5)) = true
    /\ SignalEngine.shouldAlert CONFIG TRADING now symbol (Some stats) = true
    /\ CooldownManager.canAlert CONFIG now symbol stats (cooldownManager m) = true
    /\ CooldownManager.lastAlerts (cooldownManager m')
         !! alertKey symbol (Stats.dominantSide stats) = Some now
    /\ OrderedMap.has (alertKey symbol (Stats.dominantSide stats))
         (AlertManager.pendingAlerts (alertManager m')) = true
    /\ TradeAggregator.getStats symbol (tradeAggregator m') = None.
Proof.
  intros m' aggregator Hnq.
  destruct (handleMessage_cases CONFIG TRADING now symbol trade m) as [_ [Hq | H]];
    [contradiction |].
  destruct H as (stats & config & interp & oi & Es & Ec & Eh & Ev & Ea & Ecd & Ht & Hc & Hm).
  exists stats, config.
  split; [exact Es |]. split; [exact Ec |]. split; [exact Eh |]. split; [exact Ev |].
  split; [exact Ea |]. split; [exact Ecd |].
  fold m' in Ht, Hc, Hm. rewrite Ht, Hc, Hm.
  split; [cbn; apply lookup_insert_eq |]. split; [apply sendAlert_has |].
  apply getStats_resetSymbol.
Qed.

Lemma handleMessage_alert_conditions_witness :
  let m := handleMessage CONFIG_default TRADING_default 1700000000500 "ADAUSDT"
             (Sample.event 1700000000000 10 1 false) (new 180 None) in
  let trade := Sample.event 1700000001000 10.1 200000 false in
  let m' := handleMessage CONFIG_default TRADING_default 1700000001500 "ADAUSDT" trade m in
  cooldownManager m' <> cooldownManager m
  /\ exists stats,
       TradeAggregator.getStats "ADAUSDT" (withTrade "ADAUSDT" trade (tradeAggregator m))
       = Some stats
       /\ CooldownManager.lastAlerts (cooldownManager m')
            !! alertKey "ADAUSDT" (Stats.dominantSide stats) = Some 1700000001500.
Proof.
  intros m trade m'.
  assert (Hne : cooldownManager m' <> cooldownManager m).
  { intros E. apply (f_equal (fun c => CooldownManager.lastAlerts c !! "ADAUSDT_buy"%string)) in E.
    vm_compute in E. discriminate. }
  split; [exact Hne |].
  destruct (handleMessage_alert_conditions CONFIG_default TRADING_default 1700000001500
              "ADAUSDT" trade m) as (stats & config & Es & _ & _ & _ & _ & _ & Hl & _).
  { intros (_ & Hc & _). exact (Hne Hc). }
  exists stats. split; [exact Es | exact Hl].
Defined.

(** X21.  Two alerts of a symbol and side are a cooldown apart.  A handler
    run that changes a stamp of the cooldown map sets it to its clock
    reading, for a key of the symbol of the trade, and the stamp it
    replaces is a full cooldown old, or 0. *)
Theorem handleMessage_cooldown_spacing CONFIG TRADING now symbol trade m key t t' :
  let m' := handleMessage CONFIG TRADING now symbol trade m in
  CooldownManager.lastAlerts (cooldownManager m) !! key = Some t ->
  CooldownManager.lastAlerts (cooldownManager m') !! key = Some t' ->
  t' <> t ->
  t' = now
  /\ exists side config,
       key = alertKey symbol side
       /\ getSymbolConfig CONFIG symbol = Some config
       /\ (t = 0 \/ cooldownMinutes config * 60 * 1000 <= now - t).
Proof.
  intros m' Ht Ht' Hne.
  destruct (handleMessage_cases CONFIG TRADING now symbol trade m) as [_ [Hq | H]].
  { destruct Hq as (_ & Hc & _). fold m' in Hc. rewrite Hc in Ht'. congruence. }
  destruct H as (stats & config & interp & oi & _ & Ec & _ & _ & _ & Ecd & _ & Hc & _).
  fold m' in Hc. rewrite Hc in Ht'. cbn in Ht'.
  apply lookup_insert_Some in Ht' as [[<- <-] | [_ Ht']]; [| congruence].
  split; [reflexivity |]. exists (Stats.dominantSide stats), config.
  split; [reflexivity |]. split; [exact Ec |].
  unfold CooldownManager.canAlert in Ecd. rewrite Ec, Ht in Ecd.
  destruct (Z.eqb_spec t 0) as [-> | _]; [left; reflexivity |].
  apply bool_decide_eq_true_1 in Ecd. right. lia.
Qed.

Lemma handleMessage_cooldown_spacing_witness :
  let trade := Sample.event 1700000401000 10.1 200000 false in
  let m := handleMessage CONFIG_default TRADING_default 1700000400500 "ADAUSDT"
             (Sample.event 1700000400000 10 1 false) afterBurst in
  let m' := handleMessage CONFIG_default TRADING_default 1700000401500 "ADAUSDT" trade m in
  CooldownManager.lastAlerts (cooldownManager m) !! "ADAUSDT_buy"%string = Some 1700000001500
  /\ CooldownManager.lastAlerts (cooldownManager m') !! "ADAUSDT_buy"%string
     = Some 1700000401500
  /\ 5 * 60 * 1000 <= 1700000401500 - 1700000001500.
Proof.
  intros trade m m'.
  assert (H1 : CooldownManager.lastAlerts (cooldownManager m) !! "ADAUSDT_buy"%string
               = Some 1700000001500) by (vm_compute; reflexivity).
  assert (H2 : CooldownManager.lastAlerts (cooldownManager m') !! "ADAUSDT_buy"%string
               = Some 1700000401500) by (vm_compute; reflexivity).
  split; [exact H1 |]. split; [exact H2 |].
  destruct (handleMessage_cooldown_spacing CONFIG_default TRADING_default 1700000401500
              "ADAUSDT" trade m "ADAUSDT_buy" 1700000001500 1700000401500 H1 H2
              ltac:(discriminate)) as (_ & side & config & _ & Ec & [H0 | H]).
  - discriminate.
  - vm_compute in Ec. injection Ec as <-. exact H.
Defined.

Lemma alertKey_ne other symbol s1 s2 : other <> symbol -> alertKey other s1 <> alertKey symbol s2.
Proof. intros Hne E. apply alertKey_inj in E as [E _]. auto. Qed.

Lemma get_app_ne {V} key key' (v : V) (m : OrderedMap.t V) :
  key' <> key -> OrderedMap.get key' (m ++ [(key, v)]) = OrderedMap.get key' m.
Proof.
  intros Hne. unfold OrderedMap.get. f_equal.
  induction m as [| [k x] m IH]; cbn.
  - destruct (String.eqb_spec key key'); [congruence | reflexivity].
  - destruct (String.eqb k key'); [reflexivity | exact IH].
Qed.

(** X22.  A trade of one symbol leaves the window, the statistics, the
    cooldowns and the pending candidates of every other symbol as they
    were. *)
Theorem handleMessage_other_symbols CONFIG TRADING now symbol trade m other :
  other <> symbol ->
  let m' := handleMessage CONFIG TRADING now symbol trade m in
  TradeAggregator.states (tradeAggregator m') !! other
  = TradeAggregator.states (tradeAggregator m) !! other
  /\ TradeAggregator.getStats other (tradeAggregator m')
     = TradeAggregator.getStats other (tradeAggregator m)
  /\ (forall side,
         CooldownManager.lastAlerts (cooldownManager m') !! alertKey other side
         = CooldownManager.lastAlerts (cooldownManager m) !! alertKey other side)
  /\ (forall side,
         OrderedMap.get (alertKey other side) (AlertManager.pendingAlerts (alertManager m'))
         = OrderedMap.get (alertKey other side) (AlertManager.pendingAlerts (alertManager m))).
Proof.
  intros Hne m'.
  assert (Hadd : TradeAggregator.states (withTrade symbol trade (tradeAggregator m)) !! other
                 = TradeAggregator.states (tradeAggregator m) !! other).
  { unfold withTrade, TradeAggregator.addTrade. cbn. apply lookup_insert_ne. congruence. }
  assert (Hstates : TradeAggregator.states (tradeAggregator m') !! other
                    = TradeAggregator.states (tradeAggregator m) !! other).
  { destruct (handleMessage_cases CONFIG TRADING now symbol trade m) as [_ [Hq | H]].
    - destruct Hq as (Ht & _). fold m' in Ht. rewrite Ht. exact Hadd.
    - destruct H as (stats & config & interp & oi & _ & _ & _ & _ & _ & _ & Ht & _).
      fold m' in Ht. rewrite Ht. unfold TradeAggregator.resetSymbol.
      destruct (TradeAggregator.states _ !! symbol); [| exact Hadd].
      cbn. rewrite lookup_insert_ne by congruence. exact Hadd. }
  split; [exact Hstates |].
  split; [unfold TradeAggregator.getStats; rewrite Hstates; reflexivity |].
  destruct (handleMessage_cases CONFIG TRADING now symbol trade m) as [_ [Hq | H]].
  - destruct Hq as (_ & Hc & Hm). fold m' in Hc, Hm. rewrite Hc, Hm.
    split; intros side; reflexivity.
  - destruct H as (stats & config & interp & oi & _ & _ & _ & _ & _ & _ & _ & Hc & Hm).
    fold m' in Hc, Hm. rewrite Hc, Hm. split; intros side.
    + cbn. apply lookup_insert_ne. apply not_eq_sym. apply alertKey_ne. exact Hne.
    + destruct (OrderedMap.has (alertKey symbol (Stats.dominantSide stats))
                  (AlertManager.pendingAlerts (alertManager m))) eqn:E.
      * rewrite sendAlert_pending by exact E. reflexivity.
      * rewrite sendAlert_absent by exact E. apply get_app_ne. apply alertKey_ne. exact Hne.
Qed.

Lemma handleMessage_other_symbols_witness :
  let m' := handleMessage CONFIG_default TRADING_default 1700000500000 "XRPUSDT"
              (Sample.event 1700000499000 2 1000000 true) afterBurst in
  "ADAUSDT"%string <> "XRPUSDT"%string
  /\ TradeAggregator.states (tradeAggregator m') !! "ADAUSDT"%string
     = TradeAggregator.states (tradeAggregator afterBurst) !! "ADAUSDT"%string.
Proof.
  intros m'.
  assert (H : "ADAUSDT"%string <> "XRPUSDT"%string) by discriminate.
  split; [exact H |].
  exact (proj1 (handleMessage_other_symbols CONFIG_default TRADING_default 1700000500000
                  "XRPUSDT" (Sample.event 1700000499000 2 1000000 true) afterBurst
                  "ADAUSDT" H)).
Defined.





End PipelineFacts.

Module ReconnectFacts.

(** X24.  The trade stream of a symbol gives up after [MAX_RECONNECTS]
    closes in a row: after an [open] and [k] closes, the attempts counted
    are [k] capped at the limit, and the next close arms a reconnect,
    [5 (k + 1)] seconds ahead, exactly while [k] is below the limit. *)
Theorem reconnectSymbol_gives_up TRADING symbol m (k : nat) :
  let close := fun m => fst (MultiWebSocketManager.reconnectSymbol TRADING symbol m) in
  let mk := Nat.iter k close (MultiWebSocketManager.onOpen symbol m) in
  MultiWebSocketManager.reconnectAttempts mk !! symbol
  = Some (Nat.min k (MAX_RECONNECTS TRADING))
  /\ snd (MultiWebSocketManager.reconnectSymbol TRADING symbol mk)
     = (if Nat.ltb k (MAX_RECONNECTS TRADING) then Some (5000 * (Z.of_nat k + 1)) else None)
  /\ MultiWebSocketManager.tradeAggregator mk = MultiWebSocketManager.tradeAggregator m
  /\ MultiWebSocketManager.cooldownManager mk = MultiWebSocketManager.cooldownManager m
  /\ MultiWebSocketManager.alertManager mk = MultiWebSocketManager.alertManager m.
Proof.
  intros close mk.
  assert (H : MultiWebSocketManager.reconnectAttempts mk !! symbol
              = Some (Nat.min k (MAX_RECONNECTS TRADING))
              /\ MultiWebSocketManager.tradeAggregator mk = MultiWebSocketManager.tradeAggregator m
              /\ MultiWebSocketManager.cooldownManager mk = MultiWebSocketManager.cooldownManager m
              /\ MultiWebSocketManager.alertManager mk = MultiWebSocketManager.alertManager m).
  { unfold mk. induction k as [| k IH].
    - cbn. rewrite lookup_insert_eq. repeat split.
    - rewrite !Nat.iter_succ. destruct IH as (IH & I1 & I2 & I3).
      set (prev := Nat.iter k close (MultiWebSocketManager.onOpen symbol m)) in *.
      unfold close, MultiWebSocketManager.reconnectSymbol. rewrite IH. cbn [default from_option id].
      destruct (Nat.leb_spec (MAX_RECONNECTS TRADING) (Nat.min k (MAX_RECONNECTS TRADING)))
        as [Hle | Hlt]; cbn [fst].
      + rewrite IH. split; [f_equal; lia |]. split; [exact I1 |]. split; [exact I2 | exact I3].
      + cbn [MultiWebSocketManager.reconnectAttempts MultiWebSocketManager.tradeAggregator
               MultiWebSocketManager.cooldownManager MultiWebSocketManager.alertManager].
        rewrite lookup_insert_eq. split; [f_equal; lia |].
        split; [exact I1 |]. split; [exact I2 | exact I3]. }
  destruct H as (H & H1 & H2 & H3).
  split; [exact H |]. split; [| split; [exact H1 | split; [exact H2 | exact H3]]].
  unfold MultiWebSocketManager.reconnectSymbol. rewrite H. cbn [default from_option id].
  destruct (Nat.leb_spec (MAX_RECONNECTS TRADING) (Nat.min k (MAX_RECONNECTS TRADING)))
    as [Hle | Hlt]; cbn [snd].
  - destruct (Nat.ltb_spec k (MAX_RECONNECTS TRADING)); [lia | reflexivity].
  - destruct (Nat.ltb_spec k (MAX_RECONNECTS TRADING)); [| lia].
    do 2 f_equal. lia.
Qed.

(** X25.  The tracker never gives up while it runs: after an [open] and
    [k] closes the counter is [k], and the next close arms a reconnect
    [5 (k + 1)] seconds ahead, capped at 60 seconds, which it reaches from
    the twelfth close in a row on.  A stopped tracker arms nothing. *)
Theorem scheduleReconnect_backoff l (k : nat) :
  let close := fun l => fst (OKXOpenInterestTracker.scheduleReconnect l) in
  let lk := Nat.iter k close (OKXOpenInterestTracker.onOpen l) in
  (OKXOpenInterestTracker.isRunning l = true ->
   OKXOpenInterestTracker.reconnectCount lk = Z.of_nat k
   /\ snd (OKXOpenInterestTracker.scheduleReconnect lk)
      = Some (Z.min (5000 * (Z.of_nat k + 1)) 60000)
   /\ ((11 <= k)%nat -> snd (OKXOpenInterestTracker.scheduleReconnect lk) = Some 60000))
  /\ (OKXOpenInterestTracker.isRunning l = false ->
      lk = OKXOpenInterestTracker.onOpen l
      /\ snd (OKXOpenInterestTracker.scheduleReconnect lk) = None).
Proof.
  intros close lk. split; intros Hrun.
  - assert (H : OKXOpenInterestTracker.reconnectCount lk = Z.of_nat k
                /\ OKXOpenInterestTracker.isRunning lk = true).
    { unfold lk. induction k as [| k IH]; [split; [reflexivity | exact Hrun] |].
      rewrite Nat.iter_succ. destruct IH as [IH Hr].
      set (prev := Nat.iter k close (OKXOpenInterestTracker.onOpen l)) in *.
      unfold close, OKXOpenInterestTracker.scheduleReconnect. rewrite Hr. cbn.
      split; [lia | reflexivity]. }
    destruct H as [H Hr]. split; [exact H |].
    unfold OKXOpenInterestTracker.scheduleReconnect. rewrite Hr, H. cbn [negb snd].
    split; [reflexivity |]. intros Hk. f_equal. lia.
  - assert (H : lk = OKXOpenInterestTracker.onOpen l).
    { unfold lk. induction k as [| k IH]; [reflexivity |].
      rewrite Nat.iter_succ, IH. unfold close, OKXOpenInterestTracker.scheduleReconnect.
      cbn. rewrite Hrun. reflexivity. }
    split; [exact H |]. rewrite H. unfold OKXOpenInterestTracker.scheduleReconnect.
    cbn. rewrite Hrun. reflexivity.
Qed.

Lemma scheduleReconnect_backoff_witness :
  let l := {| OKXOpenInterestTracker.isRunning := true;
              OKXOpenInterestTracker.reconnectCount := 3 |} in
  let close := fun l => fst (OKXOpenInterestTracker.scheduleReconnect l) in
  snd (OKXOpenInterestTracker.scheduleReconnect
         (Nat.iter 20 close (OKXOpenInterestTracker.onOpen l)))
  = Some 60000.
Proof.
  intros l close.
  refine (proj2 (proj2 (proj1 (scheduleReconnect_backoff l 20) _)) _).
  - reflexivity.
  - lia.
Defined.

End ReconnectFacts.

Module ConfigFacts.


(** X26.  A 0 in the environment is read as unset.  The start and end
    hours of the trading span are never 0: a start hour given as 0 becomes
    5, so with the trading hours on no instant before 05:00 UTC is inside
    them, and a limit of 0 reconnects becomes 10.  With nothing set the
    fields are the defaults. *)
Theorem TRADING_fromEnv_zero hoursEnabled startHour endHour maxReconnects :
  let TRADING := TRADING_fromEnv hoursEnabled startHour endHour maxReconnects in
  TRADING_START_HOUR_UTC TRADING <> 0
  /\ TRADING_END_HOUR_UTC TRADING <> 0
  /\ (startHour = Some 0 ->
      TRADING_START_HOUR_UTC TRADING = 5
      /\ (hoursEnabled = true ->
          forall now, getUTCHours now < 5 -> isWithinTradingHours TRADING now = false))
  /\ (maxReconnects = Some 0 -> MAX_RECONNECTS TRADING = 10%nat)
  /\ TRADING_fromEnv false None None None = TRADING_default.
Proof.
  intros TRADING. unfold TRADING, TRADING_fromEnv. cbn.
  assert (Hnz : forall p d, d <> 0 -> parsedOr p d <> 0).
  { intros [n |] d Hd; cbn; [| exact Hd]. destruct (Z.eqb_spec n 0); assumption. }
  split; [apply Hnz; lia |]. split; [apply Hnz; lia |].
  split; [| split; [intros ->; reflexivity | reflexivity]].
  intros ->. split; [reflexivity |]. intros -> now Hlt.
  unfold isWithinTradingHours. cbn.
  rewrite (bool_decide_eq_false_2 (getUTCHours now >= 5)) by lia. reflexivity.
Qed.

Lemma TRADING_fromEnv_zero_witness :
  isWithinTradingHours (TRADING_fromEnv true (Some 0) (Some 24) None) (3 * 3600000) = false
  /\ isWithinTradingHours (TRADING_fromEnv true (Some 0) (Some 24) None) (5 * 3600000) = true.
Proof.
  split; [| reflexivity].
  refine (proj2 (proj1 (proj2 (proj2
            (TRADING_fromEnv_zero true (Some 0) (Some 24) None))) eq_refl) eq_refl _ _).
  vm_compute. reflexivity.
Defined.

End ConfigFacts.
